(** * The Chronicle table scraper: extraction, pagination and page loop

    A shallow embedding of [src/scraper.py] (class [ChronicleScraper]).

    - [PyStr]: the Python [str] operations the scraper uses.
    - [Soup]: the BeautifulSoup tree and the queries made on it.
    - [DetailParser]: [extract_row_data_from_soup].
    - [Selenium]: the WebDriver interface, exceptions, and the monad in which
      the stateful methods are written.
    - [Scraper]: [expand_row], [extract_row_data], [get_total_pages],
      [go_to_next_page], [wait_for_table], [scrape_all].
    - [Display]: the terminal table of [display_table].
    - [Session]: [login] and [main] over the browser, the terminal and the
      scraper's methods.
    - [Contracts]: the predicates in which the guarantees are stated.
    - [Samples]: concrete rows, pages and sessions on which the model runs.

    The properties follow the definitions, in the same order.

    Text is modelled as [string], the bytes of its UTF-8 encoding. [len],
    slices, [re.search] and [int] work on the code points these bytes encode;
    [strip], [lower] and [isdigit] are those of Python restricted to ASCII. *)

From Stdlib Require Import String Ascii List ZArith Bool Arith Lia.
Import ListNotations.
Open Scope string_scope.
Open Scope nat_scope.

Set Warnings "-register-all".

(* ===================================================================== *)
(** ** Python strings *)
(* ===================================================================== *)

Module PyStr.

Definition dquote : ascii := "034"%char.
Definition newline : ascii := "010"%char.
Definition colon : ascii := ":"%char.

(** [bool(s)]: a string is truthy when it is not empty. *)
Definition truthy (s : string) : bool :=
  match s with EmptyString => false | String _ _ => true end.

(** [str.isspace] on one ASCII character: tab, newline, vertical tab, form
    feed, carriage return, the four separators 28..31 and the space. *)
Definition isspace (c : ascii) : bool :=
  let n := nat_of_ascii c in
  ((9 <=? n) && (n <=? 13)) || ((28 <=? n) && (n <=? 32)).

Definition isdigit_char (c : ascii) : bool :=
  let n := nat_of_ascii c in (48 <=? n) && (n <=? 57).

Definition is_char (d c : ascii) : bool := Ascii.eqb c d.

Fixpoint lstrip_by (p : ascii -> bool) (s : string) : string :=
  match s with
  | EmptyString => EmptyString
  | String c r => if p c then lstrip_by p r else s
  end.

Fixpoint rstrip_by (p : ascii -> bool) (s : string) : string :=
  match s with
  | EmptyString => EmptyString
  | String c r =>
      match rstrip_by p r with
      | EmptyString => if p c then EmptyString else String c EmptyString
      | r' => String c r'
      end
  end.

(** [s.strip()] *)
Definition strip (s : string) : string := rstrip_by isspace (lstrip_by isspace s).

(** [s.strip(c)] for a one-character argument, used with the double quote. *)
Definition strip_char (c : ascii) (s : string) : string :=
  rstrip_by (is_char c) (lstrip_by (is_char c) s).

Definition strip_quotes : string -> string := strip_char dquote.

Definition lower_char (c : ascii) : ascii :=
  let n := nat_of_ascii c in
  if (65 <=? n) && (n <=? 90) then ascii_of_nat (n + 32) else c.

(** [s.lower()] *)
Fixpoint lower (s : string) : string :=
  match s with
  | EmptyString => EmptyString
  | String c r => String (lower_char c) (lower r)
  end.

(** [s.startswith(p)] *)
Definition startswith (s p : string) : bool := String.prefix p s.

(** [s.endswith(p)] *)
Definition endswith (s p : string) : bool :=
  (String.length p <=? String.length s)
  && String.eqb (substring (String.length s - String.length p) (String.length p) s) p.

(** [sub in s] *)
Fixpoint contains (sub s : string) : bool :=
  String.prefix sub s
  || match s with
     | EmptyString => false
     | String _ r => contains sub r
     end.

(** [c in s] for one character. *)
Fixpoint has_char (c : ascii) (s : string) : bool :=
  match s with
  | EmptyString => false
  | String d r => Ascii.eqb d c || has_char c r
  end.

(** [s.split(sep)] for a one-character separator: never the empty list. *)
Fixpoint split (sep : ascii) (s : string) : list string :=
  match s with
  | EmptyString => [EmptyString]
  | String c r =>
      if Ascii.eqb c sep then EmptyString :: split sep r
      else match split sep r with
           | h :: t => String c h :: t
           | [] => [String c EmptyString]
           end
  end.

(** [s.split(sep, 1)]: at most one cut, at the first separator. *)
Fixpoint split1 (sep : ascii) (s : string) : list string :=
  match s with
  | EmptyString => [EmptyString]
  | String c r =>
      if Ascii.eqb c sep then [EmptyString; r]
      else match split1 sep r with
           | h :: t => String c h :: t
           | [] => [String c EmptyString]
           end
  end.

(** [l[i]] on a list of strings; the scraper indexes [split(':', 1)] at 1
    only under the guard [':' in s], where the element exists. *)
Definition item (l : list string) (i : nat) : string := nth i l EmptyString.

(** [sep.join(l)] *)
Definition join (sep : string) (l : list string) : string := String.concat sep l.

(** Every character of [s] passes [p]. *)
Fixpoint all_chars (p : ascii -> bool) (s : string) : bool :=
  match s with
  | EmptyString => true
  | String c r => p c && all_chars p r
  end.

(** [s.isdigit()]: non-empty and made of digits only. *)
Definition all_digits (s : string) : bool := all_chars isdigit_char s.

Definition isdigit (s : string) : bool := truthy s && all_digits s.

(** *** Text as Python sees it: characters and code points *)

(** A UTF-8 continuation byte, [10xxxxxx]. *)
Definition is_continuation (c : ascii) : bool :=
  let n := nat_of_ascii c in (128 <=? n) && (n <? 192).

(** The characters of a text, each with its bytes: a byte that is not a
    continuation byte starts a new character. *)
Definition continues (s : string) : bool :=
  match s with
  | String d _ => is_continuation d
  | EmptyString => false
  end.

Fixpoint chars (s : string) : list string :=
  match s with
  | EmptyString => []
  | String c r =>
      match chars r with
      | h :: t =>
          if continues r then String c h :: t
          else String c EmptyString :: h :: t
      | [] => [String c EmptyString]
      end
  end.

Definition flatten (l : list string) : string := fold_right append EmptyString l.

(** [len(s)] *)
Definition len (s : string) : nat := length (chars s).

(** [s[:n]] for [n >= 0] *)
Definition slice_to (n : nat) (s : string) : string := flatten (firstn n (chars s)).

(** U+FFFD stands for bytes that encode no code point. *)
Definition replacement : N := 65533%N.

(** The six bits a continuation byte carries. *)
Definition payload (c : ascii) : N := (N_of_ascii c - 128)%N.

(** The code point of one character: one to four bytes, shortest form only,
    no surrogate. *)
Definition codepoint (ch : string) : N :=
  match ch with
  | String a EmptyString =>
      if (N_of_ascii a <? 128)%N then N_of_ascii a else replacement
  | String a (String b EmptyString) =>
      let n := ((N_of_ascii a - 192) * 64 + payload b)%N in
      if (192 <=? N_of_ascii a)%N && (N_of_ascii a <? 224)%N && (128 <=? n)%N
      then n else replacement
  | String a (String b (String c EmptyString)) =>
      let n := ((N_of_ascii a - 224) * 4096 + payload b * 64 + payload c)%N in
      if (224 <=? N_of_ascii a)%N && (N_of_ascii a <? 240)%N && (2048 <=? n)%N
         && negb ((55296 <=? n)%N && (n <=? 57343)%N)
      then n else replacement
  | String a (String b (String c (String d EmptyString))) =>
      let n := ((N_of_ascii a - 240) * 262144 + payload b * 4096
                + payload c * 64 + payload d)%N in
      if (240 <=? N_of_ascii a)%N && (N_of_ascii a <? 248)%N && (65536 <=? n)%N
         && (n <=? 1114111)%N
      then n else replacement
  | _ => replacement
  end.

(** A text as the sequence of its code points, which is what a [str] is. *)
Definition codepoints (s : string) : list N := map codepoint (chars s).

(** [\s] in a [str] pattern, the same characters as [str.isspace]: the ASCII
    ones, U+0085, U+00A0, U+1680, U+2000..U+200A, U+2028, U+2029, U+202F,
    U+205F and U+3000. *)
Definition isspace_cp (n : N) : bool :=
  ((9 <=? n)%N && (n <=? 13)%N) || ((28 <=? n)%N && (n <=? 32)%N)
  || (n =? 133)%N || (n =? 160)%N || (n =? 5760)%N
  || ((8192 <=? n)%N && (n <=? 8202)%N)
  || (n =? 8232)%N || (n =? 8233)%N || (n =? 8239)%N || (n =? 8287)%N
  || (n =? 12288)%N.

(** The decimal digits (category Nd) come in runs of ten, zero first: the
    zeros of Unicode 14.0, the database of Python 3.11. *)
Definition decimal_zeros : list N :=
  [ 48; 1632; 1776; 1984; 2406; 2534; 2662; 2790; 2918; 3046;
    3174; 3302; 3430; 3558; 3664; 3792; 3872; 4160; 4240; 6112;
    6160; 6470; 6608; 6784; 6800; 6992; 7088; 7232; 7248; 42528;
    43216; 43264; 43472; 43504; 43600; 44016; 65296; 66720; 68912; 69734;
    69872; 69942; 70096; 70384; 70736; 70864; 71248; 71360; 71472; 71904;
    72016; 72784; 73040; 73120; 92768; 92864; 93008; 120782; 120792; 120802;
    120812; 120822; 123200; 123632; 125264; 130032 ]%N.

Definition in_run (n z : N) : bool := (z <=? n)%N && (n <=? z + 9)%N.

(** The value of a decimal digit, [None] for any other character. *)
Definition digit_value (n : N) : option N :=
  match find (in_run n) decimal_zeros with
  | Some z => Some (n - z)%N
  | None => None
  end.

(** [\d] in a [str] pattern. *)
Definition isdecimal_cp (n : N) : bool :=
  match digit_value n with Some _ => true | None => false end.

(** [sys.get_int_max_str_digits()] as CPython starts with it. *)
Definition int_max_str_digits : Z := 4300%Z.

Fixpoint int_acc (acc : Z) (l : list N) : option Z :=
  match l with
  | [] => Some acc
  | c :: r =>
      match digit_value c with
      | Some d => int_acc (10 * acc + Z.of_N d) r
      | None => None
      end
  end.

(** [int(s)] on the text that [\d+] matched, decimal digits only; [None] is
    the [ValueError] raised for more than [int_max_str_digits] digits (and
    for no digit at all). A sign, underscores or surrounding white space,
    which [int] also reads, do not occur in such a text. *)
Definition int (l : list N) : option Z :=
  match l with
  | [] => None
  | _ :: _ =>
      if (int_max_str_digits <? Z.of_nat (length l))%Z then None else int_acc 0 l
  end.

(** The longest prefix of [l] whose elements satisfy [p], and the rest. *)
Fixpoint span {A : Type} (p : A -> bool) (l : list A) : list A * list A :=
  match l with
  | [] => ([], [])
  | c :: r =>
      if p c then let '(a, b) := span p r in (c :: a, b)
      else ([], l)
  end.

(** [re.search(r'of\s+(\d+)', s)], returning [match.group(1)].

    [match_of_at] is the match anchored at the start of the text: the letters
    [of] (code points 111 and 102), a maximal non-empty run of white space, a
    maximal non-empty run of decimal digits. White space and digits are
    disjoint classes, so giving back white space on backtracking never lets
    [\d+] succeed: the greedy attempt decides. [search_of] takes the leftmost
    start that matches. *)
Definition match_of_at (l : list N) : option (list N) :=
  match l with
  | c1 :: c2 :: rest =>
      if (c1 =? 111)%N && (c2 =? 102)%N then
        let '(ws, rest') := span isspace_cp rest in
        match ws with
        | [] => None
        | _ :: _ =>
            let '(ds, _) := span isdecimal_cp rest' in
            match ds with
            | [] => None
            | _ :: _ => Some ds
            end
        end
      else None
  | _ => None
  end.

Fixpoint search_of (l : list N) : option (list N) :=
  match match_of_at l with
  | Some ds => Some ds
  | None =>
      match l with
      | [] => None
      | _ :: r => search_of r
      end
  end.

Definition re_search_of (s : string) : option (list N) := search_of (codepoints s).

End PyStr.

(* ===================================================================== *)
(** ** The BeautifulSoup tree *)
(* ===================================================================== *)

Module Soup.
Import PyStr.

(** A parsed page: text nodes and tags. [attrs] is the tag's attribute
    dictionary (the first binding of a key is the one [get] returns);
    [contents] are the children in document order. Comments, CDATA sections
    and the strings of [script] and [style] elements, which [get_text] leaves
    out, are not part of the model. *)
Inductive node : Type :=
| NavigableString (s : string)
| Tag (name : string) (attrs : list (string * string)) (contents : list node).

Fixpoint lookup (k : string) (d : list (string * string)) : option string :=
  match d with
  | [] => None
  | (k', v) :: r => if String.eqb k' k then Some v else lookup k r
  end.

(** [x.name]: [None] on a text node. *)
Definition name_of (n : node) : option string :=
  match n with
  | NavigableString _ => None
  | Tag nm _ _ => Some nm
  end.

Definition name_is (n : node) (nm : string) : bool :=
  match name_of n with
  | Some x => String.eqb x nm
  | None => false
  end.

(** [tag.get(k)] *)
Definition get (n : node) (k : string) : option string :=
  match n with
  | NavigableString _ => None
  | Tag _ attrs _ => lookup k attrs
  end.

(** [tag.descendants]: every node below [n], in document order. *)
Fixpoint descendants (n : node) : list node :=
  match n with
  | NavigableString _ => []
  | Tag _ _ cs => flat_map (fun c => c :: descendants c) cs
  end.

(** [tag.find_all(name)] *)
Definition find_all (nm : string) (n : node) : list node :=
  filter (fun d => name_is d nm) (descendants n).

(** [tag.find_all(name, attr=True)]: the attribute is present. *)
Definition has_attr (k : string) (n : node) : bool :=
  match get n k with Some _ => true | None => false end.

Definition find_all_with_attr (nm k : string) (n : node) : list node :=
  filter (fun d => name_is d nm && has_attr k d) (descendants n).

(** The strings of [get_text]: the text nodes below [n] in document order;
    with [strip=True] each is stripped and the empty ones are dropped. *)
Definition one_string (strip_it : bool) (s : string) : list string :=
  if strip_it then (if truthy (strip s) then [strip s] else []) else [s].

Fixpoint all_strings (strip_it : bool) (n : node) : list string :=
  match n with
  | NavigableString s => one_string strip_it s
  | Tag _ _ cs => flat_map (all_strings strip_it) cs
  end.

(** [tag.get_text(separator=sep, strip=strip_it)] *)
Definition get_text (sep : string) (strip_it : bool) (n : node) : string :=
  join sep (all_strings strip_it n).

(** [tag.string]: the single text child, looked for through single tag
    children. *)
Fixpoint tag_string (n : node) : option string :=
  match n with
  | NavigableString s => Some s
  | Tag _ _ [c] => tag_string c
  | Tag _ _ _ => None
  end.

(** [tag.find(...)] for a test [p]: the first descendant in document order
    that passes, together with its [next_siblings]. *)
Fixpoint find_with_siblings (p : node -> bool) (n : node) : option (node * list node) :=
  match n with
  | NavigableString _ => None
  | Tag _ _ cs =>
      (fix scan (l : list node) : option (node * list node) :=
         match l with
         | [] => None
         | c :: r =>
             if p c then Some (c, r)
             else match find_with_siblings p c with
                  | Some hit => Some hit
                  | None => scan r
                  end
         end) cs
  end.

Definition find (p : node -> bool) (n : node) : option node :=
  option_map fst (find_with_siblings p n).

(** The tokens of a [class] attribute value: its maximal runs of
    non-white-space characters. *)
Fixpoint tokens_acc (cur : string) (s : string) : list string :=
  match s with
  | EmptyString => if truthy cur then [cur] else []
  | String c r =>
      if isspace c then (if truthy cur then cur :: tokens_acc EmptyString r
                         else tokens_acc EmptyString r)
      else tokens_acc (cur ++ String c EmptyString) r
  end.

Definition class_tokens (n : node) : option (list string) :=
  option_map (tokens_acc EmptyString) (get n "class").

(** How BeautifulSoup matches the multi-valued [class] attribute against a
    test [f]: some token passes, or the tokens joined by one space pass. *)
Definition class_matches (f : string -> bool) (n : node) : bool :=
  match class_tokens n with
  | None => false
  | Some toks => existsb f toks || f (join " " toks)
  end.

(** [find('td', class_='details')] *)
Definition is_details_cell (n : node) : bool :=
  name_is n "td" && class_matches (String.eqb "details") n.

(** [find('tr', id=v)] *)
Definition is_row_with_id (v : string) (n : node) : bool :=
  name_is n "tr" && match get n "id" with Some x => String.eqb x v | None => false end.

End Soup.

(* ===================================================================== *)
(** ** The detail parser: [extract_row_data_from_soup] *)
(* ===================================================================== *)

Module DetailParser.
Import PyStr Soup.

(** The dictionary returned for one table row. *)
Record ScrapedRecord : Type := {
  institution : string;
  state : string;
  impacts : string;
  source : string;
  source_links : list string;
  details : string;
  state_status : string;
  row_id : string
}.

(** Failure inside a [try] block is [None]; [let?] chains the steps. *)
Definition obind {A B : Type} (x : option A) (k : A -> option B) : option B :=
  match x with
  | Some a => k a
  | None => None
  end.

Notation "'let?' x ':=' e 'in' k" := (obind e (fun x => k))
  (at level 10, x name, e at level 100, k at level 200).

(** [cells[i].get_text(strip=True) if len(cells) > i else ""]; indexing past
    the end would raise [IndexError]. *)
Definition cell_text (cells : list node) (i : nat) : option string :=
  if i <? length cells then option_map (get_text EmptyString true) (nth_error cells i)
  else Some EmptyString.

(** [[link['href'] for link in links]]; a missing key would raise [KeyError]. *)
Fixpoint hrefs (links : list node) : option (list string) :=
  match links with
  | [] => Some []
  | link :: rest =>
      let? h := get link "href" in
      let? hs := hrefs rest in
      Some (h :: hs)
  end.

(** Lines 334-337: the links of the fourth cell, under the length guard. *)
Definition extract_source_links (cells : list node) : option (list string) :=
  if 3 <? length cells then
    let? cell := nth_error cells 3 in
    hrefs (find_all_with_attr "a" "href" cell)
  else Some [].

(** The [href] of an anchor selected with [href=True]. *)
Definition href_of (a : node) : string :=
  match get a "href" with Some v => v | None => EmptyString end.

(** [cells[3].find_all('a', href=True)]: the anchors of the source cell, in
    document order; none when there is no fourth cell. *)
Definition source_anchors (cells : list node) : list node :=
  match nth_error cells 3 with
  | Some cell => find_all_with_attr "a" "href" cell
  | None => []
  end.

(** *** Structured path *)

(** [find('b', string=lambda text: text and 'Details' in text)] *)
Definition is_details_bold (n : node) : bool :=
  name_is n "b"
  && match tag_string n with
     | Some text => truthy text && contains "Details" text
     | None => false
     end.

(** [find('b', string=lambda text: text and 'status:' in text.lower())] *)
Definition is_status_bold (n : node) : bool :=
  name_is n "b"
  && match tag_string n with
     | Some text => truthy text && contains "status:" (lower text)
     | None => false
     end.

(** Lines 353-365: the loop over the siblings after the Details marker; the
    result is [details_text_parts] in append order. *)
Fixpoint details_text_parts (siblings : list node) : list string :=
  match siblings with
  | [] => []
  | sibling :: rest =>
      if name_is sibling "br" then details_text_parts rest
      else
        match sibling with
        | NavigableString s =>
            let text := strip s in
            if truthy text
               && negb (startswith text (String dquote EmptyString))
               && negb (contains "status:" (lower text))
            then strip_quotes text :: details_text_parts rest
            else details_text_parts rest
        | Tag _ _ _ =>
            if name_is sibling "b"
               && contains "status:" (lower (get_text EmptyString false sibling))
            then []
            else
              let text := get_text EmptyString true sibling in
              if truthy text && negb (contains "status:" (lower text))
              then strip_quotes text :: details_text_parts rest
              else details_text_parts rest
        end
  end.

(** Lines 349-367. *)
Definition structured_details (details_cell : node) : string :=
  match find_with_siblings is_details_bold details_cell with
  | Some (_, siblings) => strip (join " " (details_text_parts siblings))
  | None => EmptyString
  end.

(** Lines 373-375: the value written inside the label itself. *)
Definition status_after_label (status_bold : node) : string :=
  let status_text := get_text EmptyString false status_bold in
  if has_char colon status_text then strip (item (split1 colon status_text) 1)
  else EmptyString.

(** Lines 378-390: the first sibling with text replaces [state_status]. *)
Fixpoint status_from_siblings (siblings : list node) (state_status : string) : string :=
  match siblings with
  | [] => state_status
  | sibling :: rest =>
      if name_is sibling "br" then status_from_siblings rest state_status
      else
        let text :=
          match sibling with
          | NavigableString s => strip_quotes (strip s)
          | Tag _ _ _ => strip_quotes (get_text EmptyString true sibling)
          end in
        if truthy text then text else status_from_siblings rest state_status
  end.

(** Lines 370-390. *)
Definition structured_status (details_cell : node) : string :=
  match find_with_siblings is_status_bold details_cell with
  | Some (status_bold, siblings) =>
      status_from_siblings siblings (status_after_label status_bold)
  | None => EmptyString
  end.

(** *** Fallback path *)

(** Lines 394-395. *)
Definition fallback_lines (details_cell : node) : list string :=
  let full_text := get_text (String newline EmptyString) true details_cell in
  map strip (filter (fun line => truthy (strip line)) (split newline full_text)).

(** Lines 397-417: the line classifier, with its two flags and two buckets. *)
Fixpoint fallback_loop (lines : list string) (in_details in_status : bool)
    (details_parts status_parts : list string) : list string * list string :=
  match lines with
  | [] => (details_parts, status_parts)
  | line :: rest =>
      if contains "Details" line && negb in_details then
        fallback_loop rest true false details_parts status_parts
      else if contains "status:" (lower line) then
        fallback_loop rest false true details_parts
          (if has_char colon line
           then (status_parts ++ [strip_quotes (strip (item (split1 colon line) 1))])%list
           else status_parts)
      else if in_details && negb in_status then
        fallback_loop rest in_details in_status
          (details_parts ++ [strip_quotes line])%list status_parts
      else if in_status then
        fallback_loop rest in_details in_status
          details_parts (status_parts ++ [strip_quotes line])%list
      else fallback_loop rest in_details in_status details_parts status_parts
  end.

Definition nonempty {A : Type} (l : list A) : bool :=
  match l with [] => false | _ :: _ => true end.

(** Line 393: [not details or not state_status]. *)
Definition needs_fallback (details state_status : string) : bool :=
  negb (truthy details) || negb (truthy state_status).

(** Lines 393-422: the two-tier merge. [details] and [state_status] are the
    values the structured path left. *)
Definition fallback_merge (details state_status : string) (details_cell : node)
  : string * string :=
  if needs_fallback details state_status then
    let '(details_parts, status_parts) :=
      fallback_loop (fallback_lines details_cell) false false [] [] in
    let details' :=
      if negb (truthy details) && nonempty details_parts
      then join " " details_parts else details in
    let state_status' :=
      if negb (truthy state_status) && nonempty status_parts
      then join " " status_parts else state_status in
    (details', state_status')
  else (details, state_status).

(** Lines 340-425. A tag is always truthy; a text node passed as the details
    row has no [find], and the [AttributeError] is caught at line 424 with
    both fields still empty. None of the tree queries raises. *)
Definition extract_details (details_row_soup : option node) : string * string :=
  match details_row_soup with
  | None => (EmptyString, EmptyString)
  | Some (NavigableString _) => (EmptyString, EmptyString)
  | Some (Tag _ _ _ as row) =>
      match find is_details_cell row with
      | None => (EmptyString, EmptyString)
      | Some details_cell =>
          fallback_merge (structured_details details_cell)
                         (structured_status details_cell) details_cell
      end
  end.

Section Availability.

(** The module-level flag set by the guarded [import bs4]. *)
Variable BEAUTIFULSOUP_AVAILABLE : bool.

(** Lines 300-440. [None] is both [return None] and the outer handler of
    line 438. *)
Definition extract_row_data_from_soup (row_soup : node) (details_row_soup : option node)
  : option ScrapedRecord :=
  if negb BEAUTIFULSOUP_AVAILABLE then None
  else
    match row_soup with
    | NavigableString _ => None
    | Tag _ _ _ =>
        let row_id := match get row_soup "id" with Some v => v | None => EmptyString end in
        if negb (truthy row_id) then None
        else
          let cells := find_all "td" row_soup in
          if length cells <? 3 then None
          else
            let? institution := cell_text cells 0 in
            let? state := cell_text cells 1 in
            let? impacts := cell_text cells 2 in
            let? source := cell_text cells 3 in
            let? source_links := extract_source_links cells in
            let '(details, state_status) := extract_details details_row_soup in
            Some {| institution := institution;
                    state := state;
                    impacts := impacts;
                    source := source;
                    source_links := source_links;
                    details := details;
                    state_status := state_status;
                    row_id := row_id |}
    end.

End Availability.

End DetailParser.

(* ===================================================================== *)
(** ** Selenium: the browser as an interface *)
(* ===================================================================== *)

Module Selenium.

(** The exceptions the scraper tells apart: the two it names in handlers, and
    every other [Exception]. *)
Inductive exn : Type :=
| NoSuchElementException
| TimeoutException
| OtherException.

Inductive result (A : Type) : Type :=
| Ok (a : A)
| Raise (e : exn).
Arguments Ok {A} a.
Arguments Raise {A} e.

Inductive By : Type := CSS_SELECTOR | XPATH | LINK_TEXT | ID.

(** Where a lookup starts: [driver.find_element] or [element.find_element]. *)
Inductive scope (E : Type) : Type :=
| Document
| Within (e : E).
Arguments Document {E}.
Arguments Within {E} e.

(** The three scripts passed to [driver.execute_script]. *)
Inductive script (E : Type) : Type :=
| ScrollToBottom
| ScrollIntoView (e : E)
| Click (e : E).
Arguments ScrollToBottom {E}.
Arguments ScrollIntoView {E} e.
Arguments Click {E} e.

(** The browser session and the HTML parser. Reading the page leaves the
    world as it is; scripts, sleeping and waiting move it on. Delays are in
    milliseconds, the wait time-out in seconds. *)
Record Driver : Type := {
  World : Type;
  Elem : Type;
  drv_get_attribute : World -> Elem -> string -> result (option string);
  drv_is_displayed : World -> Elem -> result bool;
  drv_is_enabled : World -> Elem -> result bool;
  drv_text : World -> Elem -> result string;
  drv_find_element : World -> scope Elem -> By -> string -> result Elem;
  drv_find_elements : World -> scope Elem -> By -> string -> result (list Elem);
  drv_page_source : World -> result string;
  drv_parse_html : string -> result Soup.node;
  drv_execute_script : World -> script Elem -> result unit * World;
  drv_sleep : World -> N -> World;
  drv_wait_presence : World -> Z -> string -> result Elem * World
}.

(** Sequencing with exceptions, shared by the two monads below. *)
Class Monad (m : Type -> Type) : Type := {
  ret : forall {A : Type}, A -> m A;
  bind : forall {A B : Type}, m A -> (A -> m B) -> m B;
  raise : forall {A : Type}, exn -> m A;
  catch : forall {A : Type}, m A -> (exn -> m A) -> m A
}.

Notation "x <- c ;; k" := (bind c (fun x => k))
  (at level 61, c at next level, right associativity).
Notation "c ;; k" := (bind c (fun _ => k))
  (at level 61, right associativity).

(** [try: body except Exception: handler] *)
Definition try_except {m : Type -> Type} `{Monad m} {A : Type} (body handler : m A) : m A :=
  catch body (fun _ => handler).

(** [try: body except NoSuchElementException: handler] *)
Definition try_except_nse {m : Type -> Type} `{Monad m} {A : Type} (body handler : m A) : m A :=
  catch body (fun e => match e with
                       | NoSuchElementException => handler
                       | _ => raise e
                       end).

(** [try: body except TimeoutException: handler] *)
Definition try_except_timeout {m : Type -> Type} `{Monad m} {A : Type} (body handler : m A) : m A :=
  catch body (fun e => match e with
                       | TimeoutException => handler
                       | _ => raise e
                       end).

Section WithDriver.

Variable D : Driver.

(** One executed script and whether it returned normally. *)
Definition event : Type := (script (Elem D) * bool)%type.

(** The session state: the browser and the scripts dispatched so far. *)
Record St : Type := {
  world : World D;
  scripts : list event
}.

(** Queries read the page. *)
Definition Q (A : Type) : Type := World D -> result A.

(** Commands may also act on it. *)
Definition M (A : Type) : Type := St -> result A * St.

#[export] Instance Monad_Q : Monad Q := {
  ret := fun A a _ => Ok a;
  bind := fun A B c k w => match c w with
                           | Ok a => k a w
                           | Raise e => Raise e
                           end;
  raise := fun A e _ => Raise e;
  catch := fun A c h w => match c w with
                          | Ok a => Ok a
                          | Raise e => h e w
                          end
}.

#[export] Instance Monad_M : Monad M := {
  ret := fun A a s => (Ok a, s);
  bind := fun A B c k s => match c s with
                           | (Ok a, s') => k a s'
                           | (Raise e, s') => (Raise e, s')
                           end;
  raise := fun A e s => (Raise e, s);
  catch := fun A c h s => match c s with
                          | (Ok a, s') => (Ok a, s')
                          | (Raise e, s') => h e s'
                          end
}.

(** A query run as a command. *)
Definition query {A : Type} (q : Q A) : M A := fun s => (q (world s), s).

Definition get_attribute (e : Elem D) (k : string) : Q (option string) :=
  fun w => drv_get_attribute D w e k.
Definition is_displayed (e : Elem D) : Q bool := fun w => drv_is_displayed D w e.
Definition is_enabled (e : Elem D) : Q bool := fun w => drv_is_enabled D w e.
Definition text (e : Elem D) : Q string := fun w => drv_text D w e.
Definition find_element (sc : scope (Elem D)) (b : By) (v : string) : Q (Elem D) :=
  fun w => drv_find_element D w sc b v.
Definition find_elements (sc : scope (Elem D)) (b : By) (v : string) : Q (list (Elem D)) :=
  fun w => drv_find_elements D w sc b v.
Definition page_source : Q string := fun w => drv_page_source D w.
Definition BeautifulSoup (html : string) : Q Soup.node := fun _ => drv_parse_html D html.

(** [driver.execute_script(...)]: the attempt is recorded with its outcome. *)
Definition execute_script (sc : script (Elem D)) : M unit :=
  fun s =>
    let '(r, w') := drv_execute_script D (world s) sc in
    (r, {| world := w';
           scripts := (scripts s ++ [(sc, match r with Ok _ => true | Raise _ => false end)])%list |}).

(** [time.sleep(ms / 1000)] *)
Definition sleep (ms : N) : M unit :=
  fun s => (Ok tt, {| world := drv_sleep D (world s) ms; scripts := scripts s |}).

(** [WebDriverWait(driver, t).until(EC.presence_of_element_located((By.CSS_SELECTOR, v)))] *)
Definition wait_presence (t : Z) (v : string) : M (Elem D) :=
  fun s =>
    let '(r, w') := drv_wait_presence D (world s) t v in
    (r, {| world := w'; scripts := scripts s |}).

(** A command that always comes back with a value. *)
Definition returns {A : Type} (m : M A) : Prop :=
  forall s, exists a, fst (m s) = Ok a.

End WithDriver.

Arguments query {D A} q.
Arguments returns {D A} m.
Arguments get_attribute {D} e k.
Arguments is_displayed {D} e.
Arguments is_enabled {D} e.
Arguments text {D} e.
Arguments find_element {D} sc b v.
Arguments find_elements {D} sc b v.
Arguments page_source {D}.
Arguments BeautifulSoup {D} html.
Arguments execute_script {D} sc.
Arguments sleep {D} ms.
Arguments wait_presence {D} t v.
Arguments world {D} s.
Arguments scripts {D} s.

End Selenium.

(* ===================================================================== *)
(** ** The scraper methods that drive the browser *)
(* ===================================================================== *)

Module Scraper.
Import PyStr Selenium DetailParser.

(** [x or ""] on an attribute value that may be [None]. *)
Definition or_empty (x : option string) : string :=
  match x with Some v => v | None => EmptyString end.

(** Line 249: the toggle selectors of strategy 1. *)
Definition toggle_selectors : list string :=
  ["button"; "[role='button']"; "a"; ".toggle"; ".expand"; ".collapse";
   "[class*='toggle']"; "[class*='expand']"; "[class*='icon']";
   "span[class*='icon']"; "span[class*='chevron']"].

(** Lines 583, 598, 613: what [go_to_next_page] probes. The last two link
    texts are the right guillemet and the single right angle quote, given by
    their UTF-8 bytes. *)
Definition aria_labels : list string := ["next"; "Next"; "next page"; "Go to next page"].

Definition raquo : string := String "194"%char (String "187"%char EmptyString).
Definition rsaquo : string :=
  String "226"%char (String "128"%char (String "186"%char EmptyString)).

Definition link_texts : list string := ["Next"; "Next page"; raquo; rsaquo].

Definition next_class_selectors : list string :=
  [".pagination-next"; ".next-page"; "[class*='pagination'] a[class*='next']";
   "[class*='next']"; "button.next"; "a.next"].

(** Line 212. *)
Definition table_selectors : list string :=
  ["table"; ".table"; "[data-testid='table']"; ".data-table"; "tbody"].

(** The two [logger] calls that are traced: lines 676 and 681. *)
Inductive log_msg : Type :=
| FoundPages (total_pages pages_to_scrape : Z)
| ScrapingPage (page_num : Z).

Section Methods.

Variable D : Driver.
Variable wait_time : Z.
Variable fast : bool.
Variable BEAUTIFULSOUP_AVAILABLE : bool.

#[local] Abbreviation Elem := (Selenium.Elem D).
#[local] Abbreviation Q := (Selenium.Q D).
#[local] Abbreviation M := (Selenium.M D).

(** *** [expand_row] (lines 231-281) *)

Definition settle : N := if fast then 500%N else 1000%N.

(** Lines 249-261: the loop over the toggle selectors; [true] when the method
    returned [True] from inside it. *)
Fixpoint try_toggles (first_cell : Elem) (selectors : list string) : M bool :=
  match selectors with
  | [] => ret false
  | selector :: rest =>
      clicked <- try_except_nse
                   (btn <- query (find_element (Within first_cell) CSS_SELECTOR selector) ;;
                    shown <- query (is_displayed btn) ;;
                    if shown then
                      execute_script (Click btn) ;;
                      sleep settle ;;
                      ret true
                    else ret false)
                   (ret false) ;;
      if clicked then ret true else try_toggles first_cell rest
  end.

(** Lines 247-263. *)
Definition expand_strategy_1 (row_element : Elem) : M bool :=
  try_except_nse
    (first_cell <- query (find_element (Within row_element) CSS_SELECTOR "td:first-child") ;;
     try_toggles first_cell toggle_selectors)
    (ret false).

(** Lines 266-272. *)
Definition expand_strategy_2 (row_element : Elem) : M bool :=
  try_except
    (first_cell <- query (find_element (Within row_element) CSS_SELECTOR "td:first-child") ;;
     execute_script (Click first_cell) ;;
     sleep settle ;;
     ret true)
    (ret false).

(** Lines 275-277. *)
Definition expand_strategy_3 (row_element : Elem) : M bool :=
  execute_script (Click row_element) ;;
  sleep settle ;;
  ret true.

(** Lines 243-277: what [expand_row] does once the row is known not to be
    open. *)
Definition expand_body (row_element : Elem) : M bool :=
  execute_script (ScrollIntoView row_element) ;;
  sleep (if fast then 200%N else 400%N) ;;
  done1 <- expand_strategy_1 row_element ;;
  if done1 then ret true
  else
    done2 <- expand_strategy_2 row_element ;;
    if done2 then ret true
    else expand_strategy_3 row_element.

Definition expand_row (row_element : Elem) : M bool :=
  try_except
    (cls <- query (get_attribute row_element "class") ;;
     let classes := or_empty cls in
     if contains "opened" classes then ret true
     else expand_body row_element)
    (ret false).

(** Reading the script trace: a click that went through, and the test of
    line 239 on the row as the browser shows it. *)
Definition is_click_ok (ev : event D) : bool :=
  match ev with
  | (Click _, true) => true
  | _ => false
  end.

Definition clicked (evs : list (event D)) : bool := existsb is_click_ok evs.

Definition already_opened (w : World D) (row_element : Elem) : bool :=
  match drv_get_attribute D w row_element "class" with
  | Ok cls => contains "opened" (or_empty cls)
  | Raise _ => false
  end.

(** A command tracks its click when the scripts it adds contain a click that
    went through exactly if it returns [True]. *)
Definition tracks_click (m : M bool) : Prop :=
  forall s, exists new,
    scripts (snd (m s)) = (scripts s ++ new)%list
    /\ (clicked new = true <-> fst (m s) = Ok true).

(** *** [parse_html_with_beautifulsoup] (lines 283-298) *)

Definition parse_html_with_beautifulsoup : Q (option Soup.node) :=
  if negb BEAUTIFULSOUP_AVAILABLE then ret None
  else
    try_except
      (html <- page_source ;;
       soup <- BeautifulSoup html ;;
       ret (Some soup))
      (ret None).

(** *** [extract_row_data] (lines 442-545) *)

(** [cells[i].text.strip() if len(cells) > i else ""] *)
Definition element_text (cells : list Elem) (i : nat) : Q string :=
  if i <? length cells then
    match nth_error cells i with
    | Some cell => t <- text cell ;; ret (strip t)
    | None => raise OtherException
    end
  else ret EmptyString.

(** Line 486: the [href] of every link that has a non-empty one. The
    attribute is read twice on the same page state; one read stands for both. *)
Fixpoint element_hrefs (links : list Elem) : Q (list string) :=
  match links with
  | [] => ret []
  | link :: rest =>
      h <- get_attribute link "href" ;;
      hs <- element_hrefs rest ;;
      ret (if truthy (or_empty h) then or_empty h :: hs else hs)
  end.

(** Lines 483-486. *)
Definition element_source_links (cells : list Elem) : Q (list string) :=
  if 3 <? length cells then
    match nth_error cells 3 with
    | Some cell =>
        links <- find_elements (Within cell) CSS_SELECTOR "a" ;;
        element_hrefs links
    | None => raise OtherException
    end
  else ret [].

(** Lines 497-520: the line loop of the Selenium path. *)
Record line_state : Type := {
  ls_details : string;
  ls_state_status : string;
  ls_details_lines : list string;
  ls_status_lines : list string;
  ls_in_status : bool
}.

Definition quoted (line : string) : bool :=
  startswith line (String dquote EmptyString) && endswith line (String dquote EmptyString).

Definition line_step (st : line_state) (raw : string) : line_state :=
  let line := strip raw in
  if negb (truthy line) || String.eqb line "Details" then st
  else if contains "status:" (lower line) then
    {| ls_details := ls_details st;
       ls_state_status := if has_char colon line
                          then strip (item (split1 colon line) 1)
                          else ls_state_status st;
       ls_details_lines := ls_details_lines st;
       ls_status_lines := ls_status_lines st;
       ls_in_status := true |}
  else if ls_in_status st then
    if truthy line && negb (startswith line (String dquote EmptyString)) then
      {| ls_details := ls_details st;
         ls_state_status := ls_state_status st;
         ls_details_lines := ls_details_lines st;
         ls_status_lines := (ls_status_lines st ++ [line])%list;
         ls_in_status := ls_in_status st |}
    else if quoted line then
      {| ls_details := ls_details st;
         ls_state_status := strip_quotes line;
         ls_details_lines := ls_details_lines st;
         ls_status_lines := ls_status_lines st;
         ls_in_status := ls_in_status st |}
    else st
  else
    if quoted line then
      {| ls_details := strip_quotes line;
         ls_state_status := ls_state_status st;
         ls_details_lines := ls_details_lines st;
         ls_status_lines := ls_status_lines st;
         ls_in_status := ls_in_status st |}
    else if truthy line then
      {| ls_details := ls_details st;
         ls_state_status := ls_state_status st;
         ls_details_lines := (ls_details_lines st ++ [line])%list;
         ls_status_lines := ls_status_lines st;
         ls_in_status := ls_in_status st |}
    else st.

(** Lines 495-525 on the rendered text of the details cell. *)
Definition parse_details_text (cell_text : string) : string * string :=
  let details_text := strip cell_text in
  let st := fold_left line_step (split newline details_text)
              {| ls_details := EmptyString; ls_state_status := EmptyString;
                 ls_details_lines := []; ls_status_lines := [];
                 ls_in_status := false |} in
  let details := if negb (truthy (ls_details st)) && nonempty (ls_details_lines st)
                 then join " " (ls_details_lines st) else ls_details st in
  let state_status := if negb (truthy (ls_state_status st)) && nonempty (ls_status_lines st)
                      then join " " (ls_status_lines st) else ls_state_status st in
  (details, state_status).

(** Lines 488-530. Both handlers only log; whatever raises does so before
    either field is assigned. *)
Definition element_details (row_id : string) : Q (string * string) :=
  try_except
    (details_row <- find_element Document ID ("details_" ++ row_id) ;;
     details_cell <- find_element (Within details_row) CSS_SELECTOR "td.details" ;;
     t <- text details_cell ;;
     ret (parse_details_text t))
    (ret (EmptyString, EmptyString)).

(** Lines 468-545: the Selenium backend. *)
Definition extract_row_data_selenium (row_element : Elem) : Q (option ScrapedRecord) :=
  try_except
    (rid <- get_attribute row_element "id" ;;
     let row_id := or_empty rid in
     if negb (truthy row_id) then ret None
     else
       cells <- find_elements (Within row_element) CSS_SELECTOR "td" ;;
       if length cells <? 3 then ret None
       else
         institution <- element_text cells 0 ;;
         state <- element_text cells 1 ;;
         impacts <- element_text cells 2 ;;
         source <- element_text cells 3 ;;
         source_links <- element_source_links cells ;;
         ds <- element_details row_id ;;
         ret (Some {| institution := institution;
                      state := state;
                      impacts := impacts;
                      source := source;
                      source_links := source_links;
                      details := fst ds;
                      state_status := snd ds;
                      row_id := row_id |}))
    (ret None).

(** Lines 453-466: the attempt through the parsed page; the outer [None] means
    that the method goes on to the Selenium backend. *)
Definition extract_row_data_via_soup (row_element : Elem) : Q (option (option ScrapedRecord)) :=
  if BEAUTIFULSOUP_AVAILABLE then
    try_except
      (rid <- get_attribute row_element "id" ;;
       let row_id := or_empty rid in
       if truthy row_id then
         parsed <- parse_html_with_beautifulsoup ;;
         match parsed with
         | Some soup =>
             match Soup.find (Soup.is_row_with_id row_id) soup with
             | Some row_soup =>
                 let details_row_soup :=
                   Soup.find (Soup.is_row_with_id ("details_" ++ row_id)) soup in
                 ret (Some (extract_row_data_from_soup BEAUTIFULSOUP_AVAILABLE
                              row_soup details_row_soup))
             | None => ret None
             end
         | None => ret None
         end
       else ret None)
      (ret None)
  else ret None.

Definition extract_row_data (row_element : Elem) : Q (option ScrapedRecord) :=
  returned <- extract_row_data_via_soup row_element ;;
  match returned with
  | Some row_data => ret row_data
  | None => extract_row_data_selenium row_element
  end.

(** *** [get_total_pages] (lines 547-570) *)

Definition items_per_page : Z := 25%Z.

(** Line 557. *)
Definition pages_for (total : Z) : Z :=
  ((total / items_per_page) + (if (total mod items_per_page >? 0)%Z then 1 else 0))%Z.

(** Lines 549-559: [Some n] when the method returns [n] from this block. The
    [ValueError] of [int] is raised inside the [try], like the others. *)
Definition pages_from_summary : Q (option Z) :=
  try_except
    (el <- find_element Document CSS_SELECTOR
             ".pagination-info, [class*='pagination'], [class*='count']" ;;
     pagination_text <- text el ;;
     match re_search_of pagination_text with
     | Some group1 =>
         match int group1 with
         | Some total => ret (Some (pages_for total))
         | None => raise OtherException
         end
     | None => ret None
     end)
    (ret None).

(** Lines 562-567. *)
Definition pages_from_buttons : Q (option Z) :=
  try_except
    (page_buttons <- find_elements Document CSS_SELECTOR ".page-number, [class*='page']" ;;
     if nonempty page_buttons then ret (Some (Z.of_nat (length page_buttons)))
     else ret None)
    (ret None).

Definition get_total_pages : Q Z :=
  a <- pages_from_summary ;;
  match a with
  | Some n => ret n
  | None =>
      b <- pages_from_buttons ;;
      match b with
      | Some n => ret n
      | None => ret 1%Z
      end
  end.

(** *** [go_to_next_page] (lines 572-655) *)

(** One probe of lines 584-595 and 599-610 and 628-633: the element, if it is
    found and displayed. *)
Definition probe (b : By) (v : string) : Q (list Elem) :=
  try_except_nse
    (el <- find_element Document b v ;;
     shown <- is_displayed el ;;
     ret (if shown then [el] else []))
    (ret []).

(** Lines 583-595. *)
Fixpoint candidates_by_aria_label (labels : list string) : Q (list Elem) :=
  match labels with
  | [] => ret []
  | label :: rest =>
      c1 <- probe CSS_SELECTOR ("button[aria-label*='" ++ label ++ "']") ;;
      c2 <- probe CSS_SELECTOR ("a[aria-label*='" ++ label ++ "']") ;;
      cs <- candidates_by_aria_label rest ;;
      ret (c1 ++ c2 ++ cs)%list
  end.

(** Lines 598-610. *)
Fixpoint candidates_by_link_text (texts : list string) : Q (list Elem) :=
  match texts with
  | [] => ret []
  | t :: rest =>
      c1 <- probe LINK_TEXT t ;;
      c2 <- probe XPATH ("//a[contains(., '" ++ t ++ "')]") ;;
      cs <- candidates_by_link_text rest ;;
      ret (c1 ++ c2 ++ cs)%list
  end.

(** Lines 620-622: the test on one element, with Python's short circuits. *)
Definition looks_like_next (el : Elem) : Q bool :=
  shown <- is_displayed el ;;
  if negb shown then ret false
  else
    aria <- get_attribute el "aria-label" ;;
    if contains "next" (lower (or_empty aria)) then ret true
    else
      t <- text el ;;
      if contains "next" (lower t) then ret true
      else
        cls <- get_attribute el "class" ;;
        ret (truthy (or_empty cls)).

(** Lines 619-625: the elements appended for one selector; an exception ends
    the selector and keeps what was appended before it. *)
Fixpoint keep_next_like (w : World D) (els : list Elem) : list Elem :=
  match els with
  | [] => []
  | el :: rest =>
      match looks_like_next el w with
      | Ok true => el :: keep_next_like w rest
      | Ok false => keep_next_like w rest
      | Raise _ => []
      end
  end.

(** Lines 613-625. *)
Definition candidates_by_class (selectors : list string) : Q (list Elem) :=
  fun w =>
    Ok (flat_map (fun selector =>
                    match find_elements Document CSS_SELECTOR selector w with
                    | Ok els => keep_next_like w els
                    | Raise _ => []
                    end) selectors).

(** Lines 580-633: the list [candidates]. *)
Definition find_candidates : Q (list Elem) :=
  c1 <- candidates_by_aria_label aria_labels ;;
  c2 <- candidates_by_link_text link_texts ;;
  c3 <- candidates_by_class next_class_selectors ;;
  c4 <- probe CSS_SELECTOR "[data-page='next'], [data-action='next']" ;;
  ret (c1 ++ c2 ++ c3 ++ c4)%list.

(** Lines 636-648: one candidate; [true] when the method returned [True]. *)
Definition click_attempt (next_btn : Elem) : M bool :=
  try_except
    (enabled <- query (is_enabled next_btn) ;;
     if negb enabled then ret false
     else
       execute_script (ScrollIntoView next_btn) ;;
       sleep 300%N ;;
       execute_script (Click next_btn) ;;
       sleep (if fast then 1500%N else 3000%N) ;;
       ret true)
    (ret false).

(** Lines 635-651. *)
Fixpoint click_first_enabled (candidates : list Elem) : M bool :=
  match candidates with
  | [] => ret false
  | next_btn :: rest =>
      went <- click_attempt next_btn ;;
      if went then ret true else click_first_enabled rest
  end.

Definition go_to_next_page : M bool :=
  try_except
    (execute_script ScrollToBottom ;;
     sleep 500%N ;;
     candidates <- query find_candidates ;;
     click_first_enabled candidates)
    (ret false).

(** Reading one click attempt: the candidate is enabled (the test of line
    637 passes), and the scroll or the click of lines 640-642 raises. *)
Definition enabled_now (w : World D) (next_btn : Elem) : bool :=
  match drv_is_enabled D w next_btn with
  | Ok true => true
  | _ => false
  end.

Definition attempt_throws (next_btn : Elem) (s : St D) : bool :=
  match execute_script (ScrollIntoView next_btn) s with
  | (Raise _, _) => true
  | (Ok _, s1) =>
      match (sleep 300%N ;; execute_script (Click next_btn)) s1 with
      | (Raise _, _) => true
      | (Ok _, _) => false
      end
  end.

(** No candidate gets through: each one in turn, in the session as the
    attempts before it left it, is not enabled or its attempt raises. *)
Fixpoint every_attempt_fails (candidates : list Elem) (s : St D) : bool :=
  match candidates with
  | [] => true
  | next_btn :: rest =>
      (negb (enabled_now (world s) next_btn) || attempt_throws next_btn s)
      && every_attempt_fails rest (snd (click_attempt next_btn s))
  end.

(** The session when the search for candidates starts (lines 576-577). *)
Definition after_scroll (s : St D) : St D :=
  snd ((execute_script ScrollToBottom ;; sleep 500%N) s).

(** *** [wait_for_table] (lines 206-229) *)

Fixpoint wait_for_selectors (selectors : list string) : M bool :=
  match selectors with
  | [] => ret false
  | selector :: rest =>
      found <- try_except_timeout
                 (wait_presence wait_time selector ;; ret true)
                 (ret false) ;;
      if found then ret true else wait_for_selectors rest
  end.

Definition wait_for_table : M bool := wait_for_selectors table_selectors.

(** *** [scrape_all] (lines 657-826) *)

(** Line 713: the test given as [class_]. *)
Definition result_class (x : string) : bool := truthy x && contains "result" x.

(** Lines 713-717. *)
Definition soup_result_rows (soup : Soup.node) : list Soup.node :=
  let result_rows :=
    filter (fun n => Soup.name_is n "tr" && Soup.class_matches result_class n)
           (Soup.descendants soup) in
  if nonempty result_rows then result_rows
  else filter (fun tr => (4 <=? length (Soup.find_all "td" tr))
                         && isdigit (or_empty (Soup.get tr "id")))
              (Soup.find_all_with_attr "tr" "id" soup).

(** Lines 721-727: what one parsed row appends to [all_data]. *)
Definition soup_row_records (soup row_soup : Soup.node) : list ScrapedRecord :=
  let row_id := or_empty (Soup.get row_soup "id") in
  if truthy row_id then
    let details_row_soup := Soup.find (Soup.is_row_with_id ("details_" ++ row_id)) soup in
    match extract_row_data_from_soup BEAUTIFULSOUP_AVAILABLE row_soup details_row_soup with
    | Some row_data => [row_data]
    | None => []
    end
  else [].

(** Lines 697-706 and 753-761: expand the rows by index, fetching the row
    list again each time; [true] from the body is the [break]. *)
Fixpoint expand_each (indices : list nat) : M unit :=
  match indices with
  | [] => ret tt
  | i :: rest =>
      stop <- try_except
                (rows <- query (find_elements Document CSS_SELECTOR "tr.result") ;;
                 if length rows <=? i then ret true
                 else
                   match nth_error rows i with
                   | Some row => expand_row row ;;
                                 sleep (if fast then 100%N else 300%N) ;;
                                 ret false
                   | None => raise OtherException
                   end)
                (ret false) ;;
      if stop then ret tt else expand_each rest
  end.

(** Lines 686-738: the page through the parsed HTML; the result is
    [page_done] and [all_data]. Nothing raises once rows are being appended. *)
Definition scrape_page_soup (all_data : list ScrapedRecord) : M (bool * list ScrapedRecord) :=
  try_except
    (wait_presence wait_time "tbody, table" ;;
     data_rows <- query (find_elements Document CSS_SELECTOR "tr.result") ;;
     expand_each (seq 0 (length data_rows)) ;;
     sleep (if fast then 500%N else 2000%N) ;;
     parsed <- query parse_html_with_beautifulsoup ;;
     match parsed with
     | Some soup =>
         ret (true, (all_data ++ flat_map (soup_row_records soup) (soup_result_rows soup))%list)
     | None => ret (false, all_data)
     end)
    (ret (false, all_data)).

(** Lines 769-780: what one live row appends, looked up in the parsed page. *)
Definition element_row_records (soup : Soup.node) (row : Elem) : Q (list ScrapedRecord) :=
  try_except
    (rid <- get_attribute row "id" ;;
     let row_id := or_empty rid in
     if truthy row_id then
       match Soup.find (Soup.is_row_with_id row_id) soup with
       | Some row_soup =>
           let details_row_soup :=
             Soup.find (Soup.is_row_with_id ("details_" ++ row_id)) soup in
           ret (match extract_row_data_from_soup BEAUTIFULSOUP_AVAILABLE
                        row_soup details_row_soup with
                | Some row_data => [row_data]
                | None => []
                end)
       | None => ret []
       end
     else ret [])
    (ret []).

(** Lines 768-780. *)
Fixpoint records_via_soup (soup : Soup.node) (data_rows : list Elem) : Q (list ScrapedRecord) :=
  match data_rows with
  | [] => ret []
  | row :: rest =>
      new <- element_row_records soup row ;;
      more <- records_via_soup soup rest ;;
      ret (new ++ more)%list
  end.

(** Lines 784-791 and 793-800: one [extract_row_data] per row. *)
Fixpoint extract_each (data_rows : list Elem) (all_data : list ScrapedRecord)
  : M (list ScrapedRecord) :=
  match data_rows with
  | [] => ret all_data
  | row :: rest =>
      new <- try_except
               (row_data <- query (extract_row_data row) ;;
                sleep (if fast then 100%N else 300%N) ;;
                ret (match row_data with Some d => [d] | None => [] end))
               (ret []) ;;
      extract_each rest (all_data ++ new)%list
  end.

(** Lines 742-804: the page through Selenium. *)
Definition scrape_page_selenium (expand_rows : bool) (all_data : list ScrapedRecord)
  : M (list ScrapedRecord) :=
  try_except
    (wait_presence wait_time "tbody, table" ;;
     data_rows <- query (find_elements Document CSS_SELECTOR "tr.result") ;;
     (if expand_rows then
        expand_each (seq 0 (length data_rows)) ;;
        sleep (if fast then 800%N else 1500%N)
      else ret tt) ;;
     if BEAUTIFULSOUP_AVAILABLE then
       parsed <- query parse_html_with_beautifulsoup ;;
       match parsed with
       | Some soup =>
           new <- query (records_via_soup soup data_rows) ;;
           ret (all_data ++ new)%list
       | None => extract_each data_rows all_data
       end
     else extract_each data_rows all_data)
    (ret all_data).

(** Lines 683-804: one page. *)
Definition scrape_page (expand_rows : bool) (all_data : list ScrapedRecord)
  : M (list ScrapedRecord) :=
  r <- (if BEAUTIFULSOUP_AVAILABLE && expand_rows then scrape_page_soup all_data
        else ret (false, all_data)) ;;
  let '(page_done, all_data') := r in
  if negb page_done then scrape_page_selenium expand_rows all_data'
  else ret all_data'.

(** What [scrape_all] leaves: its result, the log, the session. *)
Definition outcome : Type :=
  (result (list ScrapedRecord) * list log_msg * St D)%type.

(** Line 814: [max_pages is not None and page_num > max_pages]. *)
Definition over_cap (max_pages : option Z) (page_num : Z) : bool :=
  match max_pages with
  | Some m => (page_num >? m)%Z
  | None => false
  end.

(** Lines 680-820: the [while True] loop. [fuel] bounds the iterations of
    the model; [None] is the model running out of it. *)
Fixpoint scrape_loop (fuel : nat) (expand_rows : bool) (max_pages : option Z)
    (page_num : Z) (all_data : list ScrapedRecord) (log : list log_msg) (s : St D)
  : option outcome :=
  match fuel with
  | O => None
  | S fuel' =>
      let log := (log ++ [ScrapingPage page_num])%list in
      match scrape_page expand_rows all_data s with
      | (Raise e, s1) => Some (Raise e, log, s1)
      | (Ok all_data, s1) =>
          match go_to_next_page s1 with
          | (Raise e, s2) => Some (Raise e, log, s2)
          | (Ok false, s2) => Some (Ok all_data, log, s2)
          | (Ok true, s2) =>
              let page_num := (page_num + 1)%Z in
              if over_cap max_pages page_num then Some (Ok all_data, log, s2)
              else if (page_num >? 20)%Z then Some (Ok all_data, log, s2)
              else scrape_loop fuel' expand_rows max_pages page_num all_data log s2
          end
      end
  end.

(** Line 675: [min(total_pages, max_pages) if max_pages else total_pages]. *)
Definition pages_to_scrape (total_pages : Z) (max_pages : option Z) : Z :=
  match max_pages with
  | Some m => if (m =? 0)%Z then total_pages else Z.min total_pages m
  | None => total_pages
  end.

Definition scrape_all (fuel : nat) (expand_rows : bool) (max_pages : option Z) (s : St D)
  : option outcome :=
  match wait_for_table s with
  | (Raise e, s1) => Some (Raise e, [], s1)
  | (Ok _, s1) =>
      match (sleep (if fast then 1000%N else 2000%N) ;; query get_total_pages) s1 with
      | (Raise e, s2) => Some (Raise e, [], s2)
      | (Ok total_pages, s2) =>
          scrape_loop fuel expand_rows max_pages 1%Z []
            [FoundPages total_pages (pages_to_scrape total_pages max_pages)] s2
      end
  end.

(** The pages the loop worked on, read off the log. *)
Fixpoint pages_scraped (log : list log_msg) : list Z :=
  match log with
  | [] => []
  | ScrapingPage n :: rest => n :: pages_scraped rest
  | FoundPages _ _ :: rest => pages_scraped rest
  end.

(** The page numbers [first], [first + 1], ... ([k] of them). *)
Fixpoint page_range (first : Z) (k : nat) : list Z :=
  match k with
  | O => []
  | S k' => first :: page_range (first + 1)%Z k'
  end.

End Methods.

End Scraper.

(* ===================================================================== *)
(** ** The terminal table: [display_table] with [tabulate] *)
(* ===================================================================== *)

Module Display.
Import PyStr DetailParser.

(** [s[:n]] on a string: its first [n] characters. *)
Definition take (n : nat) (s : string) : string := slice_to n s.

(** [l[:n]] on a list, for any integer [n]: a negative [n] counts from the end. *)
Definition py_take {A : Type} (l : list A) (n : Z) : list A :=
  if (n >=? 0)%Z then firstn (Z.to_nat n) l
  else firstn (length l - Z.to_nat (- n)) l.

(** Lines 910-914: [x[:limit] + '...' if len(x) > limit else x]. *)
Definition shorten (limit : nat) (x : string) : string :=
  if limit <? len x then take limit x ++ "..." else x.

(** Line 904: [data[:max_rows] if len(data) > max_rows else data]. *)
Definition display_data (data : list ScrapedRecord) (max_rows : Z) : list ScrapedRecord :=
  if (Z.of_nat (length data) >? max_rows)%Z then py_take data max_rows else data.

(** Lines 909-915: one row of the table. *)
Definition table_row (row : ScrapedRecord) : list string :=
  [shorten 40 (institution row);
   state row;
   shorten 30 (impacts row);
   shorten 30 (source row);
   shorten 50 (details row)].

(** Lines 907-915: [table_data]. *)
Definition table_data (data : list ScrapedRecord) (max_rows : Z) : list (list string) :=
  map table_row (display_data data max_rows).

(** Lines 923-924: the number announced as "more rows", if the line is printed. *)
Definition more_rows (data : list ScrapedRecord) (max_rows : Z) : option Z :=
  if (Z.of_nat (length data) >? max_rows)%Z
  then Some (Z.of_nat (length data) - max_rows)%Z
  else None.

End Display.

(* ===================================================================== *)
(** ** Logging in and the command-line entry point *)
(* ===================================================================== *)

Module Session.
Import PyStr DetailParser Selenium.

(** What a call can end with instead of a value: a [KeyboardInterrupt], which
    [except Exception] lets through, or an [Exception]. *)
Inductive raised : Type :=
| KeyboardInterrupt
| Error (e : exn).

Inductive completion (A : Type) : Type :=
| Done (a : A)
| Thrown (x : raised).
Arguments Done {A} a.
Arguments Thrown {A} x.

(** The browser, the operator's terminal and the scraper's other methods, as
    [login] and [main] call them. [time.sleep] can only be interrupted:
    [host_sleep] answers [true] when it was. *)
Record Host : Type := {
  HWorld : Type;
  HElem : Type;
  host_get : string -> HWorld -> completion unit * HWorld;
  host_find_element : By -> string -> HWorld -> completion HElem * HWorld;
  host_wait_presence : Z -> string -> HWorld -> completion HElem * HWorld;
  host_click : HElem -> HWorld -> completion unit * HWorld;
  host_clear : HElem -> HWorld -> completion unit * HWorld;
  host_send_keys : HElem -> string -> HWorld -> completion unit * HWorld;
  host_input : string -> HWorld -> completion unit * HWorld;
  host_sleep : Z -> HWorld -> bool * HWorld;
  host_scrape_all : bool -> option Z -> HWorld -> completion (list ScrapedRecord) * HWorld;
  host_display_table : list ScrapedRecord -> HWorld -> completion unit * HWorld;
  host_save_to_csv : list ScrapedRecord -> string -> HWorld -> completion unit * HWorld;
  host_save_to_json : list ScrapedRecord -> string -> HWorld -> completion unit * HWorld;
  host_save_to_excel : list ScrapedRecord -> string -> HWorld -> completion unit * HWorld;
  host_close : HWorld -> completion unit * HWorld
}.

(** The parsed command line, as far as [main] reads it after the scraper is
    built. *)
Record Args : Type := {
  email : option string;
  password : option string;
  no_expand : bool;
  no_display : bool;
  max_pages : option Z;
  output_csv : string;
  output_json : string;
  output_excel : string
}.

Definition url : string :=
  "https://www.chronicle.com/article/tracking-higher-eds-dismantling-of-dei".

Definition login_selectors : list string :=
  [ "a[href*='login']"; "a[href*='sign-in']"; "button:contains('Sign In')";
    "a:contains('Log In')"; ".login"; "#login"; "[data-testid='login']" ].

Definition email_selectors : list string :=
  [ "input[type='email']"; "input[name='email']"; "input[name='username']";
    "input[id*='email']"; "input[id*='username']"; "#email"; "#username" ].

Definition submit_selectors : list string :=
  [ "button[type='submit']"; "input[type='submit']"; "button:contains('Sign In')";
    "button:contains('Log In')"; ".submit-button" ].

Definition press_enter : string := "Press Enter after logging in...".
Definition press_enter_if_needed : string := "Press Enter after logging in (if needed)...".

Section WithHost.

Variable H : Host.

(** The calls that act on the browser, the terminal or the output files. *)
Inductive call : Type :=
| Get (address : string)
| ElementClick (e : HElem H)
| ElementClear (e : HElem H)
| SendKeys (e : HElem H) (keys : string)
| Input (prompt : string)
| ScrapeAll (expand_rows : bool) (pages : option Z)
| DisplayTable (data : list ScrapedRecord)
| SaveToCsv (data : list ScrapedRecord) (filename : string)
| SaveToJson (data : list ScrapedRecord) (filename : string)
| SaveToExcel (data : list ScrapedRecord) (filename : string)
| Close.

(** A run: the host and the calls attempted so far, oldest first. *)
Record Run : Type := {
  host : HWorld H;
  calls : list call
}.

Definition P (A : Type) : Type := Run -> completion A * Run.

(** [raise] throws an [Exception]; [catch] is [except Exception as e], so a
    [KeyboardInterrupt] passes through it. *)
#[export] Instance Monad_P : Monad P := {
  ret := fun A a s => (Done a, s);
  bind := fun A B c k s => match c s with
                           | (Done a, s') => k a s'
                           | (Thrown x, s') => (Thrown x, s')
                           end;
  raise := fun A e s => (Thrown (Error e), s);
  catch := fun A c h s => match c s with
                          | (Thrown (Error e), s') => h e s'
                          | other => other
                          end
}.

(** A call that is recorded, and one that only looks or waits. *)
Definition perform {A : Type} (c : call) (f : HWorld H -> completion A * HWorld H) : P A :=
  fun s => let '(r, w) := f (host s) in (r, {| host := w; calls := (calls s ++ [c])%list |}).

Definition observe {A : Type} (f : HWorld H -> completion A * HWorld H) : P A :=
  fun s => let '(r, w) := f (host s) in (r, {| host := w; calls := calls s |}).

Definition get (address : string) : P unit := perform (Get address) (host_get H address).
Definition find_element (b : By) (v : string) : P (HElem H) := observe (host_find_element H b v).
Definition wait_until_present (t : Z) (v : string) : P (HElem H) :=
  observe (host_wait_presence H t v).
Definition click (e : HElem H) : P unit := perform (ElementClick e) (host_click H e).
Definition clear (e : HElem H) : P unit := perform (ElementClear e) (host_clear H e).
Definition send_keys (e : HElem H) (keys : string) : P unit :=
  perform (SendKeys e keys) (host_send_keys H e keys).
Definition input (prompt : string) : P unit := perform (Input prompt) (host_input H prompt).
Definition scrape_all (expand_rows : bool) (pages : option Z) : P (list ScrapedRecord) :=
  perform (ScrapeAll expand_rows pages) (host_scrape_all H expand_rows pages).
Definition display_table (data : list ScrapedRecord) : P unit :=
  perform (DisplayTable data) (host_display_table H data).
Definition save_to_csv (data : list ScrapedRecord) (filename : string) : P unit :=
  perform (SaveToCsv data filename) (host_save_to_csv H data filename).
Definition save_to_json (data : list ScrapedRecord) (filename : string) : P unit :=
  perform (SaveToJson data filename) (host_save_to_json H data filename).
Definition save_to_excel (data : list ScrapedRecord) (filename : string) : P unit :=
  perform (SaveToExcel data filename) (host_save_to_excel H data filename).
Definition close : P unit := perform Close (host_close H).

(** [time.sleep(seconds)] *)
Definition sleep (seconds : Z) : P unit :=
  fun s =>
    let '(interrupted, w) := host_sleep H seconds (host s) in
    (if interrupted then Thrown KeyboardInterrupt else Done tt,
     {| host := w; calls := calls s |}).

(** [selector.split("'")[1]], an [IndexError] when the selector has no quote. *)
Definition quoted_text (selector : string) : P string :=
  match split "'"%char selector with
  | _ :: text :: _ => ret text
  | _ => raise OtherException
  end.

(** The body of the [try] in the two selector loops: a [:contains(...)]
    selector is looked up by XPath under [tag], any other one as CSS. *)
Definition locate (tag selector : string) : P (HElem H) :=
  if contains ":contains(" selector then
    text <- quoted_text selector ;;
    find_element XPATH ("//" ++ tag ++ "[contains(text(), '" ++ text ++ "')]")
  else
    find_element CSS_SELECTOR selector.

(** [for selector in selectors: try: ... break; except NoSuchElementException:
    continue]: the first element found, a web element being truthy. *)
Fixpoint first_located (tag : string) (selectors : list string) : P (option (HElem H)) :=
  match selectors with
  | [] => ret None
  | selector :: rest =>
      try_except_nse (e <- locate tag selector ;; ret (Some e))
                     (first_located tag rest)
  end.

(** The same loop over [wait.until(...)], skipping on [TimeoutException]. *)
Fixpoint first_present (wait_time : Z) (selectors : list string) : P (option (HElem H)) :=
  match selectors with
  | [] => ret None
  | selector :: rest =>
      try_except_timeout (e <- wait_until_present wait_time selector ;; ret (Some e))
                         (first_present wait_time rest)
  end.

(** The [try] block of [login]. *)
Definition login_steps (wait_time : Z) (email password : string) : P unit :=
  login_element <- first_located "a" login_selectors ;;
  match login_element with
  | Some e => click e ;; sleep 2
  | None => ret tt
  end ;;
  email_field <- first_present wait_time email_selectors ;;
  match email_field with
  | None => input press_enter
  | Some email_field =>
      clear email_field ;;
      send_keys email_field email ;;
      sleep 1 ;;
      password_field <- find_element CSS_SELECTOR "input[type='password']" ;;
      clear password_field ;;
      send_keys password_field password ;;
      sleep 1 ;;
      submit_button <- first_located "button" submit_selectors ;;
      match submit_button with
      | Some b => click b ;; sleep 5
      | None => input press_enter
      end
  end.

Definition login (wait_time : Z) (email password : string) : P unit :=
  get url ;;
  sleep 3 ;;
  try_except (login_steps wait_time email password) (sleep 3).

(** [args.email and args.password] *)
Definition credentials (args : Args) : option (string * string) :=
  match email args, password args with
  | Some e, Some p => if truthy e && truthy p then Some (e, p) else None
  | _, _ => None
  end.

(** Lines 1012-1016; the scraper was built with the default [wait_time]
    of 10. *)
Definition sign_in (args : Args) : P unit :=
  match credentials args with
  | Some (e, p) => login 10 e p
  | None => input press_enter_if_needed
  end.

(** The [try] block of [main]; [pandas] is [PANDAS_AVAILABLE]. *)
Definition main_steps (pandas : bool) (args : Args) : P unit :=
  sign_in args ;;
  data <- scrape_all (negb (no_expand args)) (max_pages args) ;;
  match data with
  | [] => ret tt
  | _ :: _ =>
      (if negb (no_display args) then display_table data else ret tt) ;;
      save_to_csv data (output_csv args) ;;
      save_to_json data (output_json args) ;;
      (if pandas then save_to_excel data (output_excel args) else ret tt)
  end.

(** [try: ... except KeyboardInterrupt: log; except Exception: log, raise;
    finally: scraper.close()] *)
Definition main (pandas : bool) (args : Args) : P unit :=
  fun s =>
    let '(r, s1) := main_steps pandas args s in
    let pending := match r with
                   | Thrown KeyboardInterrupt => Done tt
                   | _ => r
                   end in
    match close s1 with
    | (Done _, s2) => (pending, s2)
    | (Thrown x, s2) => (Thrown x, s2)
    end.

(** The keys typed into the page, in order. *)
Definition typed (l : list call) : list string :=
  flat_map (fun c => match c with SendKeys _ keys => [keys] | _ => [] end) l.

(** The calls [login] can make. *)
Definition login_call (c : call) : Prop :=
  match c with
  | Get _ | ElementClick _ | ElementClear _ | SendKeys _ _ | Input _ => True
  | _ => False
  end.

Definition is_export (c : call) : bool :=
  match c with
  | DisplayTable _ | SaveToCsv _ _ | SaveToJson _ _ | SaveToExcel _ _ => true
  | _ => false
  end.

(** The display and the three files, as [main] goes through them. *)
Definition exports_of (pandas : bool) (args : Args) (data : list ScrapedRecord) : list call :=
  ((if negb (no_display args) then [DisplayTable data] else [])
   ++ [SaveToCsv data (output_csv args); SaveToJson data (output_json args)]
   ++ (if pandas then [SaveToExcel data (output_excel args)] else []))%list.

(** What a display or save call does to the host. *)
Definition export_effect (c : call) : HWorld H -> completion unit * HWorld H :=
  match c with
  | DisplayTable data => host_display_table H data
  | SaveToCsv data filename => host_save_to_csv H data filename
  | SaveToJson data filename => host_save_to_json H data filename
  | SaveToExcel data filename => host_save_to_excel H data filename
  | _ => fun w => (Done tt, w)
  end.

(** The calls of [cs] that are made when they are tried in order from [w]:
    all of them up to and including the first that does not return. *)
Fixpoint reached (cs : list call) (w : HWorld H) : list call :=
  match cs with
  | [] => []
  | c :: rest =>
      c :: match export_effect c w with
           | (Done _, w') => reached rest w'
           | (Thrown _, _) => []
           end
  end.

(** A computation that records no call. *)
Definition silent {A : Type} (c : P A) : Prop :=
  forall s, calls (snd (c s)) = calls s.

End WithHost.

Arguments Get {H} address.
Arguments ElementClick {H} e.
Arguments ElementClear {H} e.
Arguments SendKeys {H} e keys.
Arguments Input {H} prompt.
Arguments ScrapeAll {H} expand_rows pages.
Arguments DisplayTable {H} data.
Arguments SaveToCsv {H} data filename.
Arguments SaveToJson {H} data filename.
Arguments SaveToExcel {H} data filename.
Arguments Close {H}.
Arguments host {H} r.
Arguments calls {H} r.
Arguments typed {H} l.
Arguments login_call {H} c.
Arguments is_export {H} c.
Arguments silent {H A} c.

End Session.

(* ===================================================================== *)
(** ** Predicates used to state what the methods guarantee *)
(* ===================================================================== *)

Module Contracts.
Import PyStr Soup Selenium DetailParser Scraper.

(** What a command, or a query, guarantees about the value it returns, if it
    returns one. *)
Definition ensures {D : Driver} {A : Type} (m : M D A) (P : A -> Prop) : Prop :=
  forall s, match fst (m s) with
            | Ok a => P a
            | Raise _ => True
            end.

Definition ensures_q {D : Driver} {A : Type} (q : Q D A) (P : A -> Prop) : Prop :=
  forall w, match q w with
            | Ok a => P a
            | Raise _ => True
            end.

(** A record that names its row. *)
Definition has_id (r : ScrapedRecord) : Prop := row_id r <> EmptyString.

(** A list that continues [old] with records that name their rows. *)
Definition extends_with_ids (old : list ScrapedRecord) (l : list ScrapedRecord) : Prop :=
  exists new, l = (old ++ new)%list /\ Forall has_id new.

(** The test of lines 318-325 on a parsed row: an identifier and three cells. *)
Definition qualifies (row_soup : node) : bool :=
  truthy (or_empty (get row_soup "id")) && (3 <=? length (find_all "td" row_soup)).

(** A command stops at its click: if it returns [True], the last script it
    ran is a click that went through, the only such one; if it does not, no
    click went through. *)
Definition stops_at_click {D : Driver} (m : M D bool) : Prop :=
  forall s, exists new,
    scripts (snd (m s)) = (scripts s ++ new)%list
    /\ ((fst (m s) = Ok true
         /\ exists before e, new = (before ++ [(Click e, true)])%list
                             /\ clicked D before = false)
        \/ (fst (m s) <> Ok true /\ clicked D new = false)).

(** A sequence that is empty or whose first element fails [p]. *)
Definition starts_without {A : Type} (p : A -> bool) (l : list A) : Prop :=
  match l with
  | [] => True
  | c :: _ => p c = false
  end.

(** A text without the letter [o] (code point 111). *)
Definition without_o (l : list N) : bool := forallb (fun c => negb (c =? 111)%N) l.




(** A line that the line parser of lines 402-417 takes for no marker. *)
Definition unmarked (line : string) : Prop :=
  contains "Details" line = false /\ contains "status:" (lower line) = false.

(** The [href] of a live link as line 486 sees it: empty when the attribute
    is missing or cannot be read. *)
Definition href_now (D : Driver) (w : World D) (link : Elem D) : string :=
  match drv_get_attribute D w link "href" with
  | Ok h => or_empty h
  | Raise _ => EmptyString
  end.

End Contracts.

(* ===================================================================== *)
(** ** Sample pages and sessions *)
(* ===================================================================== *)

Module Samples.
Import PyStr Soup DetailParser Selenium.

Definition td (contents : list node) : node := Tag "td" [] contents.
Definition anchor (href label : string) : node :=
  Tag "a" [("href", href)] [NavigableString label].

(** A main row with four cells; the source cell repeats one link and has an
    anchor without [href]. *)
Definition row_228 : node :=
  Tag "tr" [("id", "228"); ("class", "result odd")]
    [td [NavigableString "Example University"];
     td [NavigableString " TX "];
     td [NavigableString "Office closed"];
     td [anchor "https://a.example/1" "News";
         NavigableString ", ";
         anchor "https://a.example/1" "News again";
         Tag "a" [("name", "x")] [NavigableString "anchor only"];
         anchor "https://b.example/2" "Memo"]].

(** Its details row, marked up the way the structured path expects. *)
Definition details_228 : node :=
  Tag "tr" [("id", "details_228")]
    [Tag "td" [("class", "details"); ("colspan", "4")]
       [Tag "b" [] [NavigableString "Details"];
        Tag "br" [] [];
        NavigableString "The office was closed in 2024.";
        Tag "br" [] [];
        Tag "b" [] [NavigableString "State status:"];
        NavigableString " Law enacted"]].

(** A details row where only the Details marker is in bold: the structured
    path finds the details and no status, and skips the quoted remark, which
    the line parser would keep. *)
Definition details_partial : node :=
  Tag "tr" [("id", "details_7")]
    [Tag "td" [("class", "details")]
       [Tag "b" [] [NavigableString "Details"];
        NavigableString "Office closed.";
        Tag "br" [] [];
        NavigableString (String dquote ("quoted remark" ++ String dquote EmptyString));
        Tag "p" [] [NavigableString "Status: pending"]]].

Definition cell_partial : node :=
  Tag "td" [("class", "details")]
    [Tag "b" [] [NavigableString "Details"];
     NavigableString "Office closed.";
     Tag "br" [] [];
        NavigableString (String dquote ("quoted remark" ++ String dquote EmptyString));
     Tag "p" [] [NavigableString "Status: pending"]].

(** A row with exactly three cells, and one with two. *)
Definition row_three : node :=
  Tag "tr" [("id", "31"); ("class", "result")]
    [td [NavigableString "College A"]; td [NavigableString "OH"];
     td [NavigableString "Program renamed"]].

Definition row_two : node :=
  Tag "tr" [("id", "32"); ("class", "result")]
    [td [NavigableString "College B"]; td [NavigableString "OH"]].

(** Three cells and no [id]. *)
Definition row_no_id : node :=
  Tag "tr" [("class", "result")]
    [td [NavigableString "College C"]; td [NavigableString "OH"];
     td [NavigableString "Program renamed"]].

(** A session over a page that does not change: elements are numbered, every
    read is a table look-up, every script has a fixed outcome. *)
Definition static_driver
    (attr : nat -> string -> result (option string))
    (displayed enabled : nat -> result bool)
    (txt : nat -> result string)
    (find1 : scope nat -> By -> string -> result nat)
    (findN : scope nat -> By -> string -> result (list nat))
    (source : result string)
    (parse : string -> result node)
    (exec : script nat -> result unit) : Driver :=
  {| World := unit;
     Elem := nat;
     drv_get_attribute := fun _ e k => attr e k;
     drv_is_displayed := fun _ e => displayed e;
     drv_is_enabled := fun _ e => enabled e;
     drv_text := fun _ e => txt e;
     drv_find_element := fun _ sc b v => find1 sc b v;
     drv_find_elements := fun _ sc b v => findN sc b v;
     drv_page_source := fun _ => source;
     drv_parse_html := parse;
     drv_execute_script := fun w sc => (exec sc, w);
     drv_sleep := fun w _ => w;
     drv_wait_presence := fun w _ v => (find1 Document CSS_SELECTOR v, w) |}.

(** The live table: row 1 (id 32) has the two cells 10 and 11, row 2 (id 31)
    the three cells 20, 21 and 22; there are no details rows, the page source
    cannot be read, and the pagination summary is element 50. *)
Definition table_attr (e : nat) (k : string) : result (option string) :=
  if String.eqb k "id" then
    match e with
    | 1 => Ok (Some "32")
    | 2 => Ok (Some "31")
    | _ => Ok None
    end
  else if String.eqb k "class" then
    match e with
    | 1 => Ok (Some "result")
    | 2 => Ok (Some "result opened")
    | _ => Ok None
    end
  else Ok None.

Definition table_text (e : nat) : result string :=
  match e with
  | 10 => Ok "College B"
  | 11 => Ok "OH"
  | 20 => Ok " College A"
  | 21 => Ok "OH"
  | 22 => Ok "Program renamed"
  | 50 => Ok "Showing 1-25 of 301"
  | _ => Ok EmptyString
  end.

Definition table_find1 (sc : scope nat) (b : By) (v : string) : result nat :=
  match sc, b with
  | Document, CSS_SELECTOR =>
      if String.eqb v ".pagination-info, [class*='pagination'], [class*='count']"
      then Ok 50
      else if String.eqb v "table" then Ok 0
      else Raise NoSuchElementException
  | Within 1, CSS_SELECTOR =>
      if String.eqb v "td:first-child" then Ok 10 else Raise NoSuchElementException
  | Within 2, CSS_SELECTOR =>
      if String.eqb v "td:first-child" then Ok 20 else Raise NoSuchElementException
  | _, _ => Raise NoSuchElementException
  end.

Definition table_findN (sc : scope nat) (b : By) (v : string) : result (list nat) :=
  match sc, b with
  | Document, CSS_SELECTOR => if String.eqb v "tr.result" then Ok [1; 2] else Ok []
  | Within 1, CSS_SELECTOR => if String.eqb v "td" then Ok [10; 11] else Ok []
  | Within 2, CSS_SELECTOR => if String.eqb v "td" then Ok [20; 21; 22] else Ok []
  | _, _ => Ok []
  end.

Definition live_table : Driver :=
  static_driver table_attr (fun _ => Ok true) (fun _ => Ok true) table_text
    table_find1 table_findN (Raise OtherException) (fun _ => Raise OtherException)
    (fun _ => Ok tt).

(** The same table when the page source can be read and parses to the two
    rows [row_two] (id 32) and [row_three] (id 31). *)
Definition parsed_page : node :=
  Tag "[document]" [] [Tag "table" [] [Tag "tbody" [] [row_two; row_three]]].

Definition live_table_parsed : Driver :=
  static_driver table_attr (fun _ => Ok true) (fun _ => Ok true) table_text
    table_find1 table_findN (Ok "<html>") (fun _ => Ok parsed_page)
    (fun _ => Ok tt).

(** The summary line of the spec; its dash is the en dash, three bytes. *)
Definition en_dash : string :=
  String "226"%char (String "128"%char (String "147"%char EmptyString)).
Definition summary_300 : string := "Showing 1" ++ en_dash ++ "25 of 300".

(** A no-break space, two bytes. *)
Definition nbsp : string := String "194"%char (String "160"%char EmptyString).

(** Three accented letters, two bytes each, and a name of 39 characters in
    45 bytes. *)
Definition e_acute : string := String "195"%char (String "169"%char EmptyString).
Definition a_grave : string := String "195"%char (String "160"%char EmptyString).
Definition cap_e_acute : string := String "195"%char (String "137"%char EmptyString).
Definition accented_name : string :=
  "Universit" ++ e_acute ++ " du Qu" ++ e_acute ++ "bec " ++ a_grave ++ " Montr"
  ++ e_acute ++ "al, " ++ cap_e_acute ++ "vry " ++ e_acute.

(** A summary whose count has 4301 digits. *)
Definition long_count : string := PyStr.flatten (repeat "9" 4301).
Definition summary_long : string := "Showing 1" ++ en_dash ++ "25 of " ++ long_count.

(** A page whose only readable element is the pagination summary [txt]. *)
Definition summary_page (txt : string) : Driver :=
  static_driver (fun _ _ => Ok None) (fun _ => Ok true) (fun _ => Ok true)
    (fun _ => Ok txt) (fun _ _ _ => Ok 50) (fun _ _ _ => Ok [])
    (Raise OtherException) (fun _ => Raise OtherException) (fun _ => Ok tt).

(** A page with a working next button (element 60, found by every probe) on
    which [window.scrollTo] raises. *)
Definition blocked_scroll : Driver :=
  static_driver (fun _ _ => Ok None) (fun _ => Ok true) (fun _ => Ok true)
    (fun _ => Ok "Next") (fun _ _ _ => Ok 60) (fun _ _ _ => Ok [60])
    (Raise OtherException) (fun _ => Raise OtherException)
    (fun sc => match sc with
               | ScrollToBottom => Raise OtherException
               | _ => Ok tt
               end).

(** The same page with the next button disabled. *)
Definition disabled_next : Driver :=
  static_driver (fun _ _ => Ok None) (fun _ => Ok true) (fun _ => Ok false)
    (fun _ => Ok "Next") (fun _ _ _ => Ok 60) (fun _ _ _ => Ok [60])
    (Raise OtherException) (fun _ => Raise OtherException) (fun _ => Ok tt).

(** A table of one endless page: the next button always works. *)
Definition endless : Driver :=
  static_driver table_attr (fun _ => Ok true) (fun _ => Ok true) table_text
    (fun sc b v => match table_find1 sc b v with
                   | Ok e => Ok e
                   | Raise _ => match sc with Document => Ok 60 | _ => Raise NoSuchElementException end
                   end)
    table_findN (Raise OtherException) (fun _ => Raise OtherException)
    (fun _ => Ok tt).

(** A page on which no table ever shows up: every wait times out, every
    look-up finds nothing. *)
Definition no_table : Driver :=
  static_driver (fun _ _ => Ok None) (fun _ => Ok true) (fun _ => Ok true)
    (fun _ => Ok EmptyString)
    (fun sc b v => match sc, b with
                   | Document, CSS_SELECTOR => Raise TimeoutException
                   | _, _ => Raise NoSuchElementException
                   end)
    (fun _ _ _ => Ok [])
    (Raise OtherException) (fun _ => Raise OtherException) (fun _ => Ok tt).

(** A page with no summary and three page-number buttons. *)
Definition three_buttons : Driver :=
  static_driver (fun _ _ => Ok None) (fun _ => Ok true) (fun _ => Ok true)
    (fun _ => Ok EmptyString) (fun _ _ _ => Raise NoSuchElementException)
    (fun sc b v => if String.eqb v ".page-number, [class*='page']" then Ok [71; 72; 73]
                   else Ok [])
    (Raise OtherException) (fun _ => Raise OtherException) (fun _ => Ok tt).

(** The parsed table once the table element is there to wait for. *)
Definition live_table_ready : Driver :=
  static_driver table_attr (fun _ => Ok true) (fun _ => Ok true) table_text
    (fun sc b v => if String.eqb v "tbody, table" then Ok 0 else table_find1 sc b v)
    table_findN (Ok "<html>") (fun _ => Ok parsed_page)
    (fun _ => Ok tt).

(** A record kept from an earlier page. *)
Definition earlier_record : ScrapedRecord :=
  {| institution := "College Z"; state := "NY"; impacts := "Office renamed";
     source := "Memo"; source_links := ["https://z.example/memo"];
     details := EmptyString; state_status := EmptyString; row_id := "5" |}.

Definition record_31 : ScrapedRecord :=
  {| institution := "College A"; state := "OH"; impacts := "Program renamed";
     source := EmptyString; source_links := [];
     details := EmptyString; state_status := EmptyString; row_id := "31" |}.

(** A page whose rows carry no [result] class: a data row with a numeric id
    and four cells, a header row without id, and a row with a non-numeric id. *)
Definition plain_page : node :=
  Tag "[document]" []
    [Tag "table" []
       [Tag "tr" [("class", "head")] [Tag "th" [] [NavigableString "Institution"]];
        Tag "tr" [("id", "12")]
          [td [NavigableString "College D"]; td [NavigableString "FL"];
           td [NavigableString "Center closed"]; td [anchor "https://d.example" "News"]];
        Tag "tr" [("id", "details_12")]
          [td [NavigableString "a"]; td [NavigableString "b"];
           td [NavigableString "c"]; td [NavigableString "d"]]]].

(** A live row (element 4, id 40) with four cells; the fourth holds four
    anchors: a link, an anchor without [href], one with an empty [href], and
    the first link again. *)
Definition linked_row : Driver :=
  static_driver
    (fun e k =>
       if String.eqb k "id" then (match e with 4 => Ok (Some "40") | _ => Ok None end)
       else if String.eqb k "href" then
         match e with
         | 81 => Ok (Some "https://a.example/1")
         | 83 => Ok (Some EmptyString)
         | 84 => Ok (Some "https://a.example/1")
         | _ => Ok None
         end
       else Ok None)
    (fun _ => Ok true) (fun _ => Ok true)
    (fun e => match e with
              | 40 => Ok "College E"
              | 41 => Ok "WA"
              | 42 => Ok "Office merged"
              | 43 => Ok "News"
              | _ => Ok EmptyString
              end)
    (fun _ _ _ => Raise NoSuchElementException)
    (fun sc b v => match sc with
                   | Within 4 => if String.eqb v "td" then Ok [40; 41; 42; 43] else Ok []
                   | Within 43 => if String.eqb v "a" then Ok [81; 82; 83; 84] else Ok []
                   | _ => Ok []
                   end)
    (Raise OtherException) (fun _ => Raise OtherException) (fun _ => Ok tt).

Definition record_40 : ScrapedRecord :=
  {| institution := "College E"; state := "WA"; impacts := "Office merged";
     source := "News";
     source_links := ["https://a.example/1"; "https://a.example/1"];
     details := EmptyString; state_status := EmptyString; row_id := "40" |}.

Definition start (D : Driver) (w : World D) : St D := {| world := w; scripts := [] |}.

(** A host whose page offers a login link, an email field, a password field
    and a submit button, and whose table holds one record; [online] says
    whether the page loads, [has_form] whether the email field turns up.
    Elements are named by the selector that found them. *)
Definition form_host (online has_form : bool) : Session.Host :=
  {| Session.HWorld := unit;
     Session.HElem := string;
     Session.host_get := fun _ w =>
       (if online then Session.Done tt
        else Session.Thrown (Session.Error OtherException), w);
     Session.host_find_element := fun _ v w =>
       (if existsb (String.eqb v)
                   ["a[href*='sign-in']"; "input[type='password']"; "input[type='submit']"]
        then Session.Done v
        else Session.Thrown (Session.Error NoSuchElementException), w);
     Session.host_wait_presence := fun _ v w =>
       (if has_form && String.eqb v "input[name='email']" then Session.Done v
        else Session.Thrown (Session.Error TimeoutException), w);
     Session.host_click := fun _ w => (Session.Done tt, w);
     Session.host_clear := fun _ w => (Session.Done tt, w);
     Session.host_send_keys := fun _ _ w => (Session.Done tt, w);
     Session.host_input := fun _ w => (Session.Done tt, w);
     Session.host_sleep := fun _ w => (false, w);
     Session.host_scrape_all := fun _ _ w => (Session.Done [record_31], w);
     Session.host_display_table := fun _ w => (Session.Done tt, w);
     Session.host_save_to_csv := fun _ _ w => (Session.Done tt, w);
     Session.host_save_to_json := fun _ _ w =>
       (Session.Thrown (Session.Error OtherException), w);
     Session.host_save_to_excel := fun _ _ w => (Session.Done tt, w);
     Session.host_close := fun w => (Session.Done tt, w) |}.

Definition sample_args : Session.Args :=
  {| Session.email := Some "reader@example.org";
     Session.password := Some "secret";
     Session.no_expand := false;
     Session.no_display := false;
     Session.max_pages := Some 1%Z;
     Session.output_csv := "out.csv";
     Session.output_json := "out.json";
     Session.output_excel := "out.xlsx" |}.

Definition fresh_run (online has_form : bool) : Session.Run (form_host online has_form) :=
  Session.Build_Run (form_host online has_form) tt [].

End Samples.

(* ===================================================================== *)
(** ** Properties of the string operations *)
(* ===================================================================== *)

Section StringFacts.
Import PyStr.

Example sample_strings :
  strip (String newline "  a b   ") = "a b"
  /\ strip "   " = EmptyString
  /\ strip_quotes (String dquote ("q" ++ String dquote EmptyString)) = "q"
  /\ lower "State Status: OK" = "state status: ok"
  /\ contains "status:" "state status: ok" = true
  /\ contains "status:" "status" = false
  /\ startswith "abc" "ab" = true
  /\ endswith "abc" "bc" = true
  /\ endswith "c" "bc" = false
  /\ split ":"%char "a:b::c" = ["a"; "b"; EmptyString; "c"]
  /\ split1 ":"%char "a:b:c" = ["a"; "b:c"]
  /\ item (split1 ":"%char "State status: Law: enacted") 1 = " Law: enacted"
  /\ join " " ["a"; "b"; "c"] = "a b c"
  /\ isdigit "228" = true /\ isdigit "22a" = false /\ isdigit EmptyString = false
  /\ int (codepoints "0301") = Some 301%Z
  /\ codepoints ("a" ++ Samples.en_dash ++ "b") = [97; 8211; 98]%N
  /\ len ("a" ++ Samples.en_dash ++ "b") = 3
  /\ slice_to 2 ("a" ++ Samples.en_dash ++ "b") = "a" ++ Samples.en_dash.
Proof. vm_compute. repeat split. Qed.

Lemma span_app {A : Type} (p : A -> bool) (l a b : list A) :
  span p l = (a, b) -> l = (a ++ b)%list.
Proof.
  revert a b. induction l as [|c r IH]; intros a b; cbn [span].
  - intros H. injection H as <- <-. reflexivity.
  - destruct (p c).
    + destruct (span p r) as [a' b'] eqn:E. intros H. injection H as <- <-.
      cbn [app]. f_equal. apply IH. reflexivity.
    + intros H. injection H as <- <-. reflexivity.
Qed.

Lemma span_all {A : Type} (p : A -> bool) (l a b : list A) :
  span p l = (a, b) -> forallb p a = true.
Proof.
  revert a b. induction l as [|c r IH]; intros a b; cbn [span].
  - intros H. injection H as <- <-. reflexivity.
  - destruct (p c) eqn:Pc.
    + destruct (span p r) as [a' b'] eqn:E. intros H. injection H as <- <-.
      cbn [forallb]. rewrite Pc. cbn [andb]. eapply IH. reflexivity.
    + intros H. injection H as <- <-. reflexivity.
Qed.

(** A successful anchored match reads [of], white space, and the digits it
    returns. *)
Lemma match_of_at_sound (l ds : list N) :
  match_of_at l = Some ds ->
  exists ws rest,
    l = ([111; 102]%N ++ ws ++ ds ++ rest)%list
    /\ ws <> [] /\ forallb isspace_cp ws = true
    /\ ds <> [] /\ forallb isdecimal_cp ds = true.
Proof.
  unfold match_of_at.
  destruct l as [|c1 [|c2 r]]; try discriminate.
  destruct (c1 =? 111)%N eqn:E1; cbn [andb]; [|discriminate].
  destruct (c2 =? 102)%N eqn:E2; [|discriminate].
  apply N.eqb_eq in E1, E2. subst c1 c2.
  destruct (span isspace_cp r) as [ws r'] eqn:Sw.
  destruct ws as [|w0 ws]; [discriminate|].
  destruct (span isdecimal_cp r') as [d rest] eqn:Sd.
  destruct d as [|d0 d]; [discriminate|].
  intros H. injection H as <-.
  exists (w0 :: ws), rest. split.
  - cbn [app]. do 2 f_equal.
    rewrite (span_app _ _ _ _ Sw), (span_app _ _ _ _ Sd). reflexivity.
  - split; [discriminate|]. split; [exact (span_all _ _ _ _ Sw)|].
    split; [discriminate | exact (span_all _ _ _ _ Sd)].
Qed.

Lemma search_of_sound (l ds : list N) :
  search_of l = Some ds ->
  exists pre ws rest,
    l = (pre ++ [111; 102]%N ++ ws ++ ds ++ rest)%list
    /\ ws <> [] /\ forallb isspace_cp ws = true
    /\ ds <> [] /\ forallb isdecimal_cp ds = true.
Proof.
  induction l as [|c r IH].
  - cbn. discriminate.
  - cbn [search_of].
    destruct (match_of_at (c :: r)) as [d|] eqn:M.
    + intros H. injection H as <-.
      destruct (match_of_at_sound _ _ M) as (ws & rest & Hs & Hrest).
      exists [], ws, rest. split; [exact Hs|exact Hrest].
    + intros H. destruct (IH H) as (pre & ws & rest & Hs & Hrest).
      exists (c :: pre), ws, rest. split; [|exact Hrest].
      cbn [app]. f_equal. exact Hs.
Qed.

(** What [re.search] returns as group 1 is a non-empty run of decimal digits
    that follows [of] and white space somewhere in the text. *)
Lemma re_search_of_sound (s : string) (ds : list N) :
  re_search_of s = Some ds ->
  exists pre ws rest,
    codepoints s = (pre ++ [111; 102]%N ++ ws ++ ds ++ rest)%list
    /\ ws <> [] /\ forallb isspace_cp ws = true
    /\ ds <> [] /\ forallb isdecimal_cp ds = true.
Proof. apply search_of_sound. Qed.

Lemma int_acc_nonneg (l : list N) (acc n : Z) :
  (0 <= acc)%Z -> int_acc acc l = Some n -> (0 <= n)%Z.
Proof.
  revert acc. induction l as [|c r IH]; intros acc H; cbn [int_acc].
  - intros E. injection E as <-. exact H.
  - destruct (digit_value c) as [d|]; [|discriminate]. apply IH. lia.
Qed.

Lemma int_nonneg (l : list N) (n : Z) : int l = Some n -> (0 <= n)%Z.
Proof.
  unfold int. destruct l as [|c r]; [discriminate|].
  destruct (int_max_str_digits <? _)%Z; [discriminate|].
  apply int_acc_nonneg. lia.
Qed.

Lemma int_acc_digits (l : list N) (acc : Z) :
  forallb isdecimal_cp l = true -> exists n, int_acc acc l = Some n.
Proof.
  revert acc. induction l as [|c r IH]; intros acc H; cbn [int_acc].
  - eexists. reflexivity.
  - cbn [forallb] in H. apply andb_true_iff in H. destruct H as [Hc Hr].
    unfold isdecimal_cp in Hc. destruct (digit_value c) as [d|]; [|discriminate].
    apply IH. exact Hr.
Qed.

(** [int] converts a run of at most 4300 digits, and no longer one. *)
Lemma int_digits (l : list N) :
  l <> [] -> forallb isdecimal_cp l = true ->
  (Z.of_nat (length l) <= int_max_str_digits)%Z ->
  exists n, int l = Some n.
Proof.
  intros Hne Hd Hlen. unfold int. destruct l as [|c r]; [contradiction|].
  assert ((int_max_str_digits <? Z.of_nat (length (c :: r)))%Z = false) as ->
      by (apply Z.ltb_ge; exact Hlen).
  apply int_acc_digits. exact Hd.
Qed.

Lemma int_too_long (l : list N) :
  (int_max_str_digits < Z.of_nat (length l))%Z -> int l = None.
Proof.
  intros H. unfold int. destruct l as [|c r]; [reflexivity|].
  assert ((int_max_str_digits <? Z.of_nat (length (c :: r)))%Z = true) as ->
      by (apply Z.ltb_lt; exact H).
  reflexivity.
Qed.

End StringFacts.

(* ===================================================================== *)
(** ** Properties of the detail parser *)
(* ===================================================================== *)

Import PyStr Soup DetailParser.

Lemma truthy_true_iff (s : string) : truthy s = true <-> s <> EmptyString.
Proof. destruct s; simpl; split; congruence. Qed.

Lemma truthy_false_iff (s : string) : truthy s = false <-> s = EmptyString.
Proof. destruct s; simpl; split; congruence. Qed.

(** Under its guard, reading a cell never fails. *)
Lemma cell_text_total (cells : list node) (i : nat) :
  cell_text cells i =
  Some (if i <? length cells
        then get_text EmptyString true (nth i cells (NavigableString EmptyString))
        else EmptyString).
Proof.
  unfold cell_text. destruct (i <? length cells) eqn:E; [|reflexivity].
  apply Nat.ltb_lt in E.
  rewrite (nth_error_nth' cells (NavigableString EmptyString) E). reflexivity.
Qed.

Lemma hrefs_total (links : list node) :
  Forall (fun a => has_attr "href" a = true) links ->
  hrefs links = Some (map href_of links).
Proof.
  induction 1 as [|a l Ha _ IH]; simpl; [reflexivity|].
  unfold has_attr in Ha. unfold href_of at 1.
  destruct (get a "href"); [|discriminate].
  simpl. rewrite IH. reflexivity.
Qed.

Lemma find_all_with_attr_has (nm k : string) (n : node) :
  Forall (fun a => has_attr k a = true) (find_all_with_attr nm k n).
Proof.
  unfold find_all_with_attr. apply Forall_forall. intros a Ha.
  apply filter_In in Ha. destruct Ha as [_ Ha].
  apply andb_true_iff in Ha. tauto.
Qed.

Lemma extract_source_links_total (cells : list node) :
  extract_source_links cells = Some (map href_of (source_anchors cells)).
Proof.
  unfold extract_source_links, source_anchors.
  destruct (3 <? length cells) eqn:E.
  - apply Nat.ltb_lt in E.
    destruct (nth_error cells 3) eqn:N.
    + simpl. apply hrefs_total, find_all_with_attr_has.
    + apply nth_error_None in N. lia.
  - apply Nat.ltb_ge in E.
    destruct (nth_error cells 3) eqn:N; [|reflexivity].
    assert (nth_error cells 3 <> None) as N' by congruence.
    apply nth_error_Some in N'. lia.
Qed.

(** What the parser returns on a qualifying row, field by field. *)
Lemma extract_row_data_from_soup_qualifying
    (row_soup : node) (details_row_soup : option node) (id : string) :
  get row_soup "id" = Some id ->
  id <> EmptyString ->
  3 <= length (find_all "td" row_soup) ->
  let cells := find_all "td" row_soup in
  let text_of i := if i <? length cells
                   then get_text EmptyString true (nth i cells (NavigableString EmptyString))
                   else EmptyString in
  extract_row_data_from_soup true row_soup details_row_soup =
  Some {| institution := text_of 0;
          state := text_of 1;
          impacts := text_of 2;
          source := text_of 3;
          source_links := map href_of (source_anchors cells);
          details := fst (extract_details details_row_soup);
          state_status := snd (extract_details details_row_soup);
          row_id := id |}.
Proof.
  intros Hid Hne Hlen cells text_of.
  unfold extract_row_data_from_soup. simpl negb. cbv iota.
  destruct row_soup as [s|nm attrs cs]; [discriminate|].
  rewrite Hid.
  apply truthy_true_iff in Hne. rewrite Hne. simpl negb. cbv iota.
  fold cells.
  destruct (length cells <? 3) eqn:E; [apply Nat.ltb_lt in E; unfold cells in E; lia|].
  rewrite !cell_text_total, extract_source_links_total. simpl obind.
  destruct (extract_details details_row_soup). reflexivity.
Qed.

Example sample_row_228 :
  extract_row_data_from_soup true Samples.row_228 (Some Samples.details_228) =
  Some {| institution := "Example University";
          state := "TX";
          impacts := "Office closed";
          source := "News,News againanchor onlyMemo";
          source_links := ["https://a.example/1"; "https://a.example/1"; "https://b.example/2"];
          details := "The office was closed in 2024.";
          state_status := "Law enacted";
          row_id := "228" |}.
Proof. vm_compute. reflexivity. Qed.

Example sample_partial :
  structured_details Samples.cell_partial = "Office closed."
  /\ structured_status Samples.cell_partial = EmptyString
  /\ extract_details (Some Samples.details_partial) = ("Office closed.", "pending").
Proof. vm_compute. repeat split. Qed.

Example sample_partial_fallback :
  fallback_loop (fallback_lines Samples.cell_partial) false false [] [] =
  (["Office closed."; "quoted remark"], ["pending"]).
Proof. vm_compute. reflexivity. Qed.

(** C1. A main row with a non-empty identifier and at least three cells gives
    exactly one record, whose [row_id] is that identifier: the parser returns
    it, and the page loop appends exactly that one for the row. *)
Theorem qualifying_row_yields_one_record
    (row_soup : node) (details_row_soup : option node) (soup : node) (id : string) :
  get row_soup "id" = Some id ->
  id <> EmptyString ->
  3 <= length (find_all "td" row_soup) ->
  (exists r, extract_row_data_from_soup true row_soup details_row_soup = Some r
             /\ row_id r = id)
  /\ (exists r, Scraper.soup_row_records true soup row_soup = [r] /\ row_id r = id).
Proof.
  intros Hid Hne Hlen. split.
  - rewrite (extract_row_data_from_soup_qualifying _ details_row_soup _ Hid Hne Hlen).
    eexists. split; reflexivity.
  - unfold Scraper.soup_row_records. rewrite Hid. simpl Scraper.or_empty.
    assert (truthy id = true) as T by (apply truthy_true_iff; exact Hne).
    rewrite T.
    rewrite (extract_row_data_from_soup_qualifying _ _ _ Hid Hne Hlen).
    eexists. split; reflexivity.
Qed.

Lemma qualifying_row_yields_one_record_witness :
  (exists r, extract_row_data_from_soup true Samples.row_228 (Some Samples.details_228) = Some r
             /\ row_id r = "228")
  /\ (exists r, Scraper.soup_row_records true
                  (Tag "[document]" [] [Samples.row_228; Samples.details_228])
                  Samples.row_228 = [r]
                /\ row_id r = "228").
Proof.
  apply (qualifying_row_yields_one_record Samples.row_228 (Some Samples.details_228)
           (Tag "[document]" [] [Samples.row_228; Samples.details_228]) "228").
  - reflexivity.
  - discriminate.
  - vm_compute. lia.
Defined.

(** C4. A qualifying row without a details row still gives its record, with
    [details] and [state_status] empty. *)
Theorem missing_details_row_keeps_record (row_soup : node) (id : string) :
  get row_soup "id" = Some id ->
  id <> EmptyString ->
  3 <= length (find_all "td" row_soup) ->
  exists r, extract_row_data_from_soup true row_soup None = Some r
            /\ details r = EmptyString
            /\ state_status r = EmptyString
            /\ row_id r = id.
Proof.
  intros Hid Hne Hlen.
  rewrite (extract_row_data_from_soup_qualifying _ None _ Hid Hne Hlen).
  eexists. repeat split.
Qed.

Lemma missing_details_row_keeps_record_witness :
  exists r, extract_row_data_from_soup true Samples.row_228 None = Some r
            /\ details r = EmptyString
            /\ state_status r = EmptyString
            /\ row_id r = "228".
Proof.
  apply (missing_details_row_keeps_record Samples.row_228 "228").
  - reflexivity.
  - discriminate.
  - vm_compute. lia.
Defined.

(** Whatever the parser returns comes from a tagged row with an identifier
    and three cells, and is the record of [extract_row_data_from_soup_qualifying]. *)
Lemma extract_row_data_from_soup_inv (flag : bool) (row_soup : node)
    (details_row_soup : option node) (r : ScrapedRecord) :
  extract_row_data_from_soup flag row_soup details_row_soup = Some r ->
  flag = true
  /\ get row_soup "id" = Some (row_id r)
  /\ row_id r <> EmptyString
  /\ 3 <= length (find_all "td" row_soup).
Proof.
  unfold extract_row_data_from_soup.
  destruct flag; simpl negb; cbv iota; [|discriminate].
  destruct row_soup as [s|nm attrs cs]; [discriminate|].
  destruct (get (Tag nm attrs cs) "id") as [id|] eqn:Hid; [|discriminate].
  destruct (truthy id) eqn:T; simpl negb; cbv iota; [|discriminate].
  destruct (length (find_all "td" (Tag nm attrs cs)) <? 3) eqn:E; [discriminate|].
  rewrite !cell_text_total, extract_source_links_total. simpl obind.
  destruct (extract_details details_row_soup). intros H.
  injection H as <-. simpl.
  apply Nat.ltb_ge in E. apply truthy_true_iff in T. auto.
Qed.

(** C9. The [source_links] of an extracted record are the [href] values of
    the anchors of the fourth cell, taken from the cell's descendants by a
    filter and a map: document order is kept and nothing is merged. *)
Theorem source_links_in_document_order (flag : bool) (row_soup : node)
    (details_row_soup : option node) (r : ScrapedRecord) :
  extract_row_data_from_soup flag row_soup details_row_soup = Some r ->
  source_links r =
    match nth_error (find_all "td" row_soup) 3 with
    | Some cell =>
        map href_of
          (filter (fun d => name_is d "a" && has_attr "href" d) (descendants cell))
    | None => []
    end
  /\ length (source_links r) = length (source_anchors (find_all "td" row_soup)).
Proof.
  intros H.
  destruct (extract_row_data_from_soup_inv _ _ _ _ H) as (-> & Hid & Hne & Hlen).
  rewrite (extract_row_data_from_soup_qualifying _ details_row_soup _ Hid Hne Hlen) in H.
  injection H as <-. cbn [source_links]. split.
  - unfold source_anchors, find_all_with_attr.
    destruct (nth_error (find_all "td" row_soup) 3); reflexivity.
  - apply length_map.
Qed.

Lemma source_links_in_document_order_witness :
  source_links
    {| institution := "Example University";
       state := "TX";
       impacts := "Office closed";
       source := "News,News againanchor onlyMemo";
       source_links := ["https://a.example/1"; "https://a.example/1"; "https://b.example/2"];
       details := "The office was closed in 2024.";
       state_status := "Law enacted";
       row_id := "228" |} =
    match nth_error (find_all "td" Samples.row_228) 3 with
    | Some cell =>
        map href_of
          (filter (fun d => name_is d "a" && has_attr "href" d) (descendants cell))
    | None => []
    end
  /\ length ["https://a.example/1"; "https://a.example/1"; "https://b.example/2"] =
     length (source_anchors (find_all "td" Samples.row_228)).
Proof.
  apply (source_links_in_document_order true Samples.row_228 (Some Samples.details_228)).
  vm_compute. reflexivity.
Defined.

(** *** The two-tier merge *)

Lemma needs_fallback_iff (d s : string) :
  needs_fallback d s = true <-> d = EmptyString \/ s = EmptyString.
Proof.
  unfold needs_fallback. rewrite orb_true_iff, !negb_true_iff, !truthy_false_iff.
  tauto.
Qed.

Lemma fallback_merge_complete (d s : string) (cell : node) :
  d <> EmptyString -> s <> EmptyString -> fallback_merge d s cell = (d, s).
Proof.
  intros Hd Hs. unfold fallback_merge.
  destruct (needs_fallback d s) eqn:E; [|reflexivity].
  apply needs_fallback_iff in E. tauto.
Qed.

Lemma fallback_merge_keeps_details (d s : string) (cell : node) :
  d <> EmptyString -> fst (fallback_merge d s cell) = d.
Proof.
  intros Hd. apply truthy_true_iff in Hd. unfold fallback_merge.
  destruct (needs_fallback d s); [|reflexivity].
  destruct (fallback_loop _ _ _ _ _) as [dp sp]. simpl. rewrite Hd. reflexivity.
Qed.

Lemma fallback_merge_keeps_status (d s : string) (cell : node) :
  s <> EmptyString -> snd (fallback_merge d s cell) = s.
Proof.
  intros Hs. apply truthy_true_iff in Hs. unfold fallback_merge.
  destruct (needs_fallback d s); [|reflexivity].
  destruct (fallback_loop _ _ _ _ _) as [dp sp]. simpl. rewrite Hs. reflexivity.
Qed.

(** Merging again with the same cell changes nothing. *)
Lemma fallback_merge_idempotent (d s : string) (cell : node) :
  fallback_merge (fst (fallback_merge d s cell)) (snd (fallback_merge d s cell)) cell
  = fallback_merge d s cell.
Proof.
  unfold fallback_merge.
  destruct (fallback_loop (fallback_lines cell) false false [] []) as [dp sp].
  destruct (needs_fallback d s) eqn:E; cbn [fst snd].
  - match goal with |- (if ?c then _ else _) = _ => destruct c end; [|reflexivity].
    f_equal.
    + destruct (truthy d) eqn:Td; cbn [negb andb].
      * rewrite Td. reflexivity.
      * destruct (nonempty dp); cbn [negb andb].
        -- destruct (truthy (join " " dp)); reflexivity.
        -- rewrite Td. reflexivity.
    + destruct (truthy s) eqn:Ts; cbn [negb andb].
      * rewrite Ts. reflexivity.
      * destruct (nonempty sp); cbn [negb andb].
        -- destruct (truthy (join " " sp)); reflexivity.
        -- rewrite Ts. reflexivity.
  - rewrite E. reflexivity.
Qed.

Lemma find_some_is_tag (p : node -> bool) (n c : node) :
  find p n = Some c -> exists nm attrs cs, n = Tag nm attrs cs.
Proof.
  destruct n as [s|nm attrs cs]; [discriminate|]. eauto.
Qed.

(** C3. With [d] and [s] the values the structured path finds in the details
    cell, the record's fields are the merge of lines 393-422, and in it: the
    line parser is consulted only if [d] or [s] is empty; a non-empty [d]
    (a non-empty [s]) is the final value; when both are non-empty nothing
    changes; and merging a second time gives the same pair. *)
Theorem structured_values_survive_fallback (details_row_soup details_cell : node) :
  find is_details_cell details_row_soup = Some details_cell ->
  let d := structured_details details_cell in
  let s := structured_status details_cell in
  let r := extract_details (Some details_row_soup) in
  r = fallback_merge d s details_cell
  /\ (needs_fallback d s = true <-> d = EmptyString \/ s = EmptyString)
  /\ (d <> EmptyString -> fst r = d)
  /\ (s <> EmptyString -> snd r = s)
  /\ (d <> EmptyString -> s <> EmptyString -> r = (d, s))
  /\ fallback_merge (fst r) (snd r) details_cell = r.
Proof.
  intros Hcell d s r.
  assert (r = fallback_merge d s details_cell) as Hr.
  { unfold r, extract_details.
    destruct (find_some_is_tag _ _ _ Hcell) as (nm & attrs & cs & ->).
    rewrite Hcell. reflexivity. }
  rewrite Hr. repeat split.
  - apply needs_fallback_iff.
  - apply needs_fallback_iff.
  - apply fallback_merge_keeps_details.
  - apply fallback_merge_keeps_status.
  - apply fallback_merge_complete.
  - apply fallback_merge_idempotent.
Qed.

Lemma structured_values_survive_fallback_witness :
  let d := structured_details Samples.cell_partial in
  let s := structured_status Samples.cell_partial in
  let r := extract_details (Some Samples.details_partial) in
  r = fallback_merge d s Samples.cell_partial
  /\ (needs_fallback d s = true <-> d = EmptyString \/ s = EmptyString)
  /\ (d <> EmptyString -> fst r = d)
  /\ (s <> EmptyString -> snd r = s)
  /\ (d <> EmptyString -> s <> EmptyString -> r = (d, s))
  /\ fallback_merge (fst r) (snd r) Samples.cell_partial = r.
Proof.
  apply (structured_values_survive_fallback Samples.details_partial Samples.cell_partial).
  vm_compute. reflexivity.
Defined.

(** On the sample the line parser would have produced other details; the
    structured ones stand, and only the empty status is filled in. *)
Example sample_partial_merge :
  fallback_merge "Office closed." EmptyString Samples.cell_partial
  = ("Office closed.", "pending")
  /\ fallback_merge EmptyString EmptyString Samples.cell_partial
     = ("Office closed. quoted remark", "pending")
  /\ fallback_merge "Office closed." "Law enacted" Samples.cell_partial
     = ("Office closed.", "Law enacted").
Proof. vm_compute. repeat split. Qed.

(* ===================================================================== *)
(** ** Properties of the browser-driven methods *)
(* ===================================================================== *)

Import Selenium Scraper.

(** Unfolding the sequencing of queries and commands, and nothing else. *)
Ltac run_q := cbn [bind catch ret raise Monad_Q try_except try_except_nse try_except_timeout].
Ltac run_m := cbn [bind catch ret raise Monad_M try_except try_except_nse try_except_timeout].

Section QueryFacts.

Variable D : Driver.

Lemma try_except_returns {A : Type} (body handler : Q D A) (w : World D) :
  (exists a, handler w = Ok a) -> exists a, try_except body handler w = Ok a.
Proof.
  intros [a Ha]. run_q. destruct (body w); eauto.
Qed.

(** Neither backend lets an exception out. *)
Lemma extract_row_data_selenium_returns (row_element : Elem D) (w : World D) :
  exists r, extract_row_data_selenium D row_element w = Ok r.
Proof.
  unfold extract_row_data_selenium. apply try_except_returns. run_q. eauto.
Qed.

Lemma extract_row_data_selenium_no_id (row_element : Elem D) (w : World D) (rid : option string) :
  drv_get_attribute D w row_element "id" = Ok rid ->
  or_empty rid = EmptyString ->
  extract_row_data_selenium D row_element w = Ok None.
Proof.
  intros Hid He. unfold extract_row_data_selenium. run_q.
  unfold get_attribute. rewrite Hid, He. reflexivity.
Qed.

Lemma extract_row_data_selenium_few_cells (row_element : Elem D) (w : World D)
    (cells : list (Elem D)) :
  drv_find_elements D w (Within row_element) CSS_SELECTOR "td" = Ok cells ->
  length cells < 3 ->
  extract_row_data_selenium D row_element w = Ok None.
Proof.
  intros Hc Hl. unfold extract_row_data_selenium. run_q.
  unfold get_attribute. destruct (drv_get_attribute D w row_element "id") as [rid|]; [|reflexivity].
  destruct (truthy (or_empty rid)); cbn [negb]; [|reflexivity].
  unfold find_elements. rewrite Hc.
  apply Nat.ltb_lt in Hl. rewrite Hl. reflexivity.
Qed.

End QueryFacts.

Lemma extract_row_data_from_soup_unqualified (flag : bool) (row_soup : node)
    (details_row_soup : option node) :
  length (find_all "td" row_soup) < 3
  \/ get row_soup "id" = None
  \/ get row_soup "id" = Some EmptyString ->
  extract_row_data_from_soup flag row_soup details_row_soup = None.
Proof.
  intros H.
  destruct (extract_row_data_from_soup flag row_soup details_row_soup) as [r|] eqn:E;
    [|reflexivity].
  apply extract_row_data_from_soup_inv in E. destruct E as (_ & Hid & Hne & Hlen).
  destruct H as [H|[H|H]].
  - lia.
  - congruence.
  - rewrite Hid in H. injection H as H. contradiction.
Qed.

Section WrapperFacts.

Variable D : Driver.
Variable flag : bool.

(** With no identifier to look up, the wrapper goes to the Selenium backend. *)
Lemma extract_row_data_no_id (row_element : Elem D) (w : World D) (rid : option string) :
  drv_get_attribute D w row_element "id" = Ok rid ->
  or_empty rid = EmptyString ->
  extract_row_data D flag row_element w = Ok None.
Proof.
  intros Hid He. unfold extract_row_data. run_q.
  assert (extract_row_data_via_soup D flag row_element w = Ok None) as ->.
  { unfold extract_row_data_via_soup. destruct flag; [|reflexivity].
    run_q. unfold get_attribute. rewrite Hid, He. reflexivity. }
  eapply extract_row_data_selenium_no_id; eauto.
Qed.

(** With few cells, the wrapper returns nothing as long as the row that the
    parsed page has under the same identifier is as short. *)
Lemma extract_row_data_few_cells (row_element : Elem D) (w : World D)
    (cells : list (Elem D)) :
  drv_find_elements D w (Within row_element) CSS_SELECTOR "td" = Ok cells ->
  length cells < 3 ->
  (forall html soup id row_soup,
      drv_page_source D w = Ok html ->
      drv_parse_html D html = Ok soup ->
      drv_get_attribute D w row_element "id" = Ok (Some id) ->
      Soup.find (is_row_with_id id) soup = Some row_soup ->
      length (find_all "td" row_soup) < 3) ->
  extract_row_data D flag row_element w = Ok None.
Proof.
  intros Hc Hl Hsame. unfold extract_row_data. run_q.
  pose proof (extract_row_data_selenium_few_cells D row_element w cells Hc Hl) as Hsel.
  unfold extract_row_data_via_soup. destruct flag; [|exact Hsel].
  run_q. unfold get_attribute.
  destruct (drv_get_attribute D w row_element "id") as [rid|] eqn:Hid; [|exact Hsel].
  destruct rid as [id|]; cbn [or_empty truthy]; [|exact Hsel].
  destruct (truthy id) eqn:T; [|exact Hsel].
  unfold parse_html_with_beautifulsoup. cbn [negb]. run_q.
  unfold page_source, BeautifulSoup.
  destruct (drv_page_source D w) as [html|] eqn:Hs; [|exact Hsel].
  destruct (drv_parse_html D html) as [soup|] eqn:Hp; [|exact Hsel].
  destruct (Soup.find (is_row_with_id id) soup) as [row_soup|] eqn:Hf; [|exact Hsel].
  rewrite extract_row_data_from_soup_unqualified; [reflexivity|].
  left. eapply Hsame; eauto.
Qed.

End WrapperFacts.

(** C2. A row with fewer than three cells, or with no identifier or an empty
    one, gives no record: the parser over the parsed page returns [None], and
    the Selenium backend returns [None] normally, not by raising. The wrapper
    [extract_row_data] returns [None] as well: for a row without identifier,
    and for a short row provided the row that the parsed page holds under the
    same identifier is short too. *)
Theorem unqualified_row_yields_none :
  (forall (flag : bool) (row_soup : node) (details_row_soup : option node),
      length (find_all "td" row_soup) < 3
      \/ get row_soup "id" = None
      \/ get row_soup "id" = Some EmptyString ->
      extract_row_data_from_soup flag row_soup details_row_soup = None)
  /\ (forall (D : Driver) (w : World D) (row_element : Elem D),
         (exists rid, drv_get_attribute D w row_element "id" = Ok rid
                      /\ or_empty rid = EmptyString)
         \/ (exists cells,
                drv_find_elements D w (Within row_element) CSS_SELECTOR "td" = Ok cells
                /\ length cells < 3) ->
         extract_row_data_selenium D row_element w = Ok None)
  /\ (forall (D : Driver) (flag : bool) (w : World D) (row_element : Elem D) rid,
         drv_get_attribute D w row_element "id" = Ok rid ->
         or_empty rid = EmptyString ->
         extract_row_data D flag row_element w = Ok None)
  /\ (forall (D : Driver) (flag : bool) (w : World D) (row_element : Elem D) cells,
         drv_find_elements D w (Within row_element) CSS_SELECTOR "td" = Ok cells ->
         length cells < 3 ->
         (forall html soup id row_soup,
             drv_page_source D w = Ok html ->
             drv_parse_html D html = Ok soup ->
             drv_get_attribute D w row_element "id" = Ok (Some id) ->
             Soup.find (is_row_with_id id) soup = Some row_soup ->
             length (find_all "td" row_soup) < 3) ->
         extract_row_data D flag row_element w = Ok None).
Proof.
  split; [|split; [|split]].
  - apply extract_row_data_from_soup_unqualified.
  - intros D w e [(rid & Hid & He)|(cells & Hc & Hl)].
    + eapply extract_row_data_selenium_no_id; eauto.
    + eapply extract_row_data_selenium_few_cells; eauto.
  - intros. eapply extract_row_data_no_id; eauto.
  - intros. eapply extract_row_data_few_cells; eauto.
Qed.

Lemma unqualified_row_yields_none_witness :
  extract_row_data_from_soup true Samples.row_two None = None
  /\ extract_row_data_from_soup true Samples.row_no_id None = None
  /\ extract_row_data_selenium Samples.live_table 1 tt = Ok None
  /\ extract_row_data_selenium Samples.live_table 3 tt = Ok None
  /\ extract_row_data Samples.live_table true 3 tt = Ok None
  /\ extract_row_data Samples.live_table_parsed true 1 tt = Ok None.
Proof.
  destruct unqualified_row_yields_none as (Hsoup & Hsel & Hwrap & Hshort).
  split; [|split; [|split; [|split; [|split]]]].
  - apply Hsoup. left. vm_compute. lia.
  - apply Hsoup. right. left. reflexivity.
  - apply Hsel. right. exists [10; 11]. split; [reflexivity | simpl; lia].
  - apply Hsel. left. exists None. split; reflexivity.
  - apply (Hwrap Samples.live_table true tt 3 None); reflexivity.
  - apply (Hshort Samples.live_table_parsed true tt 1 [10; 11]).
    + reflexivity.
    + simpl. lia.
    + intros html soup id row_soup Hs Hp Hid Hf.
      injection Hs as <-. injection Hp as <-. injection Hid as <-.
      vm_compute in Hf. injection Hf as <-. vm_compute. lia.
Defined.

Example sample_wrapper :
  extract_row_data Samples.live_table_parsed true 2 tt =
  Ok (Some {| institution := "College A"; state := "OH"; impacts := "Program renamed";
              source := EmptyString; source_links := [];
              details := EmptyString; state_status := EmptyString; row_id := "31" |})
  /\ extract_row_data Samples.live_table_parsed true 1 tt = Ok None.
Proof. vm_compute. split; reflexivity. Qed.

Section ThreeCells.

Variable D : Driver.

(** The Selenium backend on a row with exactly three cells: the fourth cell
    is never read. *)
Lemma extract_row_data_selenium_three_cells (row_element : Elem D) (w : World D)
    (cells : list (Elem D)) (r : ScrapedRecord) :
  drv_find_elements D w (Within row_element) CSS_SELECTOR "td" = Ok cells ->
  length cells = 3 ->
  extract_row_data_selenium D row_element w = Ok (Some r) ->
  source r = EmptyString /\ source_links r = [].
Proof.
  intros Hc Hl. unfold extract_row_data_selenium. run_q.
  unfold get_attribute. destruct (drv_get_attribute D w row_element "id") as [rid|];
    [|discriminate].
  destruct (truthy (or_empty rid)); cbn [negb]; [|discriminate].
  unfold find_elements. rewrite Hc.
  unfold element_text, element_source_links. rewrite Hl.
  cbn [Nat.ltb Nat.leb]. run_q.
  repeat match goal with
         | |- context [match nth_error cells ?i with _ => _ end] =>
             destruct (nth_error cells i); run_q; [|discriminate]
         | |- context [match text ?c w with _ => _ end] =>
             destruct (text c w); [|discriminate]
         end.
  destruct (element_details D (or_empty rid) w); [|discriminate].
  intros H. injection H as <-. split; reflexivity.
Qed.

Lemma extract_row_data_selenium_three_cells_ok (row_element : Elem D) (w : World D)
    (id : string) (cells : list (Elem D)) :
  drv_get_attribute D w row_element "id" = Ok (Some id) ->
  id <> EmptyString ->
  drv_find_elements D w (Within row_element) CSS_SELECTOR "td" = Ok cells ->
  length cells = 3 ->
  (forall c, In c cells -> exists t, drv_text D w c = Ok t) ->
  exists r, extract_row_data_selenium D row_element w = Ok (Some r)
            /\ source r = EmptyString /\ source_links r = [] /\ row_id r = id.
Proof.
  intros Hid Hne Hc Hl Ht.
  destruct cells as [|c0 [|c1 [|c2 [|c3 rest]]]]; try discriminate.
  destruct (Ht c0) as [t0 H0]; [simpl; auto|].
  destruct (Ht c1) as [t1 H1]; [simpl; auto|].
  destruct (Ht c2) as [t2 H2]; [simpl; auto|].
  apply truthy_true_iff in Hne.
  unfold extract_row_data_selenium. run_q.
  unfold get_attribute. rewrite Hid. cbn [or_empty]. rewrite Hne. cbn [negb].
  unfold find_elements. rewrite Hc.
  unfold element_text, element_source_links.
  cbn [length Nat.ltb Nat.leb nth_error]. run_q.
  unfold text. rewrite H0, H1, H2.
  assert (exists ds, element_details D id w = Ok ds) as [ds Hds].
  { unfold element_details. apply try_except_returns. run_q. eauto. }
  rewrite Hds. eexists. split; [reflexivity|]. repeat split.
Qed.

End ThreeCells.

(** C10. On a row with a non-empty identifier and exactly three cells the
    parser succeeds with [source] empty and [source_links] the empty list;
    the Selenium backend, whenever it returns a record for a three-cell row,
    returns those values too, and it does return one when the three cell
    texts can be read. The fourth cell is only touched under [len(cells) > 3]. *)
Theorem three_cell_row_has_empty_source :
  (forall (row_soup : node) (details_row_soup : option node) (id : string),
      get row_soup "id" = Some id ->
      id <> EmptyString ->
      length (find_all "td" row_soup) = 3 ->
      exists r, extract_row_data_from_soup true row_soup details_row_soup = Some r
                /\ source r = EmptyString /\ source_links r = [] /\ row_id r = id)
  /\ (forall (D : Driver) (w : World D) (row_element : Elem D) cells r,
         drv_find_elements D w (Within row_element) CSS_SELECTOR "td" = Ok cells ->
         length cells = 3 ->
         extract_row_data_selenium D row_element w = Ok (Some r) ->
         source r = EmptyString /\ source_links r = [])
  /\ (forall (D : Driver) (w : World D) (row_element : Elem D) id cells,
         drv_get_attribute D w row_element "id" = Ok (Some id) ->
         id <> EmptyString ->
         drv_find_elements D w (Within row_element) CSS_SELECTOR "td" = Ok cells ->
         length cells = 3 ->
         (forall c, In c cells -> exists t, drv_text D w c = Ok t) ->
         exists r, extract_row_data_selenium D row_element w = Ok (Some r)
                   /\ source r = EmptyString /\ source_links r = [] /\ row_id r = id).
Proof.
  split; [|split].
  - intros row_soup details_row_soup id Hid Hne Hlen.
    assert (3 <= length (find_all "td" row_soup)) as Hge by lia.
    rewrite (extract_row_data_from_soup_qualifying _ details_row_soup _ Hid Hne Hge).
    eexists. split; [reflexivity|]. cbn [source source_links row_id].
    rewrite Hlen. cbn [Nat.ltb Nat.leb].
    unfold source_anchors.
    destruct (nth_error (find_all "td" row_soup) 3) eqn:N.
    + assert (nth_error (find_all "td" row_soup) 3 <> None) as N' by congruence.
      apply nth_error_Some in N'. lia.
    + repeat split.
  - intros. eapply extract_row_data_selenium_three_cells; eauto.
  - intros. eapply extract_row_data_selenium_three_cells_ok; eauto.
Qed.

Lemma three_cell_row_has_empty_source_witness :
  (exists r, extract_row_data_from_soup true Samples.row_three None = Some r
             /\ source r = EmptyString /\ source_links r = [] /\ row_id r = "31")
  /\ (exists r, extract_row_data_selenium Samples.live_table 2 tt = Ok (Some r)
                /\ source r = EmptyString /\ source_links r = [] /\ row_id r = "31").
Proof.
  destruct three_cell_row_has_empty_source as (Hsoup & _ & Hsel).
  split.
  - apply Hsoup; [reflexivity | discriminate | reflexivity].
  - apply (Hsel Samples.live_table tt 2 "31" [20; 21; 22]).
    + reflexivity.
    + discriminate.
    + reflexivity.
    + reflexivity.
    + intros c _. unfold Samples.live_table, Samples.static_driver, drv_text.
      unfold Samples.table_text.
      repeat (destruct c as [|c]; [eexists; reflexivity|]). eexists; reflexivity.
Defined.

Example sample_three_cells :
  extract_row_data_selenium Samples.live_table 2 tt =
  Ok (Some {| institution := "College A"; state := "OH"; impacts := "Program renamed";
              source := EmptyString; source_links := [];
              details := EmptyString; state_status := EmptyString; row_id := "31" |}).
Proof. vm_compute. reflexivity. Qed.

(** *** Page count *)

(** Line 557 is the ceiling of [total / 25]: the least number of pages of 25
    rows that hold [total] rows. *)
Lemma pages_for_is_ceiling (total : Z) :
  (25 * (pages_for total - 1) < total <= 25 * pages_for total)%Z.
Proof.
  unfold pages_for, items_per_page.
  pose proof (Z.div_mod total 25 ltac:(lia)) as Hdm.
  pose proof (Z.mod_pos_bound total 25 ltac:(lia)) as Hb.
  destruct (total mod 25 >? 0)%Z eqn:E.
  - apply Z.gtb_lt in E. lia.
  - assert (total mod 25 = 0)%Z by (pose proof (Zgt_cases (total mod 25) 0) as G;
                                     rewrite E in G; lia).
    lia.
Qed.

Lemma pages_for_ceiling_formula (total : Z) :
  pages_for total = ((total + 24) / 25)%Z.
Proof.
  pose proof (pages_for_is_ceiling total) as H.
  apply Z.div_unique with (r := (total + 24 - 25 * pages_for total)%Z); lia.
Qed.

(** C6. When the summary element is found and [re.search] finds [of <N>] in
    its text ([of], white space, then the digits of [N]), and [N] has at most
    4300 digits, [get_total_pages] returns [N // 25], plus one when
    [N % 25 > 0], which is the ceiling of [N / 25]; the two summaries of the
    spec give 12 and 13. *)
Theorem total_pages_is_ceiling_of_count (D : Driver) (w : World D) (el : Elem D)
    (pagination_text : string) (group1 : list N) :
  drv_find_element D w Document CSS_SELECTOR
    ".pagination-info, [class*='pagination'], [class*='count']" = Ok el ->
  drv_text D w el = Ok pagination_text ->
  re_search_of pagination_text = Some group1 ->
  (Z.of_nat (length group1) <= int_max_str_digits)%Z ->
  (exists pre ws rest,
      codepoints pagination_text = (pre ++ [111; 102]%N ++ ws ++ group1 ++ rest)%list
      /\ ws <> [] /\ forallb isspace_cp ws = true
      /\ group1 <> [] /\ forallb isdecimal_cp group1 = true)
  /\ (exists N : Z,
         int group1 = Some N
         /\ (0 <= N)%Z
         /\ get_total_pages D w = Ok (N / 25 + (if N mod 25 >? 0 then 1 else 0))%Z
         /\ (25 * ((N / 25 + (if N mod 25 >? 0 then 1 else 0)) - 1) < N
             <= 25 * (N / 25 + (if N mod 25 >? 0 then 1 else 0)))%Z
         /\ (N / 25 + (if N mod 25 >? 0 then 1 else 0) = (N + 24) / 25)%Z)
  /\ get_total_pages (Samples.summary_page Samples.summary_300) tt = Ok 12%Z
  /\ get_total_pages (Samples.summary_page "of 301") tt = Ok 13%Z.
Proof.
  intros Hel Htext Hre Hlen.
  pose proof (re_search_of_sound _ _ Hre) as Hsound.
  split; [exact Hsound|].
  destruct Hsound as (pre & ws & rest & _ & _ & _ & Hne & Hd).
  destruct (int_digits group1 Hne Hd Hlen) as [N HN].
  split; [|split; vm_compute; reflexivity].
  exists N. split; [exact HN|]. split; [exact (int_nonneg _ _ HN)|].
  split; [|split].
  - unfold get_total_pages, pages_from_summary. run_q.
    unfold find_element, text. rewrite Hel, Htext, Hre, HN. reflexivity.
  - apply (pages_for_is_ceiling N).
  - apply (pages_for_ceiling_formula N).
Qed.

Lemma total_pages_is_ceiling_of_count_witness :
  (exists pre ws rest,
      codepoints Samples.summary_300
      = (pre ++ [111; 102]%N ++ ws ++ codepoints "300" ++ rest)%list
      /\ ws <> [] /\ forallb isspace_cp ws = true
      /\ codepoints "300" <> [] /\ forallb isdecimal_cp (codepoints "300") = true)
  /\ (exists N : Z,
         int (codepoints "300") = Some N
         /\ (0 <= N)%Z
         /\ get_total_pages (Samples.summary_page Samples.summary_300) tt
            = Ok (N / 25 + (if N mod 25 >? 0 then 1 else 0))%Z
         /\ (25 * ((N / 25 + (if N mod 25 >? 0 then 1 else 0)) - 1) < N
             <= 25 * (N / 25 + (if N mod 25 >? 0 then 1 else 0)))%Z
         /\ (N / 25 + (if N mod 25 >? 0 then 1 else 0) = (N + 24) / 25)%Z)
  /\ get_total_pages (Samples.summary_page Samples.summary_300) tt = Ok 12%Z
  /\ get_total_pages (Samples.summary_page "of 301") tt = Ok 13%Z.
Proof.
  apply (total_pages_is_ceiling_of_count (Samples.summary_page Samples.summary_300) tt 50
           Samples.summary_300 (codepoints "300")).
  - reflexivity.
  - reflexivity.
  - vm_compute. reflexivity.
  - vm_compute. discriminate.
Defined.

Lemma int_acc_lower (l : list N) (acc n : Z) :
  (0 <= acc)%Z -> int_acc acc l = Some n -> (acc <= n)%Z.
Proof.
  revert acc. induction l as [|c r IH]; intros acc H; cbn [int_acc].
  - intros E. injection E as <-. lia.
  - destruct (digit_value c) as [d|]; [|discriminate].
    intros E. apply IH in E; lia.
Qed.

Lemma forallb_repeat {A : Type} (p : A -> bool) (x : A) (n : nat) :
  p x = true -> forallb p (repeat x n) = true.
Proof. intros H. induction n as [|n IH]; cbn; [reflexivity|]. rewrite H. exact IH. Qed.

(** With a digit run that [int] rejects, the summary block hands over to the
    page buttons. *)
Lemma get_total_pages_unconverted (D : Driver) (w : World D) (el : Elem D)
    (pagination_text : string) (group1 : list N) :
  drv_find_element D w Document CSS_SELECTOR
    ".pagination-info, [class*='pagination'], [class*='count']" = Ok el ->
  drv_text D w el = Ok pagination_text ->
  re_search_of pagination_text = Some group1 ->
  (int_max_str_digits < Z.of_nat (length group1))%Z ->
  get_total_pages D w =
  Ok (match drv_find_elements D w Document CSS_SELECTOR ".page-number, [class*='page']" with
      | Ok (b :: bs) => Z.of_nat (length (b :: bs))
      | Ok [] => 1%Z
      | Raise _ => 1%Z
      end).
Proof.
  intros Hel Ht Hre Hlen.
  unfold get_total_pages, pages_from_summary, pages_from_buttons. run_q.
  unfold find_element, text, find_elements.
  rewrite Hel, Ht, Hre, (int_too_long group1 Hlen).
  destruct (drv_find_elements D w Document CSS_SELECTOR _) as [[|b bs]|y]; reflexivity.
Qed.

Lemma long_count_found :
  re_search_of Samples.summary_long = Some (repeat 57%N 4301).
Proof. vm_compute. reflexivity. Qed.

(** A count of 4301 digits is found by [re.search] but not converted:
    [int] raises, the [except] swallows it, and with no page buttons the
    method answers 1, although the number the digits denote is at least 99
    and its ceiling of [N / 25] at least 4. *)
Theorem long_count_is_not_converted :
  exists group1 : list N,
    re_search_of Samples.summary_long = Some group1
    /\ Z.of_nat (length group1) = 4301%Z
    /\ forallb isdecimal_cp group1 = true
    /\ int group1 = None
    /\ get_total_pages (Samples.summary_page Samples.summary_long) tt = Ok 1%Z
    /\ forall N : Z,
         int_acc 0 group1 = Some N ->
         (99 <= N)%Z /\ (4 <= N / 25 + (if N mod 25 >? 0 then 1 else 0))%Z.
Proof.
  exists (repeat 57%N 4301).
  assert (Z.of_nat (length (repeat 57%N 4301)) = 4301%Z) as Hlen
      by (rewrite repeat_length; reflexivity).
  split; [exact long_count_found|].
  split; [exact Hlen|].
  split; [apply forallb_repeat; reflexivity|].
  split; [apply int_too_long; rewrite Hlen; reflexivity|].
  split.
  - rewrite (get_total_pages_unconverted (Samples.summary_page Samples.summary_long) tt 50
               Samples.summary_long (repeat 57%N 4301));
      [reflexivity | reflexivity | reflexivity | exact long_count_found
       | rewrite Hlen; reflexivity].
  - intros N HN.
    change (repeat 57%N 4301) with (57 :: 57 :: repeat 57 4299)%N in HN.
    cbn [int_acc] in HN.
    change (digit_value 57) with (Some 9%N) in HN. cbn beta iota in HN.
    apply int_acc_lower in HN; [|lia].
    assert (99 <= N)%Z as H99 by lia.
    split; [exact H99|].
    pose proof (pages_for_is_ceiling N) as Hc. unfold pages_for, items_per_page in Hc. lia.
Qed.

Example sample_summaries :
  re_search_of Samples.summary_300 = Some (codepoints "300")
  /\ re_search_of "of 301" = Some (codepoints "301")
  /\ re_search_of "Page 2 of3, 40 of   75 rows" = Some (codepoints "75")
  /\ re_search_of ("7 of" ++ Samples.nbsp ++ "300") = Some (codepoints "300")
  /\ re_search_of "Showing all" = None
  /\ int (codepoints "300") = Some 300%Z
  /\ pages_for 300 = 12%Z /\ pages_for 301 = 13%Z /\ pages_for 0 = 0%Z.
Proof. vm_compute. repeat split. Qed.

(** *** Row expansion *)

Section ExpandFacts.

Variable D : Driver.
Variable fast : bool.

#[local] Abbreviation tracks_click := (Scraper.tracks_click D).

Lemma clicked_app (a b : list (event D)) :
  clicked D (a ++ b) = clicked D a || clicked D b.
Proof. apply existsb_app. Qed.

Lemma tracks_ret_false : tracks_click (ret false).
Proof.
  intros s. exists []. cbn. rewrite app_nil_r. split; [reflexivity|].
  split; discriminate.
Qed.

Lemma tracks_click_then_true (e : Elem D) (ms : N) :
  tracks_click (execute_script (Click e) ;; sleep ms ;; ret true).
Proof.
  intros s. run_m. unfold execute_script, sleep.
  destruct (drv_execute_script D (world s) (Click e)) as [[[]|x] w'];
    cbn [fst snd scripts]; eexists; (split; [reflexivity|]); cbn; split; congruence.
Qed.

Lemma tracks_query {A : Type} (q : Q D A) (k : A -> M D bool) :
  (forall a, tracks_click (k a)) -> tracks_click (a <- query q ;; k a).
Proof.
  intros Hk s. run_m. unfold query.
  destruct (q (world s)) as [a|x].
  - apply Hk.
  - exists []. cbn. rewrite app_nil_r. split; [reflexivity|]. split; discriminate.
Qed.

Lemma tracks_if (b : bool) (m1 m2 : M D bool) :
  tracks_click m1 -> tracks_click m2 -> tracks_click (if b then m1 else m2).
Proof. destruct b; auto. Qed.

(** A handler that tracks its click keeps the property of the body, whichever
    exceptions it takes. *)
Lemma tracks_catch (m : M D bool) (h : exn -> M D bool) :
  tracks_click m -> (forall x, tracks_click (h x)) -> tracks_click (catch m h).
Proof.
  intros Hm Hh s. run_m.
  destruct (Hm s) as (new & Hs & Hc).
  destruct (m s) as [[b|x] s1]; cbn [fst snd] in *.
  - exists new. auto.
  - destruct (Hh x s1) as (new' & Hs' & Hc').
    exists (new ++ new')%list. rewrite Hs', Hs, app_assoc. split; [reflexivity|].
    rewrite clicked_app.
    destruct (clicked D new) eqn:E.
    + destruct Hc as [Hc _]. specialize (Hc eq_refl). discriminate.
    + cbn [orb]. exact Hc'.
Qed.

Lemma tracks_raise (x : exn) : tracks_click (raise x).
Proof.
  intros s. exists []. cbn. rewrite app_nil_r. split; [reflexivity|]. split; discriminate.
Qed.

Lemma tracks_try_except (m h : M D bool) :
  tracks_click m -> tracks_click h -> tracks_click (try_except m h).
Proof. intros. apply tracks_catch; auto. Qed.

Lemma tracks_try_except_nse (m h : M D bool) :
  tracks_click m -> tracks_click h -> tracks_click (try_except_nse m h).
Proof.
  intros Hm Hh. apply tracks_catch; [exact Hm|].
  intros []; auto using tracks_raise.
Qed.

(** Falling through to the next strategy. *)
Lemma tracks_or_else (m1 m2 : M D bool) :
  tracks_click m1 -> tracks_click m2 ->
  tracks_click (done <- m1 ;; if done then ret true else m2).
Proof.
  intros H1 H2 s. run_m.
  destruct (H1 s) as (new & Hs & Hc).
  destruct (m1 s) as [[[|]|x] s1]; cbn [fst snd] in *.
  - exists new. auto.
  - destruct (H2 s1) as (new' & Hs' & Hc').
    exists (new ++ new')%list. rewrite Hs', Hs, app_assoc. split; [reflexivity|].
    rewrite clicked_app.
    destruct (clicked D new) eqn:E.
    + destruct Hc as [Hc _]. specialize (Hc eq_refl). discriminate.
    + cbn [orb]. exact Hc'.
  - exists new. split; [exact Hs|]. split; [|discriminate].
    intros E. apply Hc in E. discriminate.
Qed.

(** Scrolling and settling first does not count as a click. *)
Lemma tracks_after_scroll (e : Elem D) (ms : N) (m : M D bool) :
  tracks_click m -> tracks_click (execute_script (ScrollIntoView e) ;; sleep ms ;; m).
Proof.
  intros Hm s. run_m. unfold execute_script, sleep.
  destruct (drv_execute_script D (world s) (ScrollIntoView e)) as [[[]|x] w'].
  - match goal with |- context [m ?st] => remember st as s1 eqn:Es end.
    destruct (Hm s1) as (new & Hs & Hc).
    assert (scripts s1 = (scripts s ++ [(ScrollIntoView e, true)])%list) as E1
      by (subst s1; reflexivity).
    exists ((ScrollIntoView e, true) :: new). rewrite Hs, E1, <- app_assoc.
    split; [reflexivity|]. exact Hc.
  - cbn [fst snd scripts]. eexists. split; [reflexivity|]. cbn. split; discriminate.
Qed.

Lemma try_toggles_tracks (first_cell : Elem D) (selectors : list string) :
  tracks_click (try_toggles D fast first_cell selectors).
Proof.
  induction selectors as [|selector rest IH]; cbn [try_toggles].
  - apply tracks_ret_false.
  - apply tracks_or_else; [|exact IH].
    apply tracks_try_except_nse; [|apply tracks_ret_false].
    apply tracks_query. intros btn. apply tracks_query. intros shown.
    apply tracks_if; [apply tracks_click_then_true | apply tracks_ret_false].
Qed.

Lemma expand_strategies_track (row_element : Elem D) :
  tracks_click
    (done1 <- expand_strategy_1 D fast row_element ;;
     if done1 then ret true
     else done2 <- expand_strategy_2 D fast row_element ;;
          if done2 then ret true else expand_strategy_3 D fast row_element).
Proof.
  apply tracks_or_else; [|apply tracks_or_else].
  - apply tracks_try_except_nse; [|apply tracks_ret_false].
    apply tracks_query. intros first_cell. apply try_toggles_tracks.
  - apply tracks_try_except; [|apply tracks_ret_false].
    apply tracks_query. intros first_cell. apply tracks_click_then_true.
  - apply tracks_click_then_true.
Qed.

End ExpandFacts.

Section ExpandRow.

Variable D : Driver.
Variable fast : bool.

Lemma expand_row_cases (row_element : Elem D) (s : St D) :
  expand_row D fast row_element s =
  match drv_get_attribute D (world s) row_element "class" with
  | Ok cls =>
      if contains "opened" (or_empty cls) then (Ok true, s)
      else try_except (expand_body D fast row_element) (ret false) s
  | Raise _ => (Ok false, s)
  end.
Proof.
  unfold expand_row, expand_body, query, get_attribute. run_m.
  destruct (drv_get_attribute D (world s) row_element "class") as [cls|x]; [|reflexivity].
  destruct (contains "opened" (or_empty cls)); reflexivity.
Qed.

Lemma expand_body_tracks (row_element : Elem D) :
  tracks_click D (try_except (expand_body D fast row_element) (ret false)).
Proof.
  apply tracks_try_except; [|apply tracks_ret_false].
  apply tracks_after_scroll, expand_strategies_track.
Qed.

Lemma try_except_false_returns (m : M D bool) (s : St D) :
  exists b, fst (try_except m (ret false) s) = Ok b.
Proof.
  run_m. destruct (m s) as [[b|x] s1]; cbn; eauto.
Qed.

End ExpandRow.

(** C8, as the code has it. [expand_row] always returns a boolean. On a row
    whose class already contains [opened] it returns [True] and runs no script
    at all, leaving the session as it was; otherwise it returns [True] exactly
    when one of its clicks (toggle, first cell, row) went through. So the
    result is [True] exactly when the row was already open or a click was
    performed, and [False] when the row was not open and every click raised. *)
Theorem expand_row_true_iff_opened_or_clicked
    (D : Driver) (fast : bool) (row_element : Elem D) (s : St D) :
  exists (b : bool) (new : list (event D)),
    fst (expand_row D fast row_element s) = Ok b
    /\ scripts (snd (expand_row D fast row_element s)) = (scripts s ++ new)%list
    /\ (already_opened D (world s) row_element = true ->
        expand_row D fast row_element s = (Ok true, s))
    /\ (b = true <-> already_opened D (world s) row_element = true \/ clicked D new = true)
    /\ (already_opened D (world s) row_element = false ->
        (forall e ok, In (Click e, ok) new -> ok = false) -> b = false).
Proof.
  assert (forall new : list (event D),
             (forall e ok, In (Click e, ok) new -> ok = false) -> clicked D new = false)
    as Hnone.
  { intros new Hall. unfold clicked.
    destruct (existsb (is_click_ok D) new) eqn:E; [|reflexivity].
    apply existsb_exists in E. destruct E as ([sc ok] & Hin & Hok).
    destruct sc as [|e|e]; try discriminate.
    rewrite (Hall e ok Hin) in Hok. discriminate. }
  rewrite expand_row_cases. unfold already_opened.
  destruct (drv_get_attribute D (world s) row_element "class") as [cls|x].
  - destruct (contains "opened" (or_empty cls)) eqn:O.
    + exists true, []. cbn [fst snd]. rewrite app_nil_r.
      split; [reflexivity|]. split; [reflexivity|]. split; [reflexivity|].
      split; [tauto|]. discriminate.
    + destruct (expand_body_tracks D fast row_element s) as (new & Hs & Hc).
      destruct (try_except_false_returns D (expand_body D fast row_element) s) as [b Hb].
      exists b, new. split; [exact Hb|]. split; [exact Hs|].
      split; [discriminate|].
      rewrite Hb in Hc. split; [split|].
      * intros ->. right. apply Hc. reflexivity.
      * intros [H|H]; [discriminate|]. apply Hc in H. congruence.
      * intros _ Hall. apply Hnone in Hall.
        destruct b; [|reflexivity].
        destruct Hc as [_ Hc]. rewrite Hc in Hall; [discriminate|reflexivity].
  - exists false, []. cbn [fst snd]. rewrite app_nil_r.
    split; [reflexivity|]. split; [reflexivity|]. split; [discriminate|].
    split; [|reflexivity]. split; [discriminate|]. intros [H|H]; discriminate.
Qed.

(** C8 as stated fails: row 2 of the sample table is already open, and
    [expand_row] answers [True] without having clicked anything. *)
Lemma expand_row_true_without_click :
  let out := expand_row Samples.live_table false 2 (Samples.start Samples.live_table tt) in
  ~ (fst out = Ok true <-> clicked Samples.live_table (scripts (snd out)) = true).
Proof.
  intros out [H _].
  assert (fst out = Ok true) as T by (vm_compute; reflexivity).
  apply H in T. vm_compute in T. discriminate.
Qed.

Example sample_expand_rows :
  expand_row Samples.live_table false 2 (Samples.start Samples.live_table tt)
  = (Ok true, Samples.start Samples.live_table tt)
  /\ expand_row Samples.live_table false 1 (Samples.start Samples.live_table tt)
     = (Ok true, Build_St Samples.live_table tt
                   [(ScrollIntoView 1, true); (Click 10, true)]).
Proof. vm_compute. split; reflexivity. Qed.

(** *** Next page *)

Section CommandFacts.

Variable D : Driver.

Lemma returns_ret {A : Type} (a : A) : returns (ret a : M D A).
Proof. intros s. exists a. reflexivity. Qed.

Lemma returns_bind {A B : Type} (m : M D A) (k : A -> M D B) :
  returns m -> (forall a, returns (k a)) -> returns (a <- m ;; k a).
Proof.
  intros Hm Hk s. run_m. destruct (Hm s) as [a Ha].
  destruct (m s) as [[a'|x] s1]; cbn [fst] in Ha; [|discriminate].
  apply Hk.
Qed.

Lemma returns_try_except {A : Type} (m h : M D A) :
  returns h -> returns (try_except m h).
Proof.
  intros Hh s. run_m. destruct (m s) as [[a|x] s1]; [eexists; reflexivity|].
  apply Hh.
Qed.

End CommandFacts.

Section NextPage.

Variable D : Driver.
Variable fast : bool.

Lemma click_attempt_result (next_btn : Elem D) (s : St D) :
  fst (click_attempt D fast next_btn s)
  = Ok (enabled_now D (world s) next_btn && negb (attempt_throws D next_btn s)).
Proof.
  unfold click_attempt, enabled_now, attempt_throws, query, is_enabled. run_m.
  destruct (drv_is_enabled D (world s) next_btn) as [[|]|x]; [|reflexivity|reflexivity].
  cbn [negb andb].
  destruct (execute_script (ScrollIntoView next_btn) s) as [[[]|x] s1]; [|reflexivity].
  unfold sleep. 
  match goal with |- context [execute_script (Click next_btn) ?st] =>
    destruct (execute_script (Click next_btn) st) as [[[]|y] s2] end; reflexivity.
Qed.

(** A candidate that is not enabled is passed over: nothing is run on it. *)
Lemma click_attempt_skips_disabled (next_btn : Elem D) (s : St D) :
  enabled_now D (world s) next_btn = false ->
  click_attempt D fast next_btn s = (Ok false, s).
Proof.
  unfold click_attempt, enabled_now, query, is_enabled. run_m.
  destruct (drv_is_enabled D (world s) next_btn) as [[|]|x]; [discriminate| |]; reflexivity.
Qed.

Lemma click_first_enabled_result (candidates : list (Elem D)) (s : St D) :
  fst (click_first_enabled D fast candidates s)
  = Ok (negb (every_attempt_fails D fast candidates s)).
Proof.
  revert s. induction candidates as [|c rest IH]; intros s; [reflexivity|].
  cbn [click_first_enabled every_attempt_fails]. run_m.
  pose proof (click_attempt_result c s) as Hc.
  destruct (click_attempt D fast c s) as [[b|x] s1]; cbn [fst snd] in *; [|discriminate].
  injection Hc as ->.
  destruct (enabled_now D (world s) c); cbn [negb andb orb].
  - destruct (attempt_throws D c s); cbn [negb andb]; [apply IH | reflexivity].
  - apply IH.
Qed.

Lemma go_to_next_page_returns : returns (go_to_next_page D fast).
Proof. apply returns_try_except, returns_ret. Qed.

Lemma go_to_next_page_result (s : St D) :
  fst (go_to_next_page D fast s) =
  Ok (match fst (execute_script ScrollToBottom s) with
      | Raise _ => false
      | Ok _ =>
          match find_candidates D (world (after_scroll D s)) with
          | Raise _ => false
          | Ok cs => negb (every_attempt_fails D fast cs (after_scroll D s))
          end
      end).
Proof.
  unfold go_to_next_page, after_scroll. run_m.
  destruct (execute_script ScrollToBottom s) as [[[]|x] s1]; [|reflexivity].
  cbn [fst snd]. unfold sleep at 1 2 3. unfold query at 1. cbn [world fst snd].
  match goal with |- context [find_candidates D ?w] =>
    destruct (find_candidates D w) as [cs|y] end; [|reflexivity].
  match goal with |- context [click_first_enabled D fast cs ?st] =>
    pose proof (click_first_enabled_result cs st) as Hc;
    destruct (click_first_enabled D fast cs st) as [[b|z] s2] end;
    cbn [fst] in Hc; [|discriminate].
  injection Hc as ->. reflexivity.
Qed.

End NextPage.

(** *** The page loop *)

Section PageLoop.

Variable D : Driver.
Variable wait_time : Z.
Variable fast : bool.
Variable flag : bool.

Lemma scrape_page_returns (expand_rows : bool) (all_data : list ScrapedRecord) :
  returns (scrape_page D wait_time fast flag expand_rows all_data).
Proof.
  unfold scrape_page. apply returns_bind.
  - destruct (flag && expand_rows).
    + apply returns_try_except, returns_ret.
    + apply returns_ret.
  - intros [page_done all_data']. destruct page_done; cbn [negb].
    + apply returns_ret.
    + apply returns_try_except, returns_ret.
Qed.

Lemma get_total_pages_returns (w : World D) : exists n, get_total_pages D w = Ok n.
Proof.
  unfold get_total_pages. run_q.
  destruct (try_except_returns D
              (el <- find_element Document CSS_SELECTOR
                       ".pagination-info, [class*='pagination'], [class*='count']" ;;
               pagination_text <- text el ;;
               match re_search_of pagination_text with
               | Some group1 =>
                   match int group1 with
                   | Some total => ret (Some (pages_for total))
                   | None => raise OtherException
                   end
               | None => ret None
               end)
              (ret None) w) as [a Ha]; [eexists; reflexivity|].
  unfold pages_from_summary. rewrite Ha.
  destruct a as [n|]; [eexists; reflexivity|].
  unfold pages_from_buttons. run_q.
  destruct (find_elements Document CSS_SELECTOR ".page-number, [class*='page']" w) as [bs|x];
    [|eexists; reflexivity].
  destruct (nonempty bs); eexists; reflexivity.
Qed.

Lemma pages_scraped_app (a b : list log_msg) :
  pages_scraped (a ++ b) = (pages_scraped a ++ pages_scraped b)%list.
Proof.
  induction a as [|[t p|n] a IH]; cbn [app pages_scraped]; [reflexivity|exact IH|].
  rewrite IH. reflexivity.
Qed.

(** One turn of the loop, by the answer of [go_to_next_page]. *)
Lemma scrape_loop_step (fuel : nat) (expand_rows : bool) (max_pages : option Z)
    (page_num : Z) (all_data : list ScrapedRecord) (log : list log_msg) (s : St D) :
  exists all_data' s1 b s2,
    scrape_page D wait_time fast flag expand_rows all_data s = (Ok all_data', s1)
    /\ go_to_next_page D fast s1 = (Ok b, s2)
    /\ scrape_loop D wait_time fast flag (S fuel) expand_rows max_pages page_num all_data log s =
       if b then
         if over_cap max_pages (page_num + 1) then
           Some (Ok all_data', (log ++ [ScrapingPage page_num])%list, s2)
         else if (page_num + 1 >? 20)%Z then
           Some (Ok all_data', (log ++ [ScrapingPage page_num])%list, s2)
         else scrape_loop D wait_time fast flag fuel expand_rows max_pages (page_num + 1)
                all_data' (log ++ [ScrapingPage page_num])%list s2
       else Some (Ok all_data', (log ++ [ScrapingPage page_num])%list, s2).
Proof.
  cbn [scrape_loop].
  destruct (scrape_page_returns expand_rows all_data s) as [d Hd].
  destruct (scrape_page D wait_time fast flag expand_rows all_data s) as [[d'|x] s1] eqn:Ep;
    cbn [fst] in Hd; [|discriminate].
  destruct (go_to_next_page_returns D fast s1) as [b Hb].
  destruct (go_to_next_page D fast s1) as [[b'|x] s2] eqn:En; cbn [fst] in Hb; [|discriminate].
  exists d', s1, b', s2. split; [reflexivity|]. split; [exact En|].
  destruct b'; reflexivity.
Qed.

(** From page [page_num] on, with fuel for the pages up to 20, the loop ends
    normally after [k >= 1] consecutive pages, the last one at most 20 and at
    most the cap (or the starting page, if the cap is below it). *)
Lemma scrape_loop_bound (fuel : nat) (expand_rows : bool) (max_pages : option Z) :
  forall (page_num : Z) (all_data : list ScrapedRecord) (log : list log_msg) (s : St D),
    (1 <= page_num <= 20)%Z ->
    (21 - page_num <= Z.of_nat fuel)%Z ->
    exists all_data' new st k,
      scrape_loop D wait_time fast flag fuel expand_rows max_pages page_num all_data log s
      = Some (Ok all_data', (log ++ new)%list, st)
      /\ pages_scraped new = page_range page_num k
      /\ 1 <= k
      /\ (page_num + Z.of_nat k - 1 <= 20)%Z
      /\ (forall m, max_pages = Some m -> (page_num + Z.of_nat k - 1 <= Z.max page_num m)%Z).
Proof.
  induction fuel as [|fuel IH]; intros page_num all_data log s Hp Hf; [lia|].
  destruct (scrape_loop_step fuel expand_rows max_pages page_num all_data log s)
    as (d & s1 & b & s2 & _ & _ & ->).
  assert (exists all_data' new st k,
             Some (Ok d, (log ++ [ScrapingPage page_num])%list, s2)
             = Some (Ok all_data', (log ++ new)%list, st)
             /\ pages_scraped new = page_range page_num k
             /\ 1 <= k
             /\ (page_num + Z.of_nat k - 1 <= 20)%Z
             /\ (forall m, max_pages = Some m ->
                           (page_num + Z.of_nat k - 1 <= Z.max page_num m)%Z)) as Hstop.
  { exists d, [ScrapingPage page_num], s2, 1.
    split; [reflexivity|]. split; [reflexivity|]. split; [lia|]. split; [lia|].
    intros m _. lia. }
  destruct b; [|exact Hstop].
  destruct (over_cap max_pages (page_num + 1)) eqn:Hcap; [exact Hstop|].
  destruct (page_num + 1 >? 20)%Z eqn:Hhard; [exact Hstop|].
  assert (page_num + 1 <= 20)%Z as Hle.
  { pose proof (Zgt_cases (page_num + 1) 20) as G. rewrite Hhard in G. exact G. }
  destruct (IH (page_num + 1)%Z d (log ++ [ScrapingPage page_num])%list s2)
    as (d' & new & st & k & -> & Hpages & Hk & Hlast & Hm); [lia|lia|].
  exists d', (ScrapingPage page_num :: new), st, (S k).
  split; [rewrite <- app_assoc; reflexivity|].
  split; [cbn [pages_scraped page_range]; rewrite Hpages; reflexivity|].
  split; [lia|]. split; [lia|].
  intros m Hcapm. specialize (Hm m Hcapm).
  unfold over_cap in Hcap. rewrite Hcapm in Hcap.
  pose proof (Zgt_cases (page_num + 1) m) as G. rewrite Hcap in G. lia.
Qed.

End PageLoop.

(** C5, as the code has it. With fuel for twenty turns the page loop always
    ends, normally, after [k] consecutive pages starting at page 1, where
    [1 <= k <= 20]; with a cap [m] given, [k] is at most [m] when [m >= 1] (and
    is 1 for a cap below 1, the first page being scraped before any test); with
    the cap 1 it is exactly one page. [scrape_all] itself ends too: it raises
    only if [wait_for_table] does, before any page, and otherwise returns what
    the loop returns; the detected page count reaches nothing but the log. *)
Theorem page_loop_is_bounded
    (D : Driver) (wait_time : Z) (fast flag : bool) (fuel : nat)
    (expand_rows : bool) (max_pages : option Z)
    (all_data : list ScrapedRecord) (log : list log_msg) (s : St D) :
  20 <= fuel ->
  (exists all_data' new st k,
      scrape_loop D wait_time fast flag fuel expand_rows max_pages 1%Z all_data log s
      = Some (Ok all_data', (log ++ new)%list, st)
      /\ pages_scraped new = page_range 1%Z k
      /\ 1 <= k <= 20
      /\ (forall m, max_pages = Some m -> (Z.of_nat k <= Z.max 1 m)%Z)
      /\ (max_pages = Some 1%Z -> k = 1))
  /\ (exists r log' st,
         scrape_all D wait_time fast flag fuel expand_rows max_pages s = Some (r, log', st)
         /\ ((exists x, r = Raise x
                        /\ fst (wait_for_table D wait_time s) = Raise x
                        /\ pages_scraped log' = [])
             \/ (exists data k,
                    r = Ok data
                    /\ pages_scraped log' = page_range 1%Z k
                    /\ 1 <= k <= 20
                    /\ (forall m, max_pages = Some m -> (Z.of_nat k <= Z.max 1 m)%Z)
                    /\ (max_pages = Some 1%Z -> k = 1)))).
Proof.
  intros Hfuel.
  assert (forall all_data log s,
             exists all_data' new st k,
               scrape_loop D wait_time fast flag fuel expand_rows max_pages 1%Z all_data log s
               = Some (Ok all_data', (log ++ new)%list, st)
               /\ pages_scraped new = page_range 1%Z k
               /\ 1 <= k <= 20
               /\ (forall m, max_pages = Some m -> (Z.of_nat k <= Z.max 1 m)%Z)
               /\ (max_pages = Some 1%Z -> k = 1)) as Hloop.
  { intros a l s0.
    destruct (scrape_loop_bound D wait_time fast flag fuel expand_rows max_pages 1%Z a l s0)
      as (d & new & st & k & -> & Hp & Hk & Hlast & Hm); [lia|lia|].
    exists d, new, st, k. split; [reflexivity|]. split; [exact Hp|].
    split; [lia|]. split.
    - intros m Hcap. specialize (Hm m Hcap). lia.
    - intros Hcap. specialize (Hm 1%Z Hcap). lia. }
  split; [apply Hloop|].
  unfold scrape_all.
  destruct (wait_for_table D wait_time s) as [[found|x] s1] eqn:Ew.
  - run_m. unfold sleep, query. cbn [world].
    match goal with |- context [get_total_pages D ?w] =>
      destruct (get_total_pages_returns D w) as [n ->] end.
    match goal with |- context [scrape_loop _ _ _ _ _ _ _ _ ?a ?l ?s0] =>
      destruct (Hloop a l s0) as (d & new & st & k & -> & Hp & Hk & Hm & H1) end.
    eexists _, _, _. split; [reflexivity|]. right.
    exists d, k. split; [reflexivity|].
    split; [rewrite pages_scraped_app; cbn [pages_scraped app]; exact Hp|].
    auto.
  - eexists _, _, _. split; [reflexivity|]. left.
    exists x. auto.
Qed.

Lemma page_loop_is_bounded_witness :
  (exists all_data' new st k,
      scrape_loop Samples.endless 10%Z true false 20 true (Some 3%Z) 1%Z [] []
        (Samples.start Samples.endless tt)
      = Some (Ok all_data', ([] ++ new)%list, st)
      /\ pages_scraped new = page_range 1%Z k
      /\ 1 <= k <= 20
      /\ (forall m, Some 3%Z = Some m -> (Z.of_nat k <= Z.max 1 m)%Z)
      /\ (Some 3%Z = Some 1%Z -> k = 1))
  /\ (exists r log' st,
         scrape_all Samples.endless 10%Z true false 20 true (Some 3%Z)
           (Samples.start Samples.endless tt) = Some (r, log', st)
         /\ ((exists x, r = Raise x
                        /\ fst (wait_for_table Samples.endless 10%Z
                                  (Samples.start Samples.endless tt)) = Raise x
                        /\ pages_scraped log' = [])
             \/ (exists data k,
                    r = Ok data
                    /\ pages_scraped log' = page_range 1%Z k
                    /\ 1 <= k <= 20
                    /\ (forall m, Some 3%Z = Some m -> (Z.of_nat k <= Z.max 1 m)%Z)
                    /\ (Some 3%Z = Some 1%Z -> k = 1)))).
Proof.
  apply (page_loop_is_bounded Samples.endless 10%Z true false 20 true (Some 3%Z) [] []
           (Samples.start Samples.endless tt)).
  lia.
Defined.

(** C5 as stated fails for a cap of 0: the first page is scraped before the
    cap is looked at, so one page is processed, which is more than the cap. *)
Lemma zero_cap_still_scrapes_one_page :
  exists data log st,
    scrape_all Samples.endless 10%Z true false 20 true (Some 0%Z)
      (Samples.start Samples.endless tt) = Some (Ok data, log, st)
    /\ pages_scraped log = [1%Z]
    /\ ~ (Z.of_nat (length (pages_scraped log)) <= 0)%Z.
Proof.
  eexists _, _, _. split; [vm_compute; reflexivity|].
  split; [reflexivity|]. cbn. lia.
Qed.

Example sample_page_counts :
  option_map (fun o => pages_scraped (snd (fst o)))
    (scrape_all Samples.endless 10%Z true false 20 true None
       (Samples.start Samples.endless tt))
  = Some (page_range 1%Z 20)
  /\ option_map (fun o => pages_scraped (snd (fst o)))
       (scrape_all Samples.endless 10%Z true false 20 true (Some 1%Z)
          (Samples.start Samples.endless tt))
     = Some [1%Z]
  /\ option_map (fun o => pages_scraped (snd (fst o)))
       (scrape_all Samples.endless 10%Z true false 20 true (Some 3%Z)
          (Samples.start Samples.endless tt))
     = Some [1%Z; 2%Z; 3%Z]
  /\ option_map (fun o => pages_scraped (snd (fst o)))
       (scrape_all Samples.live_table 10%Z true false 20 true (Some 3%Z)
          (Samples.start Samples.live_table tt))
     = Some [1%Z].
Proof. vm_compute. repeat split. Qed.

(** C7, as the code has it. [go_to_next_page] always returns a boolean. A
    candidate that is not enabled is passed over with nothing run on it. The
    result is [False] exactly when the scroll of line 576 raises, or the
    search for candidates raises, or every candidate found is in turn not
    enabled or throws on its scroll or click. When [go_to_next_page] says
    [False] the page loop stops there and returns the records normally. *)
Theorem next_page_fails_iff_no_candidate_gets_through :
  (forall (D : Driver) (fast : bool) (s : St D),
      exists b : bool,
        fst (go_to_next_page D fast s) = Ok b
        /\ (b = false <->
            (exists x, fst (execute_script ScrollToBottom s) = Raise x)
            \/ (exists x, find_candidates D (world (after_scroll D s)) = Raise x)
            \/ (exists cs, find_candidates D (world (after_scroll D s)) = Ok cs
                           /\ every_attempt_fails D fast cs (after_scroll D s) = true)))
  /\ (forall (D : Driver) (fast : bool) (next_btn : Elem D) (s : St D),
         enabled_now D (world s) next_btn = false ->
         click_attempt D fast next_btn s = (Ok false, s))
  /\ (forall (D : Driver) (wait_time : Z) (fast flag : bool) (fuel : nat)
             (expand_rows : bool) (max_pages : option Z) (page_num : Z)
             (all_data all_data' : list ScrapedRecord) (log : list log_msg)
             (s s1 s2 : St D),
         scrape_page D wait_time fast flag expand_rows all_data s = (Ok all_data', s1) ->
         go_to_next_page D fast s1 = (Ok false, s2) ->
         scrape_loop D wait_time fast flag (S fuel) expand_rows max_pages page_num
           all_data log s
         = Some (Ok all_data', (log ++ [ScrapingPage page_num])%list, s2)).
Proof.
  split; [|split].
  - intros D fast s. rewrite go_to_next_page_result. eexists. split; [reflexivity|].
    destruct (fst (execute_script ScrollToBottom s)) as [u|x].
    + destruct (find_candidates D (world (after_scroll D s))) as [cs|y].
      * split.
        -- intros H. right. right. exists cs. split; [reflexivity|].
           apply negb_false_iff. exact H.
        -- intros [[x Hx]|[[x Hx]|(cs' & Hcs & Hf)]]; try discriminate.
           injection Hcs as <-. rewrite Hf. reflexivity.
      * split; [|reflexivity]. intros _. right. left. eauto.
    + split; [|reflexivity]. intros _. left. eauto.
  - intros. apply click_attempt_skips_disabled. assumption.
  - intros D wait_time fast flag fuel expand_rows max_pages page_num all_data all_data'
           log s s1 s2 Hp Hn.
    cbn [scrape_loop]. rewrite Hp, Hn. reflexivity.
Qed.

Lemma next_page_fails_iff_no_candidate_gets_through_witness :
  (exists b : bool,
      fst (go_to_next_page Samples.disabled_next false
             (Samples.start Samples.disabled_next tt)) = Ok b
      /\ (b = false <->
          (exists x, fst (execute_script ScrollToBottom
                            (Samples.start Samples.disabled_next tt)) = Raise x)
          \/ (exists x, find_candidates Samples.disabled_next
                          (world (after_scroll Samples.disabled_next
                                    (Samples.start Samples.disabled_next tt))) = Raise x)
          \/ (exists cs, find_candidates Samples.disabled_next
                           (world (after_scroll Samples.disabled_next
                                     (Samples.start Samples.disabled_next tt))) = Ok cs
                         /\ every_attempt_fails Samples.disabled_next false cs
                              (after_scroll Samples.disabled_next
                                 (Samples.start Samples.disabled_next tt)) = true)))
  /\ click_attempt Samples.disabled_next false 60 (Samples.start Samples.disabled_next tt)
     = (Ok false, Samples.start Samples.disabled_next tt)
  /\ scrape_loop Samples.disabled_next 10%Z false false 1 false None 1%Z [] []
       (Samples.start Samples.disabled_next tt)
     = Some (Ok [], ([] ++ [ScrapingPage 1%Z])%list,
             Build_St Samples.disabled_next tt [(ScrollToBottom, true)]).
Proof.
  destruct next_page_fails_iff_no_candidate_gets_through as (Hres & Hskip & Hloop).
  split; [|split].
  - apply Hres.
  - apply Hskip. reflexivity.
  - apply (Hloop Samples.disabled_next 10%Z false false 0 false None 1%Z [] [] []
             (Samples.start Samples.disabled_next tt)
             (Samples.start Samples.disabled_next tt)).
    + vm_compute. reflexivity.
    + vm_compute. reflexivity.
Defined.

(** C7 as stated fails: on this page a next button is there, enabled, and
    takes its scroll and click, yet [go_to_next_page] answers [False], because
    the scroll to the bottom of line 576 raised. *)
Lemma next_page_fails_with_a_working_candidate :
  let s := Samples.start Samples.blocked_scroll tt in
  ~ (fst (go_to_next_page Samples.blocked_scroll false s) = Ok false <->
     exists cs, find_candidates Samples.blocked_scroll (world s) = Ok cs
                /\ every_attempt_fails Samples.blocked_scroll false cs s = true).
Proof.
  intros s [H _].
  assert (fst (go_to_next_page Samples.blocked_scroll false s) = Ok false) as F
      by (vm_compute; reflexivity).
  destruct (H F) as (cs & Hcs & Hf).
  vm_compute in Hcs. injection Hcs as <-.
  vm_compute in Hf. discriminate.
Qed.

Example sample_next_pages :
  fst (go_to_next_page Samples.endless false (Samples.start Samples.endless tt)) = Ok true
  /\ fst (go_to_next_page Samples.disabled_next false
            (Samples.start Samples.disabled_next tt)) = Ok false
  /\ fst (go_to_next_page Samples.live_table false
            (Samples.start Samples.live_table tt)) = Ok false.
Proof. vm_compute. repeat split. Qed.

(** The Selenium line parser on a rendered details cell. *)
Example sample_details_text :
  parse_details_text
    ("Details" ++ String newline
       (String dquote ("Office closed." ++ String dquote
          (String newline ("State status: Enacted" ++ String newline "In force since May")))))
  = ("Office closed.", "Enacted")
  /\ parse_details_text
       ("Details" ++ String newline ("First line" ++ String newline
          ("second line" ++ String newline ("State status:" ++ String newline "Pending"))))
     = ("First line second line", "Pending").
Proof. vm_compute. split; reflexivity. Qed.

(* ===================================================================== *)
(** ** Further properties: page count and table wait *)
(* ===================================================================== *)

Lemma pages_for_nonneg (total : Z) : (0 <= total)%Z -> (0 <= pages_for total)%Z.
Proof.
  intros H. unfold pages_for, items_per_page.
  pose proof (Z.div_pos total 25 H ltac:(lia)).
  destruct (total mod 25 >? 0)%Z; lia.
Qed.

Lemma pages_for_zero_iff (total : Z) :
  (0 <= total)%Z -> (pages_for total = 0%Z <-> total = 0%Z).
Proof.
  intros H. pose proof (pages_for_is_ceiling total). lia.
Qed.

(** X1. [get_total_pages] never raises and never returns a negative count;
    it returns 0 only when the summary was read and its count converts to 0. *)
Theorem get_total_pages_nonnegative (D : Driver) (w : World D) :
  exists n : Z,
    get_total_pages D w = Ok n
    /\ (0 <= n)%Z
    /\ (n = 0%Z ->
        exists el pagination_text group1,
          drv_find_element D w Document CSS_SELECTOR
            ".pagination-info, [class*='pagination'], [class*='count']" = Ok el
          /\ drv_text D w el = Ok pagination_text
          /\ re_search_of pagination_text = Some group1
          /\ int group1 = Some 0%Z).
Proof.
  unfold get_total_pages, pages_from_summary, pages_from_buttons. run_q.
  unfold find_element, text, find_elements.
  destruct (drv_find_element D w Document CSS_SELECTOR
              ".pagination-info, [class*='pagination'], [class*='count']") as [el|x] eqn:Hel.
  - destruct (drv_text D w el) as [t|x] eqn:Ht.
    + destruct (re_search_of t) as [g|] eqn:Hre.
      * destruct (int g) as [total|] eqn:Hint.
        -- exists (pages_for total). split; [reflexivity|].
           pose proof (int_nonneg _ _ Hint) as Hpos.
           split; [apply pages_for_nonneg, Hpos|].
           intros Hz. apply (proj1 (pages_for_zero_iff _ Hpos)) in Hz. subst total.
           exists el, t, g. auto.
        -- destruct (drv_find_elements D w Document CSS_SELECTOR _) as [[|b bs]|x];
             cbn [nonempty]; eexists; (split; [reflexivity|]); (split; [lia|]);
             intros Hz; try discriminate; cbn [length] in Hz; lia.
      * destruct (drv_find_elements D w Document CSS_SELECTOR _) as [[|b bs]|x];
          cbn [nonempty]; eexists; (split; [reflexivity|]); (split; [lia|]);
          intros Hz; try discriminate; cbn [length] in Hz; lia.
    + destruct (drv_find_elements D w Document CSS_SELECTOR _) as [[|b bs]|y];
        cbn [nonempty]; eexists; (split; [reflexivity|]); (split; [lia|]);
        intros Hz; try discriminate; cbn [length] in Hz; lia.
  - destruct (drv_find_elements D w Document CSS_SELECTOR _) as [[|b bs]|y];
      cbn [nonempty]; eexists; (split; [reflexivity|]); (split; [lia|]);
      intros Hz; try discriminate; cbn [length] in Hz; lia.
Qed.

(** X2. When the summary gives no count (its element is missing, its text
    cannot be read, the text has no [of <N>], or [int] rejects the digits as
    too many), [get_total_pages] returns the number of page-number controls
    if there are any, and 1 if there are none or the look-up raises. *)
Theorem get_total_pages_falls_back (D : Driver) (w : World D) :
  (exists x, drv_find_element D w Document CSS_SELECTOR
               ".pagination-info, [class*='pagination'], [class*='count']" = Raise x)
  \/ (exists el, drv_find_element D w Document CSS_SELECTOR
                   ".pagination-info, [class*='pagination'], [class*='count']" = Ok el
                 /\ ((exists x, drv_text D w el = Raise x)
                     \/ (exists t, drv_text D w el = Ok t
                                   /\ (re_search_of t = None
                                       \/ exists group1,
                                            re_search_of t = Some group1
                                            /\ (int_max_str_digits
                                                < Z.of_nat (length group1))%Z)))) ->
  get_total_pages D w =
  Ok (match drv_find_elements D w Document CSS_SELECTOR ".page-number, [class*='page']" with
      | Ok (b :: bs) => Z.of_nat (length (b :: bs))
      | Ok [] => 1%Z
      | Raise _ => 1%Z
      end).
Proof.
  intros H.
  unfold get_total_pages, pages_from_summary, pages_from_buttons. run_q.
  unfold find_element, text, find_elements.
  destruct H as [[x Hx]|(el & Hel & [[x Hx]|(t & Ht & [Hre|(g & Hre & Hlen)])])].
  - rewrite Hx.
    destruct (drv_find_elements D w Document CSS_SELECTOR _) as [[|b bs]|y]; reflexivity.
  - rewrite Hel, Hx.
    destruct (drv_find_elements D w Document CSS_SELECTOR _) as [[|b bs]|y]; reflexivity.
  - rewrite Hel, Ht, Hre.
    destruct (drv_find_elements D w Document CSS_SELECTOR _) as [[|b bs]|y]; reflexivity.
  - rewrite Hel, Ht, Hre, (int_too_long g Hlen).
    destruct (drv_find_elements D w Document CSS_SELECTOR _) as [[|b bs]|y]; reflexivity.
Qed.

Lemma get_total_pages_falls_back_witness :
  get_total_pages Samples.three_buttons tt =
  Ok (match drv_find_elements Samples.three_buttons tt Document CSS_SELECTOR
              ".page-number, [class*='page']" with
      | Ok (b :: bs) => Z.of_nat (length (b :: bs))
      | Ok [] => 1%Z
      | Raise _ => 1%Z
      end).
Proof.
  apply (get_total_pages_falls_back Samples.three_buttons tt).
  left. exists NoSuchElementException. reflexivity.
Defined.

Example sample_page_counts_fallback :
  get_total_pages Samples.three_buttons tt = Ok 3%Z
  /\ get_total_pages Samples.no_table tt = Ok 1%Z
  /\ get_total_pages (Samples.summary_page "0 of 0 results") tt = Ok 0%Z.
Proof. vm_compute. repeat split. Qed.

Section TableWait.

Variable D : Driver.
Variable wait_time : Z.

Lemma wait_for_selectors_facts (selectors : list string) (s : St D) :
  scripts (snd (wait_for_selectors D wait_time selectors s)) = scripts s
  /\ fst (wait_for_selectors D wait_time selectors s) <> Raise TimeoutException
  /\ ((forall w v, fst (drv_wait_presence D w wait_time v) = Raise TimeoutException) ->
      fst (wait_for_selectors D wait_time selectors s) = Ok false)
  /\ ((forall w v, In v selectors ->
                   exists x, fst (drv_wait_presence D w wait_time v) = Raise x) ->
      fst (wait_for_selectors D wait_time selectors s) <> Ok true).
Proof.
  revert s. induction selectors as [|selector rest IH]; intros s.
  - cbn. repeat split; discriminate.
  - cbn [wait_for_selectors]. run_m. unfold wait_presence at 1 2 3 4.
    destruct (drv_wait_presence D (world s) wait_time selector) as [[el|x] w'] eqn:Hw.
    + cbn [fst snd scripts]. split; [reflexivity|]. split; [discriminate|].
      split.
      * intros Hall. specialize (Hall (world s) selector). rewrite Hw in Hall. discriminate.
      * intros Hall. destruct (Hall (world s) selector (or_introl eq_refl)) as [x Hx].
        rewrite Hw in Hx. discriminate.
    + destruct x.
      * cbn [fst snd scripts]. repeat split; try discriminate.
        intros Hall. specialize (Hall (world s) selector). rewrite Hw in Hall. discriminate.
      * match goal with |- context [wait_for_selectors D wait_time rest ?s1] =>
          destruct (IH s1) as (Hs & Hn & Ha & Hb) end.
        cbn [scripts] in Hs. split; [exact Hs|]. split; [exact Hn|].
        split; [exact Ha|]. intros Hall. apply Hb. intros w v Hv. apply Hall. right. exact Hv.
      * cbn [fst snd scripts]. repeat split; try discriminate.
        intros Hall. specialize (Hall (world s) selector). rewrite Hw in Hall. discriminate.
Qed.

End TableWait.

(** X3. [wait_for_table] runs no script and never lets a time-out escape:
    when every selector times out it returns [False]; it returns [True] only
    if one of its five waits found the element. *)
Theorem wait_for_table_absorbs_timeouts (D : Driver) (wait_time : Z) (s : St D) :
  scripts (snd (wait_for_table D wait_time s)) = scripts s
  /\ fst (wait_for_table D wait_time s) <> Raise TimeoutException
  /\ ((forall w v, fst (drv_wait_presence D w wait_time v) = Raise TimeoutException) ->
      fst (wait_for_table D wait_time s) = Ok false)
  /\ ((forall w v, In v table_selectors ->
                   exists x, fst (drv_wait_presence D w wait_time v) = Raise x) ->
      fst (wait_for_table D wait_time s) <> Ok true).
Proof. apply wait_for_selectors_facts. Qed.

Example sample_table_waits :
  fst (wait_for_table Samples.no_table 10%Z (Samples.start Samples.no_table tt)) = Ok false
  /\ fst (wait_for_table Samples.live_table 10%Z (Samples.start Samples.live_table tt))
     = Ok true.
Proof. vm_compute. split; reflexivity. Qed.

(* ===================================================================== *)
(** ** Further properties: what a page adds to the records *)
(* ===================================================================== *)

Import Contracts.

Section Ensures.

Variable D : Driver.

Lemma ensures_ret {A : Type} (a : A) (P : A -> Prop) : P a -> ensures (ret a : M D A) P.
Proof. intros H s. exact H. Qed.

Lemma ensures_bind {A B : Type} (m : M D A) (k : A -> M D B) (P : B -> Prop) :
  (forall a, ensures (k a) P) -> ensures (a <- m ;; k a) P.
Proof.
  intros Hk s. run_m. destruct (m s) as [[a|x] s1]; [apply Hk | exact I].
Qed.

Lemma ensures_bind_with {A B : Type} (m : M D A) (k : A -> M D B)
    (R : A -> Prop) (P : B -> Prop) :
  ensures m R -> (forall a, R a -> ensures (k a) P) -> ensures (a <- m ;; k a) P.
Proof.
  intros Hm Hk s. run_m. specialize (Hm s).
  destruct (m s) as [[a|x] s1]; [apply Hk; exact Hm | exact I].
Qed.

Lemma ensures_try_except {A : Type} (m h : M D A) (P : A -> Prop) :
  ensures m P -> ensures h P -> ensures (try_except m h) P.
Proof.
  intros Hm Hh s. run_m. specialize (Hm s).
  destruct (m s) as [[a|x] s1]; [exact Hm | apply Hh].
Qed.

Lemma ensures_if {A : Type} (c : bool) (m1 m2 : M D A) (P : A -> Prop) :
  ensures m1 P -> ensures m2 P -> ensures (if c then m1 else m2) P.
Proof. destruct c; auto. Qed.

Lemma ensures_query {A B : Type} (q : Q D A) (k : A -> M D B) (P : B -> Prop) :
  (forall a, ensures (k a) P) -> ensures (a <- query q ;; k a) P.
Proof. apply ensures_bind. Qed.

Lemma ensures_of_query {A : Type} (q : Q D A) (P : A -> Prop) :
  ensures_q q P -> ensures (query q) P.
Proof. intros H s. apply H. Qed.

Lemma ensures_q_ret {A : Type} (a : A) (P : A -> Prop) : P a -> ensures_q (ret a : Q D A) P.
Proof. intros H w. exact H. Qed.

Lemma ensures_q_bind {A B : Type} (q : Q D A) (k : A -> Q D B) (P : B -> Prop) :
  (forall a, ensures_q (k a) P) -> ensures_q (a <- q ;; k a) P.
Proof.
  intros Hk w. run_q. destruct (q w) as [a|x]; [apply Hk | exact I].
Qed.

Lemma ensures_q_try_except {A : Type} (q h : Q D A) (P : A -> Prop) :
  ensures_q q P -> ensures_q h P -> ensures_q (try_except q h) P.
Proof.
  intros Hq Hh w. run_q. specialize (Hq w).
  destruct (q w) as [a|x]; [exact Hq | apply Hh].
Qed.

(** A command that returns, with a guarantee. *)
Lemma returns_ensures {A : Type} (m : M D A) (P : A -> Prop) (s : St D) :
  returns m -> ensures m P -> exists a, fst (m s) = Ok a /\ P a.
Proof.
  intros Hr He. destruct (Hr s) as [a Ha]. specialize (He s). rewrite Ha in He. eauto.
Qed.

End Ensures.

(** Case analysis on the outcome of the next read. *)
Ltac next_read :=
  match goal with
  | |- context [match ?X with Ok _ => _ | Raise _ => _ end] =>
      lazymatch X with
      | context [match _ with Ok _ => _ | Raise _ => _ end] => fail
      | _ => let E := fresh "E" in destruct X eqn:E
      end
  end.

Lemma find_with_siblings_passes (p : node -> bool) (n c : node) (sibs : list node) :
  find_with_siblings p n = Some (c, sibs) -> p c = true.
Proof.
  revert c sibs.
  induction n as [s|nm attrs cs IH] using
    (fix node_ind' (P : node -> Prop)
         (Hs : forall s, P (NavigableString s))
         (Ht : forall nm attrs cs, Forall P cs -> P (Tag nm attrs cs))
         (n : node) {struct n} : P n :=
       match n with
       | NavigableString s => Hs s
       | Tag nm attrs cs =>
           Ht nm attrs cs
              ((fix all (l : list node) : Forall P l :=
                  match l with
                  | [] => Forall_nil P
                  | c :: r => Forall_cons c (node_ind' P Hs Ht c) (all r)
                  end) cs)
       end).
  - discriminate.
  - intros c sibs. cbn [find_with_siblings].
    induction cs as [|c0 r IHr]; [discriminate|].
    inversion IH as [|? ? Hc0 Hr]; subst.
    destruct (p c0) eqn:Pc0.
    + intros H. injection H as <- <-. exact Pc0.
    + destruct (find_with_siblings p c0) as [hit|] eqn:F.
      * intros H. injection H as ->. eapply Hc0. reflexivity.
      * apply IHr. exact Hr.
Qed.

Lemma find_passes (p : node -> bool) (n c : node) : Soup.find p n = Some c -> p c = true.
Proof.
  unfold Soup.find. destruct (find_with_siblings p n) as [[c' sibs]|] eqn:F; [|discriminate].
  intros H. injection H as <-. eapply find_with_siblings_passes; eauto.
Qed.

Lemma is_row_with_id_get (v : string) (n : node) :
  is_row_with_id v n = true -> get n "id" = Some v.
Proof.
  unfold is_row_with_id. intros H. apply andb_true_iff in H. destruct H as [_ H].
  destruct (get n "id") as [x|]; [|discriminate].
  apply String.eqb_eq in H. congruence.
Qed.

Section RecordSources.

Variable D : Driver.
Variable flag : bool.

(** A record of the Selenium backend carries the [id] attribute of the row
    element, which is not empty. *)
Lemma extract_row_data_selenium_id (row_element : Elem D) (w : World D) (r : ScrapedRecord) :
  extract_row_data_selenium D row_element w = Ok (Some r) ->
  drv_get_attribute D w row_element "id" = Ok (Some (row_id r)) /\ has_id r.
Proof.
  unfold extract_row_data_selenium. run_q. unfold get_attribute.
  destruct (drv_get_attribute D w row_element "id") as [rid|x]; [|discriminate].
  destruct (truthy (or_empty rid)) eqn:T; cbn [negb]; [|discriminate].
  destruct (find_elements (Within row_element) CSS_SELECTOR "td" w) as [cells|x];
    [|discriminate].
  destruct (length cells <? 3); [discriminate|]. run_q.
  repeat (next_read; try discriminate).
  intros H. injection H as <-. cbn [row_id]. unfold has_id. cbn [row_id].
  destruct rid as [id|]; [|discriminate]. cbn [or_empty] in *.
  split; [reflexivity|]. apply truthy_true_iff. exact T.
Qed.

Lemma extract_row_data_via_soup_id (row_element : Elem D) (w : World D) (r : ScrapedRecord) :
  extract_row_data_via_soup D flag row_element w = Ok (Some (Some r)) ->
  drv_get_attribute D w row_element "id" = Ok (Some (row_id r)) /\ has_id r.
Proof.
  unfold extract_row_data_via_soup. destruct flag; [|discriminate]. run_q.
  unfold get_attribute.
  destruct (drv_get_attribute D w row_element "id") as [rid|x]; [|discriminate].
  destruct (truthy (or_empty rid)) eqn:T; [|discriminate].
  destruct (parse_html_with_beautifulsoup D true w) as [[soup|]|x]; try discriminate.
  destruct (Soup.find (is_row_with_id (or_empty rid)) soup) as [row_soup|] eqn:F;
    [|discriminate].
  intros H. injection H as H.
  apply extract_row_data_from_soup_inv in H. destruct H as (_ & Hid & Hne & _).
  apply find_passes, is_row_with_id_get in F.
  rewrite F in Hid. injection Hid as Hid.
  destruct rid as [id|]; [|discriminate]. cbn [or_empty] in Hid. subst id.
  split; [reflexivity | exact Hne].
Qed.

End RecordSources.

Lemma extract_row_data_id
    (D : Driver) (flag : bool) (row_element : Elem D) (w : World D) (r : ScrapedRecord) :
  extract_row_data D flag row_element w = Ok (Some r) ->
  drv_get_attribute D w row_element "id" = Ok (Some (row_id r)) /\ has_id r.
Proof.
  unfold extract_row_data. run_q.
  destruct (extract_row_data_via_soup D flag row_element w) as [[[r'|]|]|x] eqn:V;
    try discriminate.
  - intros H. injection H as ->. eapply extract_row_data_via_soup_id; eauto.
  - apply extract_row_data_selenium_id.
Qed.

(** X4. Whichever backend serves it, a record returned by [extract_row_data]
    for a live row carries that row's own non-empty [id] attribute as
    [row_id], also when it was read off the parsed page. *)
Theorem extract_row_data_keeps_row_id
    (D : Driver) (flag : bool) (row_element : Elem D) (w : World D) (r : ScrapedRecord) :
  extract_row_data D flag row_element w = Ok (Some r) ->
  drv_get_attribute D w row_element "id" = Ok (Some (row_id r))
  /\ row_id r <> EmptyString.
Proof. apply extract_row_data_id. Qed.

Lemma extract_row_data_keeps_row_id_witness :
  drv_get_attribute Samples.live_table_parsed tt 2 "id"
  = Ok (Some (row_id {| institution := "College A"; state := "OH";
                        impacts := "Program renamed";
                        source := EmptyString; source_links := [];
                        details := EmptyString; state_status := EmptyString;
                        row_id := "31" |}))
  /\ row_id {| institution := "College A"; state := "OH";
               impacts := "Program renamed";
               source := EmptyString; source_links := [];
               details := EmptyString; state_status := EmptyString;
               row_id := "31" |} <> EmptyString.
Proof.
  apply (extract_row_data_keeps_row_id Samples.live_table_parsed true 2 tt).
  vm_compute. reflexivity.
Defined.

Lemma extends_refl (old : list ScrapedRecord) : extends_with_ids old old.
Proof. exists []. rewrite app_nil_r. auto. Qed.

Lemma extends_app (old new : list ScrapedRecord) :
  Forall has_id new -> extends_with_ids old (old ++ new).
Proof. intros H. exists new. auto. Qed.

Lemma extends_trans (a b c : list ScrapedRecord) :
  extends_with_ids a b -> extends_with_ids b c -> extends_with_ids a c.
Proof.
  intros (n1 & -> & H1) (n2 & -> & H2). exists (n1 ++ n2)%list.
  rewrite app_assoc. split; [reflexivity|]. apply Forall_app. auto.
Qed.

Section PageRecords.

Variable D : Driver.
Variable wait_time : Z.
Variable fast : bool.
Variable flag : bool.

Lemma option_record_ids (o : option ScrapedRecord) :
  (forall r, o = Some r -> has_id r) ->
  Forall has_id (match o with Some d => [d] | None => [] end).
Proof. destruct o as [d|]; auto. Qed.

Lemma from_soup_ids (row_soup : node) (details_row_soup : option node) :
  Forall has_id
    (match extract_row_data_from_soup flag row_soup details_row_soup with
     | Some d => [d]
     | None => []
     end).
Proof.
  apply option_record_ids. intros r H.
  apply extract_row_data_from_soup_inv in H. unfold has_id. tauto.
Qed.

Lemma soup_row_records_ids (soup row_soup : node) :
  Forall has_id (soup_row_records flag soup row_soup).
Proof.
  unfold soup_row_records. destruct (truthy _); [apply from_soup_ids | constructor].
Qed.

Lemma soup_rows_ids (soup : node) (rows : list node) :
  Forall has_id (flat_map (soup_row_records flag soup) rows).
Proof.
  induction rows as [|row rest IH]; cbn [flat_map]; [constructor|].
  apply Forall_app. split; [apply soup_row_records_ids | exact IH].
Qed.

Lemma element_row_records_ids (soup : node) (row : Elem D) :
  ensures_q (element_row_records D flag soup row) (Forall has_id).
Proof.
  unfold element_row_records. apply ensures_q_try_except; [|apply ensures_q_ret; constructor].
  apply ensures_q_bind. intros rid.
  destruct (truthy (or_empty rid)); [|apply ensures_q_ret; constructor].
  destruct (Soup.find _ soup); apply ensures_q_ret; [apply from_soup_ids | constructor].
Qed.

Lemma records_via_soup_ids (soup : node) (data_rows : list (Elem D)) :
  ensures_q (records_via_soup D flag soup data_rows) (Forall has_id).
Proof.
  induction data_rows as [|row rest IH]; cbn [records_via_soup].
  - apply ensures_q_ret. constructor.
  - intros w. run_q.
    pose proof (element_row_records_ids soup row w) as H1.
    destruct (element_row_records D flag soup row w) as [new|x]; [|exact I].
    pose proof (IH w) as H2.
    destruct (records_via_soup D flag soup rest w) as [more|x]; [|exact I].
    apply Forall_app. auto.
Qed.

Lemma extract_each_extends (data_rows : list (Elem D)) (all_data : list ScrapedRecord) :
  ensures (extract_each D fast flag data_rows all_data) (extends_with_ids all_data).
Proof.
  revert all_data. induction data_rows as [|row rest IH]; intros all_data;
    cbn [extract_each].
  - apply ensures_ret, extends_refl.
  - apply ensures_bind_with with (R := Forall has_id).
    + apply ensures_try_except; [|apply ensures_ret; constructor].
      intros s. run_m. unfold query at 1.
      destruct (extract_row_data D flag row (world s)) as [o|x] eqn:E; [|exact I].
      cbn [fst snd]. apply option_record_ids. intros r ->.
      eapply extract_row_data_id; eauto.
    + intros new Hnew s. specialize (IH (all_data ++ new)%list s).
      destruct (fst (extract_each D fast flag rest (all_data ++ new) s)); [|exact I].
      eapply extends_trans; [apply extends_app; exact Hnew | exact IH].
Qed.

Lemma scrape_page_soup_extends (all_data : list ScrapedRecord) :
  ensures (scrape_page_soup D wait_time fast flag all_data)
          (fun r => extends_with_ids all_data (snd r)).
Proof.
  unfold scrape_page_soup.
  apply ensures_try_except; [|apply ensures_ret, extends_refl].
  repeat (apply ensures_bind; intros ?).
  match goal with |- ensures (match ?p with _ => _ end) _ => destruct p end;
    apply ensures_ret; cbn [snd]; [apply extends_app, soup_rows_ids | apply extends_refl].
Qed.

Lemma scrape_page_selenium_extends (expand_rows : bool) (all_data : list ScrapedRecord) :
  ensures (scrape_page_selenium D wait_time fast flag expand_rows all_data)
          (extends_with_ids all_data).
Proof.
  unfold scrape_page_selenium.
  apply ensures_try_except; [|apply ensures_ret, extends_refl].
  do 3 (apply ensures_bind; intros ?).
  apply ensures_if; [|apply extract_each_extends].
  apply ensures_bind. intros parsed.
  destruct parsed as [soup|]; [|apply extract_each_extends].
  apply ensures_bind_with with (R := Forall has_id).
  - apply ensures_of_query, records_via_soup_ids.
  - intros new Hnew. apply ensures_ret, extends_app. exact Hnew.
Qed.

Lemma scrape_page_extends (expand_rows : bool) (all_data : list ScrapedRecord) :
  ensures (scrape_page D wait_time fast flag expand_rows all_data)
          (extends_with_ids all_data).
Proof.
  unfold scrape_page.
  apply ensures_bind_with with (R := fun r => extends_with_ids all_data (snd r)).
  - apply ensures_if; [apply scrape_page_soup_extends|].
    apply ensures_ret, extends_refl.
  - intros [page_done all_data'] Hext. cbn [snd] in Hext.
    destruct page_done; cbn [negb].
    + apply ensures_ret. exact Hext.
    + intros s. pose proof (scrape_page_selenium_extends expand_rows all_data' s) as H.
      destruct (fst (scrape_page_selenium D wait_time fast flag expand_rows all_data' s));
        [|exact I].
      eapply extends_trans; eauto.
Qed.

Lemma scrape_loop_extends (fuel : nat) (expand_rows : bool) (max_pages : option Z) :
  forall (page_num : Z) (all_data : list ScrapedRecord) (log : list log_msg) (s : St D)
         r log' st,
    scrape_loop D wait_time fast flag fuel expand_rows max_pages page_num all_data log s
    = Some (r, log', st) ->
    exists data, r = Ok data /\ extends_with_ids all_data data.
Proof.
  induction fuel as [|fuel IH]; intros page_num all_data log s r log' st; [discriminate|].
  destruct (scrape_loop_step D wait_time fast flag fuel expand_rows max_pages
              page_num all_data log s) as (d & s1 & b & s2 & Hp & _ & ->).
  pose proof (scrape_page_extends expand_rows all_data s) as Hext.
  rewrite Hp in Hext. cbn [fst] in Hext.

  destruct b.
  - destruct (over_cap max_pages (page_num + 1)).
    + intros H. injection H as <- _ _. eauto.
    + destruct (page_num + 1 >? 20)%Z.
      * intros H. injection H as <- _ _. eauto.
      * intros H. apply IH in H. destruct H as (data & -> & Hd).
        exists data. split; [reflexivity|]. eapply extends_trans; eauto.
  - intros H. injection H as <- _ _. eauto.
Qed.

End PageRecords.

(** X5. The page loop only ever appends: whatever it returns is the list of
    records it was entered with, unchanged and in the same order, followed by
    new records, and every new record has a non-empty [row_id]. *)
Theorem page_loop_only_appends
    (D : Driver) (wait_time : Z) (fast flag : bool) (fuel : nat)
    (expand_rows : bool) (max_pages : option Z) (page_num : Z)
    (all_data : list ScrapedRecord) (log : list log_msg) (s : St D)
    (r : result (list ScrapedRecord)) (log' : list log_msg) (st : St D) :
  scrape_loop D wait_time fast flag fuel expand_rows max_pages page_num all_data log s
  = Some (r, log', st) ->
  exists new, r = Ok (all_data ++ new)%list
              /\ Forall (fun d => row_id d <> EmptyString) new.
Proof.
  intros H. apply scrape_loop_extends in H.
  destruct H as (data & -> & new & -> & Hnew). eauto.
Qed.

Example sample_ready_page :
  option_map (fun o => fst (fst o))
    (scrape_loop Samples.live_table_ready 10%Z true true 1 true None 1%Z
       [Samples.earlier_record] [] (Samples.start Samples.live_table_ready tt))
  = Some (Ok [Samples.earlier_record; Samples.record_31])
  /\ option_map (fun o => fst (fst o))
       (scrape_loop Samples.live_table_ready 10%Z true true 1 false None 1%Z
          [Samples.earlier_record] [] (Samples.start Samples.live_table_ready tt))
     = Some (Ok [Samples.earlier_record; Samples.record_31])
  /\ option_map (fun o => fst (fst o))
       (scrape_loop Samples.live_table_ready 10%Z true false 1 true None 1%Z
          [Samples.earlier_record] [] (Samples.start Samples.live_table_ready tt))
     = Some (Ok [Samples.earlier_record; Samples.record_31]).
Proof. vm_compute. repeat split. Qed.

Lemma page_loop_only_appends_witness :
  exists new, Ok [Samples.earlier_record; Samples.record_31]
              = Ok ([Samples.earlier_record] ++ new)%list
              /\ Forall (fun d => row_id d <> EmptyString) new.
Proof.
  eapply (page_loop_only_appends Samples.live_table_ready 10%Z true true 1 true None 1%Z
            [Samples.earlier_record] [] (Samples.start Samples.live_table_ready tt)).
  vm_compute. reflexivity.
Defined.

(** X6. Every record that [scrape_all] returns has a non-empty [row_id]. *)
Theorem scrape_all_records_have_ids
    (D : Driver) (wait_time : Z) (fast flag : bool) (fuel : nat)
    (expand_rows : bool) (max_pages : option Z) (s : St D)
    (data : list ScrapedRecord) (log : list log_msg) (st : St D) :
  scrape_all D wait_time fast flag fuel expand_rows max_pages s = Some (Ok data, log, st) ->
  Forall (fun d => row_id d <> EmptyString) data.
Proof.
  unfold scrape_all.
  destruct (wait_for_table D wait_time s) as [[found|x] s1]; [|discriminate].
  match goal with |- context [match ?c s1 with _ => _ end] =>
    destruct (c s1) as [[total|x] s2] end; [|discriminate].
  intros H. apply scrape_loop_extends in H.
  destruct H as (data' & Hd & new & -> & Hnew). injection Hd as ->. exact Hnew.
Qed.

Lemma scrape_all_records_have_ids_witness :
  Forall (fun d => row_id d <> EmptyString) [Samples.record_31].
Proof.
  eapply (scrape_all_records_have_ids Samples.live_table_ready 10%Z true true 20 true
            (Some 1%Z) (Samples.start Samples.live_table_ready tt)).
  vm_compute. reflexivity.
Defined.

(** X7. A page whose table never shows up costs nothing: if the wait for
    [tbody, table] raises (a time-out or anything else), [scrape_page] returns
    the records unchanged, raises nothing and runs no script. *)
Theorem page_without_table_adds_nothing
    (D : Driver) (wait_time : Z) (fast flag : bool) (expand_rows : bool)
    (all_data : list ScrapedRecord) (s : St D) :
  (forall w, exists x, fst (drv_wait_presence D w wait_time "tbody, table") = Raise x) ->
  fst (scrape_page D wait_time fast flag expand_rows all_data s) = Ok all_data
  /\ scripts (snd (scrape_page D wait_time fast flag expand_rows all_data s)) = scripts s.
Proof.
  intros Hwait.
  assert (forall s0 : St D,
             scrape_page_selenium D wait_time fast flag expand_rows all_data s0
             = (Ok all_data,
                {| world := snd (drv_wait_presence D (world s0) wait_time "tbody, table");
                   scripts := scripts s0 |})) as Hsel.
  { intros s0. unfold scrape_page_selenium. run_m. unfold wait_presence.
    destruct (Hwait (world s0)) as [x Hx].
    destruct (drv_wait_presence D (world s0) wait_time "tbody, table") as [[el|y] w'];
      cbn [fst] in Hx; [discriminate|]. reflexivity. }
  unfold scrape_page. run_m.
  destruct (flag && expand_rows).
  - unfold scrape_page_soup. run_m. unfold wait_presence.
    destruct (Hwait (world s)) as [x Hx].
    destruct (drv_wait_presence D (world s) wait_time "tbody, table") as [[el|y] w'];
      cbn [fst] in Hx; [discriminate|].
    cbn [negb]. rewrite Hsel. split; reflexivity.
  - cbn [negb]. rewrite Hsel. split; reflexivity.
Qed.

Lemma page_without_table_adds_nothing_witness :
  fst (scrape_page Samples.no_table 10%Z false true true [Samples.earlier_record]
         (Samples.start Samples.no_table tt)) = Ok [Samples.earlier_record]
  /\ scripts (snd (scrape_page Samples.no_table 10%Z false true true [Samples.earlier_record]
                     (Samples.start Samples.no_table tt)))
     = scripts (Samples.start Samples.no_table tt).
Proof.
  apply (page_without_table_adds_nothing Samples.no_table 10%Z false true true
           [Samples.earlier_record] (Samples.start Samples.no_table tt)).
  intros w. exists TimeoutException. reflexivity.
Defined.

(* ===================================================================== *)
(** ** Further properties: the text fields are stripped *)
(* ===================================================================== *)


Section Stripping.

Variable p : ascii -> bool.







End Stripping.















(* ===================================================================== *)
(** ** Further properties: the rows of a parsed page *)
(* ===================================================================== *)

Lemma qualifies_true (row_soup : node) :
  qualifies row_soup = true ->
  exists id, get row_soup "id" = Some id /\ id <> EmptyString
             /\ 3 <= length (find_all "td" row_soup).
Proof.
  unfold qualifies. intros H. apply andb_true_iff in H. destruct H as [T L].
  destruct (get row_soup "id") as [id|]; [|discriminate]. cbn [or_empty] in T.
  exists id. split; [reflexivity|]. split; [apply truthy_true_iff; exact T|].
  apply Nat.leb_le. exact L.
Qed.

Lemma soup_row_records_qualifying (soup row_soup : node) :
  qualifies row_soup = true ->
  exists r, soup_row_records true soup row_soup = [r]
            /\ row_id r = or_empty (get row_soup "id").
Proof.
  intros Q. destruct (qualifies_true _ Q) as (id & Hid & Hne & Hlen).
  unfold soup_row_records. rewrite Hid. cbn [or_empty].
  assert (truthy id = true) as -> by (apply truthy_true_iff; exact Hne).
  rewrite (extract_row_data_from_soup_qualifying _ _ _ Hid Hne Hlen).
  eexists. split; reflexivity.
Qed.

Lemma soup_row_records_unqualified (soup row_soup : node) :
  qualifies row_soup = false -> soup_row_records true soup row_soup = [].
Proof.
  unfold qualifies, soup_row_records. intros Q.
  destruct (truthy (or_empty (get row_soup "id"))) eqn:T; [|reflexivity].
  cbn [andb] in Q. apply Nat.leb_gt in Q.
  rewrite extract_row_data_from_soup_unqualified; [reflexivity|]. left. exact Q.
Qed.

(** X9. The page loop over the parsed rows adds exactly one record per row
    that has a non-empty [id] and at least three cells, in the order of the
    rows: the [row_id]s of the records added are the ids of those rows. *)
Theorem page_records_follow_rows (soup : node) (result_rows : list node) :
  map row_id (flat_map (soup_row_records true soup) result_rows)
  = map (fun row => or_empty (get row "id")) (filter qualifies result_rows)
  /\ length (flat_map (soup_row_records true soup) result_rows)
     = length (filter qualifies result_rows).
Proof.
  assert (map row_id (flat_map (soup_row_records true soup) result_rows)
          = map (fun row => or_empty (get row "id")) (filter qualifies result_rows)) as H.
  { induction result_rows as [|row rest IH]; [reflexivity|].
    cbn [flat_map filter]. rewrite map_app, IH.
    destruct (qualifies row) eqn:Q.
    - destruct (soup_row_records_qualifying soup row Q) as (r & -> & Hr).
      cbn [map app]. rewrite Hr. reflexivity.
    - rewrite (soup_row_records_unqualified soup row Q). reflexivity. }
  split; [exact H|].
  rewrite <- (length_map row_id), H, length_map. reflexivity.
Qed.



Example sample_plain_page :
  map row_id (flat_map (soup_row_records true Samples.plain_page)
                (soup_result_rows Samples.plain_page)) = ["12"]
  /\ map row_id (flat_map (soup_row_records true Samples.parsed_page)
                   (soup_result_rows Samples.parsed_page)) = ["31"].
Proof. vm_compute. split; reflexivity. Qed.

(* ===================================================================== *)
(** ** Further properties: the summary pattern, the line parser, live links *)
(* ===================================================================== *)

Lemma span_exact {A : Type} (p : A -> bool) (a b : list A) :
  forallb p a = true -> starts_without p b -> span p (a ++ b) = (a, b).
Proof.
  intros Ha Hb. induction a as [|c r IH].
  - destruct b as [|c r]; [reflexivity|]. cbn in *. rewrite Hb. reflexivity.
  - cbn [forallb] in Ha. apply andb_true_iff in Ha. destruct Ha as [Pc Hr].
    cbn [app span]. rewrite Pc, (IH Hr). reflexivity.
Qed.

(** No decimal digit is white space. *)
Lemma digit_is_not_space (c : N) : isdecimal_cp c = true -> isspace_cp c = false.
Proof.
  unfold isdecimal_cp, digit_value. intros H.
  destruct (List.find (in_run c) decimal_zeros) as [z|] eqn:F; [clear H|discriminate].
  apply find_some in F. destruct F as [Hin Hrun].
  unfold in_run in Hrun. apply andb_true_iff in Hrun. destruct Hrun as [H1 H2].
  apply N.leb_le in H1, H2.
  destruct (isspace_cp c) eqn:E; [exfalso|reflexivity].
  unfold isspace_cp in E.
  repeat (apply orb_true_iff in E; destruct E as [E|E]);
    try (apply andb_true_iff in E; destruct E as [E1 E2]; apply N.leb_le in E1, E2);
    try apply N.eqb_eq in E;
    unfold decimal_zeros in Hin; cbn [In] in Hin;
    repeat (destruct Hin as [<-|Hin]; [lia|]); exact Hin.
Qed.

Lemma match_of_at_complete (ws ds rest : list N) :
  ws <> [] -> forallb isspace_cp ws = true ->
  ds <> [] -> forallb isdecimal_cp ds = true ->
  starts_without isdecimal_cp rest ->
  match_of_at ([111; 102]%N ++ ws ++ ds ++ rest) = Some ds.
Proof.
  intros Tw Aw Td Ad Hrest. cbn [app]. unfold match_of_at.
  rewrite !N.eqb_refl. cbn [andb].
  assert (starts_without isspace_cp (ds ++ rest)%list) as Hds.
  { destruct ds as [|d r]; [contradiction|]. cbn [app starts_without].
    apply digit_is_not_space. cbn [forallb] in Ad.
    apply andb_true_iff in Ad. tauto. }
  rewrite (span_exact isspace_cp ws (ds ++ rest)%list Aw Hds).
  destruct ws as [|w0 ws]; [contradiction|].
  rewrite (span_exact isdecimal_cp ds rest Ad Hrest).
  destruct ds as [|d0 ds]; [contradiction|]. reflexivity.
Qed.

Lemma match_of_at_other_start (c : N) (r : list N) :
  (c =? 111)%N = false -> match_of_at (c :: r) = None.
Proof. intros H. unfold match_of_at. destruct r; [reflexivity|]. rewrite H. reflexivity. Qed.

Lemma search_of_complete (pre ws ds rest : list N) :
  without_o pre = true ->
  ws <> [] -> forallb isspace_cp ws = true ->
  ds <> [] -> forallb isdecimal_cp ds = true ->
  starts_without isdecimal_cp rest ->
  search_of (pre ++ [111; 102]%N ++ ws ++ ds ++ rest) = Some ds.
Proof.
  intros Hpre Tw Aw Td Ad Hrest. induction pre as [|c r IH].
  - pose proof (match_of_at_complete ws ds rest Tw Aw Td Ad Hrest) as M.
    cbn [app] in *. cbn [search_of]. rewrite M. reflexivity.
  - unfold without_o in Hpre. cbn [forallb] in Hpre.
    apply andb_true_iff in Hpre. destruct Hpre as [Hc Hr].
    apply negb_true_iff in Hc.
    cbn [app search_of]. rewrite (match_of_at_other_start _ _ Hc).
    apply IH. exact Hr.
Qed.

(** X11. For a summary text that reads [of], white space, then the digits of
    [N] (at most 4300 of them) followed by no further digit, with no letter
    [o] before it, the count that [get_total_pages] works from is exactly
    [N], all of its digits, and the result is [N // 25] plus one when
    [N % 25 > 0]. White space and digits are those of Unicode. *)
Theorem summary_count_is_read_in_full (D : Driver) (w : World D) (el : Elem D)
    (pagination_text : string) (pre ws ds rest : list N) :
  drv_find_element D w Document CSS_SELECTOR
    ".pagination-info, [class*='pagination'], [class*='count']" = Ok el ->
  drv_text D w el = Ok pagination_text ->
  codepoints pagination_text = (pre ++ [111; 102]%N ++ ws ++ ds ++ rest)%list ->
  without_o pre = true ->
  ws <> [] -> forallb isspace_cp ws = true ->
  ds <> [] -> forallb isdecimal_cp ds = true ->
  (Z.of_nat (length ds) <= int_max_str_digits)%Z ->
  starts_without isdecimal_cp rest ->
  re_search_of pagination_text = Some ds
  /\ exists N : Z,
       int ds = Some N
       /\ get_total_pages D w = Ok (pages_for N).
Proof.
  intros Hel Ht Hcp Hpre Tw Aw Td Ad Hlen Hrest.
  assert (re_search_of pagination_text = Some ds) as Hre.
  { unfold re_search_of. rewrite Hcp.
    apply search_of_complete; assumption. }
  split; [exact Hre|].
  destruct (int_digits ds Td Ad Hlen) as [N HN].
  exists N. split; [exact HN|].
  unfold get_total_pages, pages_from_summary. run_q.
  unfold find_element, text. rewrite Hel, Ht, Hre, HN. reflexivity.
Qed.

Lemma summary_count_is_read_in_full_witness :
  re_search_of ("1-25 of" ++ Samples.nbsp ++ " 1301 rows") = Some (codepoints "1301")
  /\ exists N : Z,
       int (codepoints "1301") = Some N
       /\ get_total_pages
            (Samples.summary_page ("1-25 of" ++ Samples.nbsp ++ " 1301 rows")) tt
          = Ok (pages_for N).
Proof.
  apply (summary_count_is_read_in_full
           (Samples.summary_page ("1-25 of" ++ Samples.nbsp ++ " 1301 rows")) tt 50
           ("1-25 of" ++ Samples.nbsp ++ " 1301 rows")
           (codepoints "1-25 ") (codepoints (Samples.nbsp ++ " ")) (codepoints "1301")
           (codepoints " rows"));
    try reflexivity; try discriminate.
Defined.

Lemma fallback_loop_unmarked (lines : list string) :
  Forall unmarked lines -> fallback_loop lines false false [] [] = ([], []).
Proof.
  induction 1 as [|line rest [Hd Hs] _ IH]; [reflexivity|].
  cbn [fallback_loop]. rewrite Hd, Hs. cbn [andb negb]. exact IH.
Qed.

(** X12. Text in which no line contains [Details] or [status:] is dropped by
    the line parser: it fills neither bucket, and the merge leaves both fields
    as the structured path left them. *)
Theorem unmarked_text_is_dropped (details state_status : string) (details_cell : node) :
  Forall unmarked (fallback_lines details_cell) ->
  fallback_loop (fallback_lines details_cell) false false [] [] = ([], [])
  /\ fallback_merge details state_status details_cell = (details, state_status).
Proof.
  intros H. pose proof (fallback_loop_unmarked _ H) as L. split; [exact L|].
  unfold fallback_merge. rewrite L. cbn [nonempty]. rewrite !andb_false_r.
  destruct (needs_fallback details state_status); reflexivity.
Qed.

Lemma unmarked_text_is_dropped_witness :
  fallback_loop
    (fallback_lines (Tag "td" [("class", "details")]
                       [NavigableString "Office closed."; Tag "br" [] [];
                        NavigableString "Law enacted in 2024"]))
    false false [] [] = ([], [])
  /\ fallback_merge EmptyString EmptyString
       (Tag "td" [("class", "details")]
          [NavigableString "Office closed."; Tag "br" [] [];
           NavigableString "Law enacted in 2024"])
     = (EmptyString, EmptyString).
Proof.
  apply (unmarked_text_is_dropped EmptyString EmptyString
           (Tag "td" [("class", "details")]
              [NavigableString "Office closed."; Tag "br" [] [];
               NavigableString "Law enacted in 2024"])).
  vm_compute. repeat constructor.
Defined.

Lemma element_hrefs_result (D : Driver) (links : list (Elem D)) (w : World D)
    (l : list string) :
  element_hrefs D links w = Ok l -> l = filter truthy (map (href_now D w) links).
Proof.
  revert l. induction links as [|link rest IH]; intros l; cbn [element_hrefs].
  - intros H. injection H as <-. reflexivity.
  - run_q. unfold get_attribute at 1. unfold href_now at 1. cbn [map filter].
    destruct (drv_get_attribute D w link "href") as [h|x]; [|discriminate].
    destruct (element_hrefs D rest w) as [hs|x]; [|discriminate].
    intros H. injection H as <-. rewrite (IH hs eq_refl).
    destruct (truthy (or_empty h)); reflexivity.
Qed.

(** X13. In a record of the Selenium backend, [source_links] are the [href]
    values of the anchors of the fourth cell in the order the browser lists
    them, with the empty and missing ones left out; repeated links stay. *)
Theorem selenium_links_are_nonempty_hrefs
    (D : Driver) (row_element : Elem D) (w : World D) (r : ScrapedRecord) :
  extract_row_data_selenium D row_element w = Ok (Some r) ->
  exists cells,
    drv_find_elements D w (Within row_element) CSS_SELECTOR "td" = Ok cells
    /\ source_links r =
       match nth_error cells 3 with
       | Some cell =>
           match drv_find_elements D w (Within cell) CSS_SELECTOR "a" with
           | Ok links => filter truthy (map (href_now D w) links)
           | Raise _ => []
           end
       | None => []
       end
    /\ Forall (fun link => link <> EmptyString) (source_links r).
Proof.
  unfold extract_row_data_selenium. run_q. unfold get_attribute.
  destruct (drv_get_attribute D w row_element "id") as [rid|x]; [|discriminate].
  destruct (truthy (or_empty rid)); cbn [negb]; [|discriminate].
  unfold find_elements at 1.
  destruct (drv_find_elements D w (Within row_element) CSS_SELECTOR "td") as [cells|x];
    [|discriminate].
  destruct (length cells <? 3) eqn:L3; [discriminate|]. run_q.
  destruct (element_text D cells 0 w); [|discriminate].
  destruct (element_text D cells 1 w); [|discriminate].
  destruct (element_text D cells 2 w); [|discriminate].
  destruct (element_text D cells 3 w); [|discriminate].
  destruct (element_source_links D cells w) as [links|x] eqn:EL; [|discriminate].
  destruct (element_details D (or_empty rid) w); [|discriminate].
  intros H. injection H as <-. cbn [source_links].
  exists cells. split; [reflexivity|].
  assert (links = match nth_error cells 3 with
                  | Some cell =>
                      match drv_find_elements D w (Within cell) CSS_SELECTOR "a" with
                      | Ok links => filter truthy (map (href_now D w) links)
                      | Raise _ => []
                      end
                  | None => []
                  end) as Hlinks.
  { unfold element_source_links in EL.
    destruct (3 <? length cells) eqn:L4.
    - destruct (nth_error cells 3) as [cell|]; [|discriminate].
      revert EL. run_q. unfold find_elements.
      destruct (drv_find_elements D w (Within cell) CSS_SELECTOR "a") as [ls|x];
        [|discriminate].
      apply element_hrefs_result.
    - injection EL as <-. apply Nat.ltb_ge in L4.
      destruct (nth_error cells 3) eqn:N; [|reflexivity].
      assert (nth_error cells 3 <> None) as N' by congruence.
      apply nth_error_Some in N'. lia. }
  split; [exact Hlinks|].
  rewrite Hlinks.
  destruct (nth_error cells 3) as [cell|]; [|constructor].
  destruct (drv_find_elements D w (Within cell) CSS_SELECTOR "a") as [ls|x]; [|constructor].
  apply Forall_forall. intros link Hin. apply filter_In in Hin.
  apply truthy_true_iff. tauto.
Qed.

Lemma selenium_links_are_nonempty_hrefs_witness :
  exists cells,
    drv_find_elements Samples.linked_row tt (Within 4) CSS_SELECTOR "td" = Ok cells
    /\ source_links Samples.record_40 =
       match nth_error cells 3 with
       | Some cell =>
           match drv_find_elements Samples.linked_row tt (Within cell) CSS_SELECTOR "a" with
           | Ok links => filter truthy (map (href_now Samples.linked_row tt) links)
           | Raise _ => []
           end
       | None => []
       end
    /\ Forall (fun link => link <> EmptyString) (source_links Samples.record_40).
Proof.
  apply (selenium_links_are_nonempty_hrefs Samples.linked_row 4 tt Samples.record_40).
  vm_compute. reflexivity.
Defined.

(* ===================================================================== *)
(** ** Further properties: one click, and nothing after it *)
(* ===================================================================== *)

Section StopsAtClick.

Variable D : Driver.
Variable fast : bool.

Lemma clicked_apps (a b : list (event D)) :
  clicked D (a ++ b) = clicked D a || clicked D b.
Proof. apply existsb_app. Qed.

Lemma stops_ret_false : stops_at_click (ret false : M D bool).
Proof.
  intros s. exists []. cbn [fst snd ret Monad_M]. rewrite app_nil_r.
  split; [reflexivity|]. right. split; [discriminate | reflexivity].
Qed.

Lemma stops_raise (x : exn) : stops_at_click (raise x : M D bool).
Proof.
  intros s. exists []. cbn [fst snd raise Monad_M]. rewrite app_nil_r.
  split; [reflexivity|]. right. split; [discriminate | reflexivity].
Qed.

Lemma stops_click_then_true (e : Elem D) (ms : N) :
  stops_at_click (execute_script (Click e) ;; sleep ms ;; ret true).
Proof.
  intros s. run_m. unfold execute_script, sleep.
  destruct (drv_execute_script D (world s) (Click e)) as [[[]|x] w'];
    cbn [fst snd scripts]; eexists; (split; [reflexivity|]).
  - left. split; [reflexivity|]. exists [], e. split; reflexivity.
  - right. split; [discriminate | reflexivity].
Qed.

Lemma stops_query {A : Type} (q : Q D A) (k : A -> M D bool) :
  (forall a, stops_at_click (k a)) -> stops_at_click (a <- query q ;; k a).
Proof.
  intros Hk s. run_m. unfold query.
  destruct (q (world s)) as [a|x].
  - apply Hk.
  - exists []. cbn [fst snd]. rewrite app_nil_r. split; [reflexivity|].
    right. split; [discriminate | reflexivity].
Qed.

Lemma stops_if (b : bool) (m1 m2 : M D bool) :
  stops_at_click m1 -> stops_at_click m2 -> stops_at_click (if b then m1 else m2).
Proof. destruct b; auto. Qed.

(** What a second command adds after a first one that clicked nothing. *)
Lemma stops_then (new : list (event D)) (m : M D bool) (s s1 : St D) :
  scripts s1 = (scripts s ++ new)%list ->
  clicked D new = false ->
  stops_at_click m ->
  exists new',
    scripts (snd (m s1)) = (scripts s ++ new')%list
    /\ ((fst (m s1) = Ok true
         /\ exists before e, new' = (before ++ [(Click e, true)])%list
                             /\ clicked D before = false)
        \/ (fst (m s1) <> Ok true /\ clicked D new' = false)).
Proof.
  intros Hs Hc Hm. destruct (Hm s1) as (new1 & Hs1 & Hcase).
  exists (new ++ new1)%list. rewrite Hs1, Hs, app_assoc. split; [reflexivity|].
  destruct Hcase as [(Ht & before & e & -> & Hb)|(Hf & Hn)].
  - left. split; [exact Ht|]. exists (new ++ before)%list, e.
    rewrite app_assoc. split; [reflexivity|]. rewrite clicked_apps, Hc, Hb. reflexivity.
  - right. split; [exact Hf|]. rewrite clicked_apps, Hc, Hn. reflexivity.
Qed.

Lemma stops_catch (m : M D bool) (h : exn -> M D bool) :
  stops_at_click m -> (forall x, stops_at_click (h x)) -> stops_at_click (catch m h).
Proof.
  intros Hm Hh s. run_m.
  destruct (Hm s) as (new & Hs & Hcase).
  destruct (m s) as [[b|x] s1]; cbn [fst snd] in *.
  - exists new. auto.
  - destruct Hcase as [(Ht & _)|(_ & Hn)]; [discriminate|].
    eapply stops_then; eauto.
Qed.

Lemma stops_try_except (m h : M D bool) :
  stops_at_click m -> stops_at_click h -> stops_at_click (try_except m h).
Proof. intros. apply stops_catch; auto. Qed.

Lemma stops_try_except_nse (m h : M D bool) :
  stops_at_click m -> stops_at_click h -> stops_at_click (try_except_nse m h).
Proof.
  intros Hm Hh. apply stops_catch; [exact Hm|]. intros []; auto using stops_raise.
Qed.

Lemma stops_or_else (m1 m2 : M D bool) :
  stops_at_click m1 -> stops_at_click m2 ->
  stops_at_click (done <- m1 ;; if done then ret true else m2).
Proof.
  intros H1 H2 s. run_m.
  destruct (H1 s) as (new & Hs & Hcase).
  destruct (m1 s) as [[[|]|x] s1]; cbn [fst snd] in *.
  - exists new. auto.
  - destruct Hcase as [(Ht & _)|(_ & Hn)]; [discriminate|].
    eapply stops_then; eauto.
  - exists new. split; [exact Hs|]. right.
    destruct Hcase as [(Ht & _)|(_ & Hn)]; [discriminate|].
    split; [discriminate | exact Hn].
Qed.

(** A scroll first, then settling: neither counts as a click. *)
Lemma stops_after_script (sc : script (Elem D)) (ms : N) (m : M D bool) :
  (forall ok, is_click_ok D (sc, ok) = false) ->
  stops_at_click m -> stops_at_click (execute_script sc ;; sleep ms ;; m).
Proof.
  intros Hsc Hm s. run_m. unfold execute_script, sleep.
  destruct (drv_execute_script D (world s) sc) as [[[]|x] w'].
  - match goal with |- context [m ?st] => remember st as s1 eqn:Es end.
    apply (stops_then [(sc, true)] m s s1).
    + subst s1. reflexivity.
    + cbn [clicked existsb]. rewrite Hsc. reflexivity.
    + exact Hm.
  - cbn [fst snd scripts]. eexists. split; [reflexivity|]. right.
    split; [discriminate|]. cbn [clicked existsb]. rewrite Hsc. reflexivity.
Qed.

Lemma try_toggles_stops (first_cell : Elem D) (selectors : list string) :
  stops_at_click (try_toggles D fast first_cell selectors).
Proof.
  induction selectors as [|selector rest IH]; cbn [try_toggles].
  - apply stops_ret_false.
  - apply stops_or_else; [|exact IH].
    apply stops_try_except_nse; [|apply stops_ret_false].
    apply stops_query. intros btn. apply stops_query. intros shown.
    apply stops_if; [apply stops_click_then_true | apply stops_ret_false].
Qed.

Lemma expand_body_stops (row_element : Elem D) :
  stops_at_click (try_except (expand_body D fast row_element) (ret false)).
Proof.
  apply stops_try_except; [|apply stops_ret_false].
  unfold expand_body. apply stops_after_script; [reflexivity|].
  apply stops_or_else; [|apply stops_or_else].
  - apply stops_try_except_nse; [|apply stops_ret_false].
    apply stops_query. intros first_cell. apply try_toggles_stops.
  - apply stops_try_except; [|apply stops_ret_false].
    apply stops_query. intros first_cell. apply stops_click_then_true.
  - apply stops_click_then_true.
Qed.

Lemma click_attempt_stops (next_btn : Elem D) :
  stops_at_click (click_attempt D fast next_btn).
Proof.
  unfold click_attempt. apply stops_try_except; [|apply stops_ret_false].
  apply stops_query. intros enabled.
  apply stops_if; [apply stops_ret_false|].
  apply stops_after_script; [reflexivity|]. apply stops_click_then_true.
Qed.

Lemma click_first_enabled_stops (candidates : list (Elem D)) :
  stops_at_click (click_first_enabled D fast candidates).
Proof.
  induction candidates as [|c rest IH]; cbn [click_first_enabled].
  - apply stops_ret_false.
  - apply stops_or_else; [apply click_attempt_stops | exact IH].
Qed.

Lemma go_to_next_page_stops : stops_at_click (go_to_next_page D fast).
Proof.
  unfold go_to_next_page. apply stops_try_except; [|apply stops_ret_false].
  apply stops_after_script; [reflexivity|].
  apply stops_query. intros candidates. apply click_first_enabled_stops.
Qed.

End StopsAtClick.

(** X14. On a row that is not yet open, [expand_row] stops at its first
    success: when it returns [True], the click that went through is the last
    script it ran and the only click that went through; when it returns
    [False], no click went through. *)
Theorem expand_row_stops_at_first_success
    (D : Driver) (fast : bool) (row_element : Elem D) (s : St D) :
  already_opened D (world s) row_element = false ->
  exists new,
    scripts (snd (expand_row D fast row_element s)) = (scripts s ++ new)%list
    /\ ((fst (expand_row D fast row_element s) = Ok true
         /\ exists before e, new = (before ++ [(Click e, true)])%list
                             /\ clicked D before = false)
        \/ (fst (expand_row D fast row_element s) = Ok false /\ clicked D new = false)).
Proof.
  intros Hopen. rewrite expand_row_cases. unfold already_opened in Hopen.
  destruct (drv_get_attribute D (world s) row_element "class") as [cls|x].
  - rewrite Hopen.
    destruct (expand_body_stops D fast row_element s) as (new & Hs & Hcase).
    exists new. split; [exact Hs|].
    destruct Hcase as [Ht|(Hf & Hn)]; [left; exact Ht|]. right. split; [|exact Hn].
    destruct (try_except_false_returns D (expand_body D fast row_element) s) as [[|] Hb];
      [contradiction | exact Hb].
  - exists []. cbn [fst snd]. rewrite app_nil_r. split; [reflexivity|].
    right. split; reflexivity.
Qed.

Lemma expand_row_stops_at_first_success_witness :
  exists new,
    scripts (snd (expand_row Samples.live_table false 1 (Samples.start Samples.live_table tt)))
    = (scripts (Samples.start Samples.live_table tt) ++ new)%list
    /\ ((fst (expand_row Samples.live_table false 1 (Samples.start Samples.live_table tt))
         = Ok true
         /\ exists before e, new = (before ++ [(Click e, true)])%list
                             /\ clicked Samples.live_table before = false)
        \/ (fst (expand_row Samples.live_table false 1 (Samples.start Samples.live_table tt))
            = Ok false
            /\ clicked Samples.live_table new = false)).
Proof.
  apply (expand_row_stops_at_first_success Samples.live_table false 1
           (Samples.start Samples.live_table tt)).
  reflexivity.
Defined.

(** X15. [go_to_next_page] returns [True] exactly when one of its clicks went
    through, and then that click is the last script it ran and the only click
    that went through; when it returns [False], no click went through. *)
Theorem go_to_next_page_stops_at_its_click (D : Driver) (fast : bool) (s : St D) :
  exists new,
    scripts (snd (go_to_next_page D fast s)) = (scripts s ++ new)%list
    /\ ((fst (go_to_next_page D fast s) = Ok true
         /\ exists before e, new = (before ++ [(Click e, true)])%list
                             /\ clicked D before = false)
        \/ (fst (go_to_next_page D fast s) = Ok false /\ clicked D new = false)).
Proof.
  destruct (go_to_next_page_stops D fast s) as (new & Hs & Hcase).
  exists new. split; [exact Hs|].
  destruct Hcase as [Ht|(Hf & Hn)]; [left; exact Ht|]. right. split; [|exact Hn].
  destruct (go_to_next_page_returns D fast s) as [[|] Hb]; [contradiction | exact Hb].
Qed.

Example sample_next_page_scripts :
  scripts (snd (go_to_next_page Samples.endless false (Samples.start Samples.endless tt)))
  = [(ScrollToBottom, true); (ScrollIntoView 60, true); (Click 60, true)].
Proof. vm_compute. reflexivity. Qed.

(* ===================================================================== *)
(** ** Further properties: the terminal table *)
(* ===================================================================== *)

Import Display.

Lemma flatten_chars (s : string) : flatten (chars s) = s.
Proof.
  induction s as [|c r IH]; [reflexivity|]. cbn [chars].
  destruct (chars r) as [|h t].
  - cbn in IH. subst r. reflexivity.
  - cbn [flatten fold_right] in IH.
    destruct (continues r); cbn [flatten fold_right append]; rewrite IH; reflexivity.
Qed.

Lemma chars_nonempty (c : ascii) (r : string) : chars (String c r) <> [].
Proof.
  cbn [chars]. destruct (chars r) as [|h t]; [discriminate|].
  destruct (continues r); discriminate.
Qed.

(** Characters are cut where a byte that is not a continuation byte starts. *)
Lemma chars_app (a b : string) :
  continues b = false -> chars (a ++ b) = (chars a ++ chars b)%list.
Proof.
  intros Hb. induction a as [|c r IH]; [reflexivity|].
  cbn [append]. cbn [chars]. rewrite IH.
  destruct r as [|d r'].
  - cbn [append chars app continues]. rewrite Hb.
    destruct (chars b) as [|h t]; reflexivity.
  - pose proof (chars_nonempty d r') as Hne.
    destruct (chars (String d r')) as [|h t]; [contradiction|].
    cbn [append continues app].
    destruct (is_continuation d); reflexivity.
Qed.

Lemma continues_prefix (a b : string) :
  a <> EmptyString -> continues (a ++ b) = continues a.
Proof. destruct a as [|c r]; [contradiction | reflexivity]. Qed.

(** The first [n] characters of a text are the characters of a prefix of it. *)
Lemma chars_prefix (s : string) (n : nat) :
  exists a b, s = a ++ b /\ chars a = firstn n (chars s).
Proof.
  revert n. induction s as [|c r IH]; intros n.
  - exists EmptyString, EmptyString. split; [reflexivity|]. cbn. now rewrite firstn_nil.
  - destruct n as [|m].
    + exists EmptyString, (String c r). split; reflexivity.
    + cbn [chars]. destruct (chars r) as [|h t] eqn:Hr.
      * exists (String c EmptyString), r. split; [reflexivity|].
        cbn [firstn]. rewrite firstn_nil. reflexivity.
      * destruct (continues r) eqn:Hc.
        -- destruct (IH (S m)) as (a' & b' & Hs & Ha).
           exists (String c a'), b'. split; [cbn [append]; now rewrite <- Hs|].
           cbn [firstn] in *. cbn [chars]. rewrite Ha.
           assert (a' <> EmptyString) as Hne by (intros ->; discriminate).
           rewrite Hs, (continues_prefix a' b' Hne) in Hc. rewrite Hc. reflexivity.
        -- destruct (IH m) as (a' & b' & Hs & Ha).
           exists (String c a'), b'. split; [cbn [append]; now rewrite <- Hs|].
           cbn [firstn]. cbn [chars]. rewrite Ha.
           destruct (firstn m (h :: t)) as [|h' t'] eqn:Hf; [reflexivity|].
           assert (a' <> EmptyString) as Hne by (intros ->; discriminate).
           rewrite Hs, (continues_prefix a' b' Hne) in Hc. rewrite Hc. reflexivity.
Qed.

Lemma slice_to_facts (n : nat) (s : string) :
  chars (slice_to n s) = firstn n (chars s)
  /\ exists b, s = slice_to n s ++ b.
Proof.
  destruct (chars_prefix s n) as (a & b & Hs & Ha).
  assert (slice_to n s = a) as ->.
  { unfold slice_to. rewrite <- Ha. apply flatten_chars. }
  split; [exact Ha | exists b; exact Hs].
Qed.

Lemma prefix_app (a b : string) : String.prefix a (a ++ b) = true.
Proof.
  induction a as [|c r IH]; [destruct b; reflexivity|].
  cbn [append String.prefix].
  destruct (ascii_dec c c) as [_|N]; [exact IH | contradiction].
Qed.

Lemma take_is_prefix (n : nat) (s : string) : String.prefix (take n s) s = true.
Proof.
  unfold take. destruct (slice_to_facts n s) as (_ & b & Hb).
  rewrite Hb at 2. apply prefix_app.
Qed.

Lemma take_len (n : nat) (s : string) : len (take n s) = Nat.min n (len s).
Proof.
  unfold len, take. rewrite (proj1 (slice_to_facts n s)). apply length_firstn.
Qed.

Lemma len_with_dots (a : string) : len (a ++ "...") = len a + 3.
Proof.
  unfold len. rewrite chars_app by reflexivity. rewrite length_app. reflexivity.
Qed.

Lemma shorten_facts (limit : nat) (x : string) :
  len (shorten limit x) <= limit + 3
  /\ (len x <= limit -> shorten limit x = x)
  /\ (limit < len x ->
      shorten limit x = take limit x ++ "..."
      /\ len (shorten limit x) = limit + 3
      /\ len (take limit x) = limit
      /\ String.prefix (take limit x) x = true).
Proof.
  unfold shorten. destruct (limit <? len x) eqn:E.
  - apply Nat.ltb_lt in E. rewrite len_with_dots, take_len.
    split; [lia|]. split; [lia|].
    intros _. split; [reflexivity|]. split; [lia|]. split; [lia | apply take_is_prefix].
  - apply Nat.ltb_ge in E. split; [lia|]. split; [reflexivity | lia].
Qed.

(** X16. In the terminal table no cell is wider than its limit plus the three
    dots: institution 43, impacts 33, source 33, details 53 characters. A value
    within its limit is shown unchanged, a longer one as its first [limit]
    characters followed by [...]; the state is never cut. Widths count
    characters, as [len] does, not bytes. *)
Theorem table_cells_are_bounded (row : ScrapedRecord) :
  exists i st im so de,
    table_row row = [i; st; im; so; de]
    /\ st = state row
    /\ len i <= 43 /\ len im <= 33 /\ len so <= 33 /\ len de <= 53
    /\ (len (institution row) <= 40 -> i = institution row)
    /\ (len (impacts row) <= 30 -> im = impacts row)
    /\ (len (source row) <= 30 -> so = source row)
    /\ (len (details row) <= 50 -> de = details row)
    /\ (40 < len (institution row) ->
        i = take 40 (institution row) ++ "..." /\ len (take 40 (institution row)) = 40
        /\ String.prefix (take 40 (institution row)) (institution row) = true)
    /\ (30 < len (impacts row) ->
        im = take 30 (impacts row) ++ "..." /\ len (take 30 (impacts row)) = 30
        /\ String.prefix (take 30 (impacts row)) (impacts row) = true)
    /\ (30 < len (source row) ->
        so = take 30 (source row) ++ "..." /\ len (take 30 (source row)) = 30
        /\ String.prefix (take 30 (source row)) (source row) = true)
    /\ (50 < len (details row) ->
        de = take 50 (details row) ++ "..." /\ len (take 50 (details row)) = 50
        /\ String.prefix (take 50 (details row)) (details row) = true).
Proof.
  unfold table_row. do 5 eexists. split; [reflexivity|]. split; [reflexivity|].
  pose proof (shorten_facts 40 (institution row)) as (A1 & A2 & A3).
  pose proof (shorten_facts 30 (impacts row)) as (B1 & B2 & B3).
  pose proof (shorten_facts 30 (source row)) as (C1 & C2 & C3).
  pose proof (shorten_facts 50 (details row)) as (E1 & E2 & E3).
  repeat (split; [solve [auto]|]).
  split; [intros H; apply A3 in H; tauto|].
  split; [intros H; apply B3 in H; tauto|].
  split; [intros H; apply C3 in H; tauto|].
  intros H; apply E3 in H; tauto.
Qed.

Example sample_accented_cell :
  String.length Samples.accented_name = 45
  /\ len Samples.accented_name = 39
  /\ shorten 40 Samples.accented_name = Samples.accented_name
  /\ shorten 9 Samples.accented_name = "Universit..."
  /\ shorten 10 Samples.accented_name = "Universit" ++ Samples.e_acute ++ "...".
Proof. vm_compute. repeat split. Qed.

Lemma firstn_length_min {A : Type} (n : nat) (l : list A) :
  length (firstn n l) = Nat.min n (length l).
Proof. apply length_firstn. Qed.

(** X17. With a non-negative [max_rows] the table shows the first
    [min(len(data), max_rows)] records, in order, and when rows are left out
    the number announced as "more rows" is exactly the number left out. *)
Theorem table_shows_first_rows (data : list ScrapedRecord) (max_rows : Z) :
  (0 <= max_rows)%Z ->
  table_data data max_rows = map table_row (firstn (Z.to_nat max_rows) data)
  /\ length (table_data data max_rows) = Nat.min (length data) (Z.to_nat max_rows)
  /\ match more_rows data max_rows with
     | Some k => (Z.of_nat (length (table_data data max_rows)) + k
                  = Z.of_nat (length data))%Z /\ (0 < k)%Z
     | None => length (table_data data max_rows) = length data
     end.
Proof.
  intros Hpos. unfold table_data, display_data, more_rows, py_take.
  assert ((max_rows >=? 0)%Z = true) as -> by (apply Z.geb_le; lia).
  destruct (Z.of_nat (length data) >? max_rows)%Z eqn:E.
  - assert (max_rows < Z.of_nat (length data))%Z as Hlt.
    { pose proof (Zgt_cases (Z.of_nat (length data)) max_rows) as G.
      rewrite E in G. lia. }
    split; [reflexivity|]. rewrite length_map, length_firstn.
    split; [lia|]. split; lia.
  - assert (Z.of_nat (length data) <= max_rows)%Z as Hle.
    { pose proof (Zgt_cases (Z.of_nat (length data)) max_rows) as G.
      rewrite E in G. lia. }
    rewrite firstn_all2 by lia. split; [reflexivity|].
    rewrite length_map. split; [lia | reflexivity].
Qed.

Lemma table_shows_first_rows_witness :
  table_data [Samples.earlier_record; Samples.record_31; Samples.record_40] 2%Z
  = map table_row (firstn (Z.to_nat 2%Z)
                     [Samples.earlier_record; Samples.record_31; Samples.record_40])
  /\ length (table_data [Samples.earlier_record; Samples.record_31; Samples.record_40] 2%Z)
     = Nat.min (length [Samples.earlier_record; Samples.record_31; Samples.record_40])
               (Z.to_nat 2%Z)
  /\ match more_rows [Samples.earlier_record; Samples.record_31; Samples.record_40] 2%Z with
     | Some k =>
         (Z.of_nat (length (table_data
                              [Samples.earlier_record; Samples.record_31; Samples.record_40]
                              2%Z)) + k
          = Z.of_nat (length [Samples.earlier_record; Samples.record_31; Samples.record_40]))%Z
         /\ (0 < k)%Z
     | None =>
         length (table_data [Samples.earlier_record; Samples.record_31; Samples.record_40] 2%Z)
         = length [Samples.earlier_record; Samples.record_31; Samples.record_40]
     end.
Proof.
  apply (table_shows_first_rows
           [Samples.earlier_record; Samples.record_31; Samples.record_40] 2%Z).
  lia.
Defined.

Example sample_table_row :
  table_row {| institution := "The University of Somewhere Very Far Away at Long Name";
               state := "TX"; impacts := "Office closed"; source := "News";
               source_links := []; details := EmptyString; state_status := EmptyString;
               row_id := "1" |}
  = ["The University of Somewhere Very Far Awa..."; "TX"; "Office closed"; "News";
     EmptyString].
Proof. vm_compute. reflexivity. Qed.

(* ===================================================================== *)
(** ** Logging in and the entry point: what is called, and what escapes *)
(* ===================================================================== *)

Section SessionFacts.
Import Session.

Variable H : Host.

Lemma silent_ret {A : Type} (a : A) : silent (ret a : P H A).
Proof. intros s. reflexivity. Qed.

Lemma silent_raise {A : Type} (e : Selenium.exn) : silent (Selenium.raise e : P H A).
Proof. intros s. reflexivity. Qed.

Lemma silent_bind {A B : Type} (c : P H A) (k : A -> P H B) :
  silent c -> (forall a, silent (k a)) -> silent (Selenium.bind c k).
Proof.
  intros Hc Hk s. cbn [Selenium.bind Monad_P].
  specialize (Hc s). destruct (c s) as [[a|x] s1]; cbn [snd] in *.
  - rewrite Hk. exact Hc.
  - exact Hc.
Qed.

Lemma silent_catch {A : Type} (c : P H A) (h : Selenium.exn -> P H A) :
  silent c -> (forall e, silent (h e)) -> silent (Selenium.catch c h).
Proof.
  intros Hc Hh s. cbn [Selenium.catch Monad_P].
  specialize (Hc s). destruct (c s) as [[a|[|e]] s1]; cbn [snd] in *; try exact Hc.
  rewrite Hh. exact Hc.
Qed.

Lemma silent_observe {A : Type} (f : HWorld H -> completion A * HWorld H) :
  silent (observe H f).
Proof. intros s. unfold observe. destruct (f (host s)) as [r w]. reflexivity. Qed.

Lemma silent_sleep (seconds : Z) : silent (sleep H seconds).
Proof. intros s. unfold sleep. destruct (host_sleep H seconds (host s)) as [i w]. reflexivity. Qed.

Lemma silent_locate (tag selector : string) : silent (locate H tag selector).
Proof.
  unfold locate. destruct (PyStr.contains _ _).
  - apply silent_bind.
    + unfold quoted_text. destruct (PyStr.split _ _) as [|a [|b l]];
        first [apply silent_ret | apply silent_raise].
    + intros text. apply silent_observe.
  - apply silent_observe.
Qed.

Lemma silent_first_located (tag : string) (selectors : list string) :
  silent (first_located H tag selectors).
Proof.
  induction selectors as [|selector rest IH]; cbn [first_located].
  - apply silent_ret.
  - unfold Selenium.try_except_nse. apply silent_catch.
    + apply silent_bind; [apply silent_locate | intros e; apply silent_ret].
    + intros [| |]; first [exact IH | apply silent_raise].
Qed.

Lemma silent_first_present (wait_time : Z) (selectors : list string) :
  silent (first_present H wait_time selectors).
Proof.
  induction selectors as [|selector rest IH]; cbn [first_present].
  - apply silent_ret.
  - unfold Selenium.try_except_timeout. apply silent_catch.
    + apply silent_bind; [apply silent_observe | intros e; apply silent_ret].
    + intros [| |]; first [exact IH | apply silent_raise].
Qed.

(** A silent computation hands on the calls it was given. *)
Lemma silent_run {A : Type} (c : P H A) (s : Run H) :
  silent c -> exists r w, c s = (r, {| host := w; calls := calls s |}).
Proof.
  intros Hc. specialize (Hc s). destruct (c s) as [r [w l]]. cbn in Hc. subst l.
  exists r, w. reflexivity.
Qed.


Lemma perform_run {A : Type} (c : call H) (f : HWorld H -> completion A * HWorld H)
      (s : Run H) :
  exists r w, perform H c f s = (r, {| host := w; calls := (calls s ++ [c])%list |}).
Proof. unfold perform. destruct (f (host s)) as [r w]. exists r, w. reflexivity. Qed.

Lemma sleep_run (seconds : Z) (s : Run H) :
  exists (interrupted : bool) w,
    sleep H seconds s
    = (if interrupted then Thrown KeyboardInterrupt else Done tt,
       {| host := w; calls := calls s |}).
Proof.
  unfold sleep. destruct (host_sleep H seconds (host s)) as [i w]. exists i, w. reflexivity.
Qed.

Ltac run_p :=
  cbn [Selenium.bind Selenium.catch Selenium.ret Selenium.raise Monad_P
       Selenium.try_except calls host fst snd].

(** One step of a run: the next call is replaced by its completion and the
    run it leaves, and the cases of the completion are separated. *)
Ltac exec1 :=
  run_p;
  let r := fresh "r" in
  let w := fresh "w" in
  match goal with
  | |- context [perform H ?c ?f ?S] =>
      destruct (perform_run c f S) as (r & w & ->); destruct r as [?|[|?]]
  | |- context [sleep H ?n ?S] =>
      destruct (sleep_run n S) as (r & w & ->); destruct r
  | |- context [observe H ?f ?S] =>
      destruct (silent_run (observe H f) S (silent_observe f)) as (r & w & ->);
      destruct r as [?|[|?]]
  | |- context [first_located H ?t ?l ?S] =>
      destruct (silent_run _ S (silent_first_located t l)) as (r & w & ->);
      destruct r as [[?|]|[|?]]
  | |- context [first_present H ?t ?l ?S] =>
      destruct (silent_run _ S (silent_first_present t l)) as (r & w & ->);
      destruct r as [[?|]|[|?]]
  end;
  run_p.

Ltac added :=
  eexists; split;
  [ rewrite <- ?app_assoc; try reflexivity; symmetry; apply app_nil_r
  | cbn; auto 10 ].

Lemma login_steps_calls (wait_time : Z) (email password : string) (s : Run H) :
  exists l,
    calls (snd (Selenium.try_except (login_steps H wait_time email password) (sleep H 3) s))
      = (calls s ++ l)%list
    /\ Forall login_call l
    /\ (typed l = [] \/ typed l = [email] \/ typed l = [email; password])
    /\ forall e, fst (Selenium.try_except (login_steps H wait_time email password)
                                          (sleep H 3) s) <> Thrown (Error e).
Proof.
  unfold login_steps, click, clear, send_keys, input, find_element.
  repeat exec1.
  all: eexists; split;
    [ rewrite <- ?app_assoc; try reflexivity; symmetry; apply app_nil_r
    | split; [repeat constructor | split; [cbn; auto | intros e0; discriminate]]].
Qed.

(** What [login] calls and what it lets escape. *)
Lemma login_facts (wait_time : Z) (email password : string) (s : Run H) :
  exists l,
    calls (snd (login H wait_time email password s)) = (calls s ++ l)%list
    /\ Forall login_call l
    /\ (typed l = [] \/ typed l = [email] \/ typed l = [email; password])
    /\ forall x, fst (login H wait_time email password s) = Thrown x ->
                 x = KeyboardInterrupt \/ fst (host_get H url (host s)) = Thrown x.
Proof.
  unfold login, get, perform.
  set (rest := Selenium.try_except _ _). run_p.
  destruct (host_get H url (host s)) as [[[]|x] w] eqn:Hget; run_p.
  - exec1.
    + exists [Get url].
      split; [reflexivity | split; [repeat constructor | split; [cbn; auto|]]].
      intros y Hy. injection Hy as <-. now left.
    + subst rest.
      match goal with
      | |- context [Selenium.try_except ?b ?h ?S] =>
          destruct (login_steps_calls wait_time email password S) as (l & Hl & Hc & Ht & He)
      end.
      cbn [calls] in Hl.
      exists (Get url :: l). split; [|split; [|split]].
      * rewrite Hl, <- app_assoc. reflexivity.
      * constructor; [exact I | exact Hc].
      * exact Ht.
      * intros y Hy. destruct y as [|e]; [now left | exfalso; exact (He e Hy)].
  - exists [Get url].
    split; [reflexivity | split; [repeat constructor | split; [cbn; auto|]]].
    intros y Hy. injection Hy as <-. now right.
Qed.

Lemma login_calls_no_export (l : list (call H)) :
  Forall login_call l -> filter is_export l = [] /\ ~ In Close l
  /\ forall b p, ~ In (ScrapeAll b p) l.
Proof.
  induction 1 as [|c l Hc _ (IH1 & IH2 & IH3)]; [cbn; repeat split; auto|].
  destruct c; try contradiction; cbn; rewrite IH1;
    (split; [reflexivity | split; [intros [K|K]; [discriminate | exact (IH2 K)]
                                  | intros b p [K|K]; [discriminate | exact (IH3 b p K)]]]).
Qed.

Lemma main_steps_facts (pandas : bool) (args : Args) (s : Run H) :
  exists l,
    calls (snd (main_steps H pandas args s)) = (calls s ++ l)%list
    /\ ~ In Close l
    /\ (filter is_export l = []
        \/ exists data w rest,
             data <> []
             /\ fst (host_scrape_all H (negb (no_expand args)) (max_pages args) w) = Done data
             /\ exports_of H pandas args data = (filter is_export l ++ rest)%list).
Proof.
  unfold main_steps. run_p.
  match goal with
  | |- context [match ?X s with pair _ _ => _ end] =>
      assert (Hfirst : exists l0 r s1,
                 X s = (r, s1) /\ calls s1 = (calls s ++ l0)%list /\ Forall login_call l0)
  end.
  { unfold sign_in. destruct (credentials args) as [[e p]|].
    - destruct (login_facts 10 e p s) as (l0 & Hl & Hc & _).
      destruct (login H 10 e p s) as [r s1]. exists l0, r, s1. auto.
    - unfold input.
      destruct (perform_run (Input press_enter_if_needed)
                            (host_input H press_enter_if_needed) s) as (r & w & ->).
      exists [Input press_enter_if_needed], r, {| host := w; calls := calls s ++ [Input press_enter_if_needed] |}.
      split; [reflexivity | split; [reflexivity | repeat constructor]]. }
  destruct Hfirst as (l0 & r & s1 & -> & Hl & Hc).
  destruct (login_calls_no_export l0 Hc) as (Hx & Hn & _).
  destruct r as [[]|x]; run_p.
  2:{ exists l0. split; [exact Hl | split; [exact Hn | left; exact Hx]]. }
  unfold scrape_all, perform.
  destruct (host_scrape_all H (negb (no_expand args)) (max_pages args) (host s1))
    as [[data|x] w] eqn:Hs; run_p.
  2:{ exists (l0 ++ [ScrapeAll (negb (no_expand args)) (max_pages args)])%list.
      split; [rewrite Hl, <- app_assoc; reflexivity|].
      split; [rewrite in_app_iff; intros [K|[K|[]]]; [exact (Hn K) | discriminate]|].
      left. rewrite filter_app, Hx. reflexivity. }
  destruct data as [|d ds]; run_p.
  { exists (l0 ++ [ScrapeAll (negb (no_expand args)) (max_pages args)])%list.
    split; [rewrite Hl, <- app_assoc; reflexivity|].
    split; [rewrite in_app_iff; intros [K|[K|[]]]; [exact (Hn K) | discriminate]|].
    left. rewrite filter_app, Hx. reflexivity. }
  unfold exports_of, display_table, save_to_csv, save_to_json, save_to_excel.
  destruct (no_display args), pandas; cbn [negb]; repeat exec1.
  all: eexists; split;
    [ rewrite Hl, <- ?app_assoc; reflexivity
    | split;
      [ rewrite in_app_iff; intros [K|K];
        [ exact (Hn K) | cbn in K; intuition discriminate ]
      | right; exists (d :: ds), (host s1);
        rewrite filter_app, Hx; cbn [filter is_export app];
        eexists; split; [discriminate | split; [rewrite Hs; reflexivity | cbn; reflexivity]] ] ].
Qed.

Lemma main_facts (pandas : bool) (args : Args) (s : Run H) :
  exists l,
    calls (snd (main H pandas args s)) = (calls s ++ l ++ [Close])%list
    /\ ~ In Close l
    /\ (filter is_export l = []
        \/ exists data w rest,
             data <> []
             /\ fst (host_scrape_all H (negb (no_expand args)) (max_pages args) w) = Done data
             /\ exports_of H pandas args data = (filter is_export l ++ rest)%list).
Proof.
  unfold main, close.
  destruct (main_steps_facts pandas args s) as (l & Hl & Hn & Hx).
  destruct (main_steps H pandas args s) as [r s1]. cbn [snd] in Hl.
  destruct (perform_run Close (host_close H) s1) as (rc & w & ->).
  exists l. split; [|split; assumption].
  destruct rc; cbn [snd calls]; rewrite Hl, <- app_assoc; reflexivity.
Qed.

(** X18. Once the page has been requested, [login] raises no [Exception]:
    what escapes it is a [KeyboardInterrupt] or what [driver.get] raised. *)
Theorem login_raises_only_what_get_raised
        (wait_time : Z) (email password : string) (s : Run H) (x : raised) :
  fst (login H wait_time email password s) = Thrown x ->
  x = KeyboardInterrupt \/ fst (host_get H url (host s)) = Thrown x.
Proof.
  destruct (login_facts wait_time email password s) as (l & _ & _ & _ & Hx). apply Hx.
Qed.

(** X19. [login] only loads the page, clicks, clears, types and prompts; it
    types nothing, or the email, or the email and then the password, and
    never a credential twice. *)
Theorem login_types_credentials_once
        (wait_time : Z) (email password : string) (s : Run H) :
  exists l,
    calls (snd (login H wait_time email password s)) = (calls s ++ l)%list
    /\ Forall login_call l
    /\ (typed l = [] \/ typed l = [email] \/ typed l = [email; password]).
Proof.
  destruct (login_facts wait_time email password s) as (l & Hl & Hc & Ht & _).
  exists l. auto.
Qed.

(** X20. Whatever happens in the [try] block of [main], [scraper.close()] is
    called exactly once, as the last call. *)
Theorem main_closes_last (pandas : bool) (args : Args) (s : Run H) :
  exists l,
    calls (snd (main H pandas args s)) = (calls s ++ l ++ [Close])%list
    /\ ~ In Close l.
Proof.
  destruct (main_facts pandas args s) as (l & Hl & Hn & _). exists l. auto.
Qed.

Lemma sign_in_facts (args : Args) (s : Run H) :
  exists l0,
    calls (snd (sign_in H args s)) = (calls s ++ l0)%list
    /\ filter is_export l0 = [].
Proof.
  unfold sign_in. destruct (credentials args) as [[e p]|].
  - destruct (login_facts 10 e p s) as (l0 & Hl & Hc & _).
    exists l0. split; [exact Hl | apply login_calls_no_export, Hc].
  - unfold input.
    destruct (perform_run (Input press_enter_if_needed)
                          (host_input H press_enter_if_needed) s) as (r & w & ->).
    exists [Input press_enter_if_needed]. split; reflexivity.
Qed.

(** The next host call of a run, with the call kept as it is. *)
Ltac host_call :=
  run_p; unfold perform; cbn [host calls];
  match goal with
  | |- context [match ?X with pair _ _ => _ end] =>
      lazymatch X with
      | context [match _ with pair _ _ => _ end] => fail
      | _ => let r := fresh "r" in
             let w := fresh "w" in
             destruct X as [r w]; destruct r as [[]|?]
      end
  end;
  run_p.

(** X21. [main] shows or saves nothing unless signing in went through and
    this run's [scrape_all] returned a non-empty list; what it then shows and
    saves is that list, in the order display, CSV, JSON, Excel, each call made
    once, up to and including the first call that raises. *)
Theorem main_exports_only_scraped_data (pandas : bool) (args : Args) (s : Run H) :
  exists l,
    calls (snd (main H pandas args s)) = (calls s ++ l)%list
    /\ filter is_export l =
       match sign_in H args s with
       | (Done _, s1) =>
           match host_scrape_all H (negb (no_expand args)) (max_pages args) (host s1) with
           | (Done (d :: ds), w) => reached H (exports_of H pandas args (d :: ds)) w
           | _ => []
           end
       | (Thrown _, _) => []
       end.
Proof.
  unfold main, main_steps, close. run_p.
  destruct (sign_in_facts args s) as (l0 & Hl & Hx).
  destruct (sign_in H args s) as [r s1]. cbn [snd] in Hl.
  destruct r as [[]|x]; run_p.
  2:{ host_call; (eexists; split;
        [ rewrite Hl, <- ?app_assoc; reflexivity
        | rewrite filter_app, Hx; reflexivity ]). }
  unfold scrape_all, perform at 1.
  destruct (host_scrape_all H (negb (no_expand args)) (max_pages args) (host s1))
    as [[data|x] w]; run_p.
  2:{ host_call; (eexists; split;
        [ rewrite Hl, <- ?app_assoc; reflexivity
        | rewrite filter_app, Hx; reflexivity ]). }
  destruct data as [|d ds]; run_p.
  { host_call; (eexists; split;
      [ rewrite Hl, <- ?app_assoc; reflexivity
      | rewrite filter_app, Hx; reflexivity ]). }
  unfold exports_of, display_table, save_to_csv, save_to_json, save_to_excel.
  destruct (no_display args), pandas;
    cbn [negb app reached export_effect]; repeat host_call.
  all: eexists; split;
    [ rewrite Hl, <- ?app_assoc; reflexivity
    | rewrite filter_app, Hx; reflexivity ].
Qed.

(** X22. A [KeyboardInterrupt] raised while logging in, scraping or saving
    does not leave [main]: unless [close] itself is interrupted, [main] does
    not end with one. *)
Theorem main_keeps_interrupts (pandas : bool) (args : Args) (s : Run H) :
  (forall w, fst (host_close H w) <> Thrown KeyboardInterrupt) ->
  fst (main H pandas args s) <> Thrown KeyboardInterrupt.
Proof.
  intros Hclose. unfold main, close, perform.
  destruct (main_steps H pandas args s) as [r s1].
  specialize (Hclose (host s1)).
  destruct (host_close H (host s1)) as [[[]|x] w]; cbn [fst] in *.
  - destruct r as [[]|[|e]]; discriminate.
  - exact Hclose.
Qed.

Lemma first_present_none (wait_time : Z) (selectors : list string) :
  (forall selector w, In selector selectors ->
     fst (host_wait_presence H wait_time selector w) = Thrown (Error TimeoutException)) ->
  forall s, exists w,
    first_present H wait_time selectors s = (Done None, {| host := w; calls := calls s |}).
Proof.
  induction selectors as [|selector rest IH]; intros Hno s; cbn [first_present].
  - exists (host s). destruct s. reflexivity.
  - unfold Selenium.try_except_timeout, wait_until_present, observe. run_p.
    pose proof (Hno selector (host s) (or_introl eq_refl)) as Hw.
    destruct (host_wait_presence H wait_time selector (host s)) as [r w].
    cbn [fst] in Hw. subst r.
    destruct (IH (fun v w' K => Hno v w' (or_intror K))
                 {| host := w; calls := calls s |}) as (w' & ->).
    exists w'. reflexivity.
Qed.

(** X23. When none of the seven email selectors turns up within the wait,
    [login] types nothing into the page. *)
Theorem login_without_email_field_types_nothing
        (wait_time : Z) (email password : string) (s : Run H) :
  (forall selector w, In selector email_selectors ->
     fst (host_wait_presence H wait_time selector w) = Thrown (Error TimeoutException)) ->
  exists l,
    calls (snd (login H wait_time email password s)) = (calls s ++ l)%list
    /\ typed l = [].
Proof.
  intros Hno.
  unfold login, login_steps, get, click, clear, send_keys, input, find_element.
  repeat (run_p;
          first [ match goal with
                  | |- context [first_present H wait_time email_selectors ?S] =>
                      destruct (first_present_none wait_time email_selectors Hno S) as (? & ->)
                  end
                | exec1 ]).
  all: eexists; split;
    [ rewrite <- ?app_assoc; try reflexivity; symmetry; apply app_nil_r
    | reflexivity ].
Qed.

End SessionFacts.

Example main_on_form_host :
  Session.main (Samples.form_host true true) true Samples.sample_args (Samples.fresh_run true true)
  = (Session.Thrown (Session.Error Selenium.OtherException),
     Session.Build_Run (Samples.form_host true true) tt
          [ Session.Get Session.url;
            Session.ElementClick (H := Samples.form_host true true) "a[href*='sign-in']";
            Session.ElementClear (H := Samples.form_host true true) "input[name='email']";
            Session.SendKeys (H := Samples.form_host true true) "input[name='email']" "reader@example.org";
            Session.ElementClear (H := Samples.form_host true true) "input[type='password']";
            Session.SendKeys (H := Samples.form_host true true) "input[type='password']" "secret";
            Session.ElementClick (H := Samples.form_host true true) "input[type='submit']";
            Session.ScrapeAll true (Some 1%Z);
            Session.DisplayTable [Samples.record_31];
            Session.SaveToCsv [Samples.record_31] "out.csv";
            Session.SaveToJson [Samples.record_31] "out.json";
            Session.Close ]).
Proof. vm_compute. reflexivity. Qed.

Lemma login_raises_only_what_get_raised_witness :
  fst (Session.login (Samples.form_host false true) 10 "reader@example.org" "secret"
                     (Samples.fresh_run false true))
  = Session.Thrown (Session.Error Selenium.OtherException)
  /\ (Session.Error Selenium.OtherException = Session.KeyboardInterrupt
      \/ fst (Session.host_get (Samples.form_host false true) Session.url tt)
         = Session.Thrown (Session.Error Selenium.OtherException)).
Proof.
  split; [reflexivity|].
  apply (login_raises_only_what_get_raised (Samples.form_host false true) 10
           "reader@example.org" "secret" (Samples.fresh_run false true)).
  reflexivity.
Defined.

Lemma main_keeps_interrupts_witness :
  (forall w, fst (Session.host_close (Samples.form_host true true) w)
             <> Session.Thrown Session.KeyboardInterrupt)
  /\ fst (Session.main (Samples.form_host true true) true Samples.sample_args
                       (Samples.fresh_run true true))
     <> Session.Thrown Session.KeyboardInterrupt.
Proof.
  split; [intros w; discriminate|].
  apply (main_keeps_interrupts (Samples.form_host true true) true Samples.sample_args
           (Samples.fresh_run true true)).
  intros w. discriminate.
Defined.

Lemma login_without_email_field_types_nothing_witness :
  (forall selector w, In selector Session.email_selectors ->
     fst (Session.host_wait_presence (Samples.form_host true false) 10 selector w)
     = Session.Thrown (Session.Error Selenium.TimeoutException))
  /\ exists l,
       Session.calls (snd (Session.login (Samples.form_host true false) 10
                                         "reader@example.org" "secret"
                                         (Samples.fresh_run true false)))
       = ([] ++ l)%list
       /\ Session.typed l = [].
Proof.
  split; [intros selector w _; reflexivity|].
  apply (login_without_email_field_types_nothing (Samples.form_host true false) 10
           "reader@example.org" "secret" (Samples.fresh_run true false)).
  intros selector w _. reflexivity.
Defined.

Example login_without_email_field_prompts :
  Session.login (Samples.form_host true false) 10 "reader@example.org" "secret"
                (Samples.fresh_run true false)
  = (Session.Done tt,
     Session.Build_Run (Samples.form_host true false) tt
       [ Session.Get Session.url;
         Session.ElementClick (H := Samples.form_host true false) "a[href*='sign-in']";
         Session.Input Session.press_enter ]).
Proof. vm_compute. reflexivity. Qed.
